(** * Lazarus Core: a shallow embedding of lz_core.c, lz_ecdsa.c and main.c

    The boot-time trust engine of Lazarus (lz_core/lz_core.c), the ECDSA
    wrapper it calls (lz_common/lz_crypto/lz_ecdsa.c) and the entry point that
    runs it (lz_core/source/main.c), as Rocq functions over an explicit
    machine state.

    Conventions.
    - [uint32_t] and [uint8_t] values are [Z]; where the C code computes in
      fixed width the wrap-around is written out ([wrap32], [wrap8]).
    - Byte arrays are [list Z]; a [const uint8_t *] that is only read is the
      indexing function [i |-> p[i]].
    - [LZ_RESULT] values are [Z], because the source returns the C constant
      [false] from functions of that type.
    - Everything declared in headers outside the covered sources (constants,
      enumerator values, sizes, crypto and port primitives, lz_update.c) is a
      field of one of the interface classes below. *)

From Stdlib Require Import ZArith List Bool Lia.
Import ListNotations.
Open Scope Z_scope.

(** ** Fixed-width arithmetic and C buffer primitives *)

Definition wrap32 (z : Z) : Z := z mod 4294967296.
Definition wrap8 (z : Z) : Z := z mod 256.

Definition bytes := list Z.

Definition zero_bytes (n : nat) : bytes := repeat 0 n.

(** [fill32 b]: the [uint32_t] whose four bytes are all [b] (after memset). *)
Definition fill32 (b : Z) : Z := b * 16843009.

(** The first [n] bytes behind a read-only pointer. *)
Definition read_bytes (p : nat -> Z) (n : nat) : bytes := map p (seq 0 n).

(** [memcmp(a, b, n)]: zero iff the first [n] bytes agree, otherwise the
    difference of the first pair that differs. *)
Fixpoint memcmp (a b : bytes) (n : nat) {struct n} : Z :=
  match n with
  | O => 0
  | S n' =>
      match a, b with
      | x :: a', y :: b' => if x =? y then memcmp a' b' n' else x - y
      | [], [] => 0
      | [], _ :: _ => -1
      | _ :: _, [] => 1
      end
  end.

(** [memcpy(dst, src, n)] between arrays: the first [n] bytes of [dst] are
    replaced by those of [src]; the copy stops where either array ends, so
    [dst] keeps its length. *)
Fixpoint memcpy (dst src : bytes) (n : nat) {struct n} : bytes :=
  match n, dst, src with
  | S n', _ :: dst', s :: src' => s :: memcpy dst' src' n'
  | _, _, _ => dst
  end.

(** [memcpy(&dst[off], src, n)]. *)
Definition memcpy_at (dst : bytes) (off : nat) (src : bytes) (n : nat) : bytes :=
  firstn off dst ++ memcpy (skipn off dst) src n.

(** [dst[off] = b]. *)
Definition store_byte (dst : bytes) (off : nat) (b : Z) : bytes :=
  memcpy_at dst off [b] 1.

(** [memcpy(&dst[off], src, n)] and [dst[off] = b] as the machine carries
    them out when the code has not made sure that the bytes fit: what lands
    at or behind the end of [dst] is written all the same, into the memory
    that follows the array. The list is the array together with the bytes
    written behind it so far, so a list longer than the array is an array
    that has been overrun. Memory between the end of the list and a write
    that starts further behind is unknown and reads as 0. *)
Definition memcpy_unchecked (dst : bytes) (off : nat) (src : bytes) (n : nat) : bytes :=
  firstn off dst ++ repeat 0 (off - length dst)
  ++ firstn n src ++ skipn (off + length (firstn n src)) dst.

Definition store_unchecked (dst : bytes) (off : nat) (b : Z) : bytes :=
  memcpy_unchecked dst off [b] 1.

Definition secure_zero_memory (buf : bytes) (n : nat) : bytes :=
  memcpy buf (zero_bytes n) n.

(** [strnlen(s, n)] and [strlen(s)] on an array; the array end bounds both. *)
Fixpoint strnlen (s : bytes) (n : nat) : nat :=
  match n, s with
  | S n', c :: s' => if c =? 0 then O else S (strnlen s' n')
  | _, _ => O
  end.

Definition strlen (s : bytes) : nat := strnlen s (length s).

Definition lz_is_mem_zero (buf : bytes) (n : nat) : bool :=
  forallb (fun b => b =? 0) (firstn n buf).

(** ** Data model (lz_common.h as lz_core.c uses it) *)

Inductive boot_mode_t := APP | LZ_CPATCHER | LZ_UDOWNLOADER.

Inductive hdr_type_t :=
| BOOT_TICKET | DEFERRAL_TICKET | LZ_CORE_UPDATE | LZ_UDOWNLOADER_UPDATE
| LZ_CPATCHER_UPDATE | APP_UPDATE | DEVICE_ID_REASSOC_RES | CONFIG_UPDATE.

(** mbedtls key context: private scalar and public point as byte images. *)
Record lz_ecc_keypair := mk_keypair { kp_priv : bytes; kp_pub : bytes }.

(** [hdr->content] and [hdr->signature] of a staging element. *)
Record lz_auth_hdr_content_t := mk_auth_content {
  ah_magic : Z;
  ah_type : Z;
  ah_payload_size : Z;
  ah_digest : bytes;
  ah_nonce : bytes;
  ah_issue_time : Z
}.

Record lz_auth_hdr_t := mk_auth_hdr {
  ah_content : lz_auth_hdr_content_t;
  ah_signature : bytes
}.

(** [image_hdr->hdr.content] and [image_hdr->hdr.signature]. *)
Record lz_img_hdr_content_t := mk_img_content {
  ih_magic : Z;
  ih_name : bytes;
  ih_version : Z;
  ih_issue_time : Z;
  ih_size : Z;
  ih_hdr_size : Z;
  ih_digest : bytes
}.

Record lz_img_hdr_t := mk_img_hdr {
  ih_content : lz_img_hdr_content_t;
  ih_signature : bytes
}.

Record lz_img_meta_t := mk_meta {
  lastVersion : Z;
  last_issue_time : Z;
  meta_magic : Z
}.

Record static_symm_info_t := mk_ssi {
  ssi_magic : Z;
  ssi_dev_uuid : bytes;
  ssi_static_symm : bytes
}.

Record img_info_t := mk_img_info {
  app_meta : lz_img_meta_t;
  ud_meta : lz_img_meta_t;
  um_meta : lz_img_meta_t
}.

Record nw_info_t := mk_nw { nw_magic : Z; nw_body : bytes }.

Record lz_config_data_t := mk_config {
  static_symm_info : static_symm_info_t;
  img_info : img_info_t;
  nw_info : nw_info_t
}.

Record cert_entry_t := mk_entry { ce_start : Z; ce_size : Z }.

Record trust_anchors_info_t := mk_ta_info {
  ta_dev_pub_key : bytes;
  ta_management_pub_key : bytes;
  ta_code_auth_pub_key : bytes;
  ta_cert_hub : cert_entry_t;        (* certTable[INDEX_LZ_CERTSTORE_HUB] *)
  ta_cert_deviceid : cert_entry_t;   (* certTable[INDEX_LZ_CERTSTORE_DEVICEID] *)
  ta_cursor : Z;
  ta_magic : Z
}.

Record trust_anchors_t := mk_ta {
  ta_info : trust_anchors_info_t;
  ta_certBag : bytes
}.

Record lz_data_store_t := mk_store {
  config_data : lz_config_data_t;
  trust_anchors : trust_anchors_t
}.

(** Boot parameters DICEpp hands to Lazarus Core. *)
Record lz_core_boot_params_t := mk_core_params {
  bp_magic : Z;
  bp_initial_boot : bool;
  bp_cdi_prime : bytes;
  bp_static_symm : bytes;
  bp_dev_uuid : bytes;
  bp_core_auth : bytes;
  bp_cur_nonce : bytes;
  bp_next_nonce : bytes
}.

(** Boot parameters Lazarus Core hands to the next layer. *)
Record lz_img_boot_params_info_t := mk_img_params {
  ip_magic : Z;
  alias_id_keypair_pub : bytes;
  alias_id_keypair_priv : bytes;
  ip_dev_uuid : bytes;
  ip_next_nonce : bytes;
  ip_cur_nonce : bytes;
  dev_auth : bytes;
  dev_reassociation_necessary : bool;
  firmware_update_necessary : bool;
  nw_data : nw_info_t
}.

Record img_cert_store_info_t := mk_cs_info {
  cs_dev_pub_key : bytes;
  cs_management_pub_key : bytes;
  cs_cert_hub : cert_entry_t;
  cs_cert_deviceid : cert_entry_t;
  cs_cert_aliasid : cert_entry_t;
  cs_cursor : Z;
  cs_magic : Z
}.

Record lz_img_cert_store_t := mk_cs {
  cs_info : img_cert_store_info_t;
  cs_certBag : bytes
}.

(** The RAM block at [&lz_img_boot_params]: lz_core.c reads it through
    [lz_core_boot_params] (a cast of the same address) until
    [lz_core_provide_params_ram] overwrites it with the next layer's block. *)
Inductive params_ram_t :=
| CoreView (p : lz_core_boot_params_t)
| ImgView (p : lz_img_boot_params_info_t).

(** The three next-layer images: header symbol, its address, code array and
    the address of the code array. *)
Record image_t := mk_image {
  img_hdr_addr : Z;
  img_hdr : lz_img_hdr_t;
  img_code_addr : Z;
  img_code : nat -> Z
}.

(** Machine state visible to Lazarus Core. *)
Record world := mk_world {
  params_ram : params_ram_t;
  lz_data_store : lz_data_store_t;
  (* lz_staging_area.content: the header a cast at byte offset [c] yields,
     and the raw byte at each offset *)
  staging_hdr : Z -> lz_auth_hdr_t;
  staging_byte : Z -> Z;
  lz_app : image_t;
  lz_cpatcher : image_t;
  lz_udownloader : image_t;
  lz_core_hdr : lz_img_hdr_t;
  lz_img_cert_store : lz_img_cert_store_t;
  awdt : option Z
}.

(** ** Interfaces to what lies outside the covered sources *)

Definition SHA256_DIGEST_LENGTH : nat := 32.

(** Size of a byte pointer: lz_core.c casts pointers to [uint32_t] throughout
    (Cortex-M33), so a pointer has four bytes. *)
Definition sizeof_pointer : nat := 4.

(** Constants, enumerator values, array sizes and struct layouts of
    lz_common.h, lz_config.h and the linker script. *)
Class Constants := {
  LZ_MAGIC : Z;
  LZ_SUCCESS : Z;
  LZ_ERROR : Z;
  LZ_NOT_FOUND : Z;
  hdr_type_code : hdr_type_t -> Z;
  DEFAULT_WDT_TIMOUT_s : Z;
  LEN_UUID_V4_BIN : nat;
  LEN_NONCE : nat;
  MAX_PUB_ECP_PEM_BYTES : nat;
  MAX_PRIV_ECP_PEM_BYTES : nat;
  sizeof_cdi_prime : nat;
  sizeof_static_symm : nat;
  sizeof_core_auth : nat;
  sizeof_dev_auth : nat;
  sizeof_nw_body : nat;
  sizeof_lz_auth_hdr_t : Z;
  sizeof_staging_content : Z;
  LZ_STAGING_AREA_NUM_PAGES : nat;
  sizeof_img_certBag : nat;
  sizeof_ta_certBag : nat;
  (* the [sizeof(hdr->content)] bytes of [hdr->content] that are hashed and
     signed *)
  auth_content_bytes : lz_auth_hdr_content_t -> bytes;
  img_content_bytes : lz_img_hdr_content_t -> bytes;
  (* the Core view of the RAM block once it holds the next layer's block *)
  core_params_of_img : lz_img_boot_params_info_t -> lz_core_boot_params_t;
  (* the test on the status by which the macro [CHECK(call, msg)] of
     lz_crypto_common.h leaves for the label [clean] *)
  CHECK_failed : Z -> bool
}.

(** Names put into the AliasID certificate and the DeviceID CSR. *)
Inductive x509_name := DeviceID_Lazarus_DE | AliasID_Lazarus_DE.

(** lz_sha256.h, lz_hmac.h, lz_ecc.h, lz_x509.h and mbedtls. A function that
    returns an [int] status and fills an output yields the pair of both. *)
Class Crypto := {
  lz_sha256 : bytes -> Z * bytes;
  lz_sha256_two_parts : bytes -> bytes -> Z * bytes;
  lz_hmac_sha256 : bytes -> bytes -> Z * bytes;
  lz_derive_ecc_keypair : bytes -> Z * lz_ecc_keypair;
  lz_pub_key_to_pem : lz_ecc_keypair -> bytes;
  lz_priv_key_to_pem : lz_ecc_keypair -> bytes;
  lz_pem_to_pub_key : bytes -> Z * lz_ecc_keypair;
  lz_compare_public_key : bytes -> bytes -> Z;
  mbedtls_pk_parse_public_key : bytes -> Z * lz_ecc_keypair;
  mbedtls_pk_verify : lz_ecc_keypair -> bytes -> bytes -> Z;
  (* serial number derived from a PEM public key *)
  lz_set_serial_number_cert : bytes -> Z * bytes;
  lz_set_serial_number_csr : bytes -> Z * bytes;
  (* issuer, subject, serial, subject key, issuer key, room: status and the
     NUL-terminated PEM text written *)
  lz_write_cert_to_pem :
    x509_name -> x509_name -> bytes -> lz_ecc_keypair -> lz_ecc_keypair -> Z -> Z * bytes;
  lz_write_csr_to_pem : x509_name -> bytes -> lz_ecc_keypair -> Z -> Z * bytes
}.

(** What [lzport_flash_write] is asked to program, and where. *)
Inductive flash_target :=
| FlashDataStore | FlashConfigData | FlashTrustAnchors | FlashStagingPage (i : nat).

Inductive flash_source :=
| SrcFill (b : Z)                  (* a buffer after [memset(buf, b, len)] *)
| SrcConfig (c : lz_config_data_t)
| SrcTrustAnchors (t : trust_anchors_t).

(** lzport_flash.h and lz_update.h. *)
Class Externals := {
  lzport_flash_write : flash_target -> flash_source -> world -> world * bool;
  lz_std_updates_pending : world -> Z;
  lz_apply_updates : world -> world;
  lz_update_img_meta_data : world -> world * Z;
  lz_verified_core_update_pending : world -> Z
}.

(** ** Control outcomes of [lz_core_run] *)

(** Where a run of Lazarus Core ends, or that it goes on. *)
Inductive outcome (A : Type) : Type :=
| Continue (a : A) (w : world)
| ReturnFalse (w : world)          (* [return false;] out of [lz_core_run] *)
| ErrorHandler (w : world)         (* [lz_error_handler()] *)
| WaitProvisioning (w : world)     (* [for (;;) ;] *)
| OutOfFuel.                       (* a staging walk has not ended yet *)

Arguments Continue {A} a w.
Arguments ReturnFalse {A} w.
Arguments ErrorHandler {A} w.
Arguments WaitProvisioning {A} w.
Arguments OutOfFuel {A}.

Definition M (A : Type) : Type := world -> outcome A.

Definition ret {A} (a : A) : M A := fun w => Continue a w.

Definition bind {A B} (m : M A) (k : A -> M B) : M B :=
  fun w =>
    match m w with
    | Continue a w' => k a w'
    | ReturnFalse w' => ReturnFalse w'
    | ErrorHandler w' => ErrorHandler w'
    | WaitProvisioning w' => WaitProvisioning w'
    | OutOfFuel => OutOfFuel
    end.

Notation "x <- m ;; k" := (bind m (fun x => k))
  (at level 61, m at next level, right associativity).
Notation "m ;;; k" := (bind m (fun _ => k))
  (at level 61, right associativity).

(** Modelled from the spec: [lz_error_handler] is the platform's unrecoverable
    halt (section 7: "an unrecoverable halt via the platform's error handler");
    it is declared in lz_common.h and never returns. *)
Definition lz_error_handler {A} : M A := fun w => ErrorHandler w.

Definition return_false {A} : M A := fun w => ReturnFalse w.
Definition get_world : M world := fun w => Continue w w.
Definition put_world (w : world) : M unit := fun _ => Continue tt w.
(** A call that changes the state and yields a value. *)
Definition call {A} (f : world -> world * A) : M A :=
  fun w => let (w', a) := f w in Continue a w'.
(** A staging walk run with [fuel] iterations at most. *)
Definition walk {A} (f : world -> option A) : M A :=
  fun w => match f w with Some a => Continue a w | None => OutOfFuel end.

(** Pointers [lz_get_deferral_time] handles. *)
Inductive pointer :=
| NULL
| CallerVar                 (* [&deferral_time] of the caller *)
| StagingPtr (off : Z).     (* into [lz_staging_area.content] *)

(** Result of a header search: [*return_hdr] is an offset into the area. *)
Inductive staging_lookup := Found (off : Z) | NotFound.

(** * The model *)

Section Model.
Context {K : Constants} {C : Crypto} {E : Externals}.

(** [lz_core_boot_params], the Core's view of the shared RAM block. *)
Definition lz_core_boot_params (w : world) : lz_core_boot_params_t :=
  match params_ram w with
  | CoreView p => p
  | ImgView p => core_params_of_img p
  end.

Definition management_pub_key (w : world) : bytes :=
  ta_management_pub_key (ta_info (trust_anchors (lz_data_store w))).

Definition code_auth_pub_key (w : world) : bytes :=
  ta_code_auth_pub_key (ta_info (trust_anchors (lz_data_store w))).

(** ** lz_ecdsa.c *)

(** [lz_ecdsa_verify_pub_pem] (lz_ecdsa.c 104-125). Each [CHECK(call, msg)]
    stores the status of [call] in [re] and may leave for [clean], which
    returns [re]; after the last one [re] is returned either way. *)
Definition lz_ecdsa_verify_pub_pem (data key sig : bytes) : Z :=
  let '(re, pk_context) :=
    mbedtls_pk_parse_public_key
      (firstn (strnlen key (MAX_PUB_ECP_PEM_BYTES - 1) + 1) key) in
  if CHECK_failed re then re else
  let '(re, hash) := lz_sha256 data in
  if CHECK_failed re then re else
  mbedtls_pk_verify pk_context hash sig.

(** ** Staging engine *)

(** [lz_core_verify_staging_elem_hdr_sig] (lz_core.c 794-821). *)
Definition lz_core_verify_staging_elem_hdr_sig
    (hdr : lz_auth_hdr_t) (payload : nat -> Z) (w : world) : Z :=
  let '(rc, digest) :=
    lz_sha256 (read_bytes payload (Z.to_nat (ah_payload_size (ah_content hdr)))) in
  if negb (rc =? 0) then LZ_ERROR else
  if negb (memcmp digest (ah_digest (ah_content hdr)) SHA256_DIGEST_LENGTH =? 0)
  then LZ_ERROR else
  if negb (lz_ecdsa_verify_pub_pem (auth_content_bytes (ah_content hdr))
             (management_pub_key w) (ah_signature hdr) =? 0)
  then LZ_ERROR else
  LZ_SUCCESS.

(** [lz_core_verify_staging_elem_hdr] (lz_core.c 843-882). *)
Definition lz_core_verify_staging_elem_hdr
    (hdr : lz_auth_hdr_t) (payload : nat -> Z) (nonce : bytes) (w : world) : Z :=
  if negb (ah_magic (ah_content hdr) =? LZ_MAGIC) then LZ_ERROR else
  if ah_payload_size (ah_content hdr) =? 0 then LZ_ERROR else
  if negb (memcmp (ah_nonce (ah_content hdr)) nonce LEN_NONCE =? 0) then LZ_ERROR else
  if negb (lz_core_verify_staging_elem_hdr_sig hdr payload w =? LZ_SUCCESS)
  then LZ_ERROR else
  LZ_SUCCESS.

(** [cursor += sizeof(lz_auth_hdr_t) + hdr->content.payload_size] on
    [uint32_t]. *)
Definition next_cursor (w : world) (cursor : Z) : Z :=
  wrap32 (cursor + (sizeof_lz_auth_hdr_t
                    + ah_payload_size (ah_content (staging_hdr w cursor)))).

(** The loop of [lz_get_num_staging_elems] (lz_core.c 1001-1015), at most
    [fuel] iterations; [num_elements] is a [uint8_t]. *)
Fixpoint lz_get_num_staging_elems_loop
    (fuel : nat) (w : world) (cursor num_elements : Z) : option Z :=
  match fuel with
  | O => None
  | S fuel' =>
      if cursor <? sizeof_staging_content then
        if negb (ah_magic (ah_content (staging_hdr w cursor)) =? LZ_MAGIC)
        then Some num_elements
        else lz_get_num_staging_elems_loop fuel' w (next_cursor w cursor)
               (wrap8 (num_elements + 1))
      else Some num_elements
  end.

Definition lz_get_num_staging_elems (fuel : nat) (w : world) : option Z :=
  lz_get_num_staging_elems_loop fuel w 0 0.

(** Modelled from the spec: [lz_get_staging_hdr] is defined in lz_common.c,
    outside the covered sources. Section 4.5: "`find_header(type,
    expected_nonce)` walks similarly, returning the first header whose `type`
    matches and whose `nonce == expected_nonce`", where the walk is that of
    [lz_get_num_staging_elems]: from cursor 0, stepping by the header size plus
    the payload size, until the region end or a header whose magic is not
    [LZ_MAGIC]. *)
Fixpoint lz_get_staging_hdr_loop
    (fuel : nat) (hdr_type : hdr_type_t) (nonce : bytes) (w : world) (cursor : Z)
    : option staging_lookup :=
  match fuel with
  | O => None
  | S fuel' =>
      if cursor <? sizeof_staging_content then
        let c := ah_content (staging_hdr w cursor) in
        if negb (ah_magic c =? LZ_MAGIC) then Some NotFound
        else if (ah_type c =? hdr_type_code hdr_type)
                && (memcmp (ah_nonce c) nonce LEN_NONCE =? 0)
        then Some (Found cursor)
        else lz_get_staging_hdr_loop fuel' hdr_type nonce w (next_cursor w cursor)
      else Some NotFound
  end.

Definition lz_get_staging_hdr
    (fuel : nat) (hdr_type : hdr_type_t) (nonce : bytes) (w : world)
    : option staging_lookup :=
  lz_get_staging_hdr_loop fuel hdr_type nonce w 0.

(** The [LZ_RESULT] of a search. *)
Definition lookup_result (l : staging_lookup) : Z :=
  match l with Found _ => LZ_SUCCESS | NotFound => LZ_NOT_FOUND end.

(** [((uint8_t * )hdr) + sizeof(lz_auth_hdr_t)] for the header at [off]. *)
Definition staging_payload (w : world) (off : Z) : nat -> Z :=
  fun i => staging_byte w (off + sizeof_lz_auth_hdr_t + Z.of_nat i).

(** [lz_has_staging_elem_type] (lz_core.c 788-792). *)
Definition lz_has_staging_elem_type
    (fuel : nat) (elem_type : hdr_type_t) (w : world) : option Z :=
  option_map lookup_result
    (lz_get_staging_hdr fuel elem_type (bp_cur_nonce (lz_core_boot_params w)) w).

(** [lz_has_valid_staging_element] (lz_core.c 965-986). *)
Definition lz_has_valid_staging_element
    (fuel : nat) (hdr_type : hdr_type_t) (w : world) : option Z :=
  match lz_get_staging_hdr fuel hdr_type (bp_cur_nonce (lz_core_boot_params w)) w with
  | None => None
  | Some (Found off) =>
      if negb (lz_core_verify_staging_elem_hdr (staging_hdr w off)
                 (staging_payload w off) (bp_cur_nonce (lz_core_boot_params w)) w
               =? LZ_SUCCESS)
      then Some LZ_ERROR
      else Some LZ_SUCCESS
  | Some NotFound => Some LZ_NOT_FOUND
  end.

(** [lz_get_staging_elem_content] (lz_core.c 1021-1032): the status and the
    pointer stored into [*content]. *)
Definition lz_get_staging_elem_content
    (fuel : nat) (elem_type : hdr_type_t) (w : world) : option (Z * pointer) :=
  match lz_get_staging_hdr fuel elem_type (bp_cur_nonce (lz_core_boot_params w)) w with
  | None => None
  | Some (Found off) => Some (LZ_SUCCESS, StagingPtr (off + sizeof_lz_auth_hdr_t))
  | Some NotFound => Some (LZ_NOT_FOUND, NULL)
  end.

(** [lz_get_deferral_time] (lz_core.c 269-288). The parameter [deferral_time]
    is a pointer variable of the callee that holds [CallerVar] on entry. The
    call [lz_get_staging_elem_content(DEFERRAL_TICKET, &deferral_time)] passes
    the address of that parameter, so [*content = ...] assigns the parameter;
    no statement stores through it. The result is the status, the caller's
    variable after the call, and the parameter's final value. *)
Definition lz_get_deferral_time
    (fuel : nat) (caller_var : Z) (w : world) : option (Z * Z * pointer) :=
  let deferral_time := CallerVar in
  match lz_has_valid_staging_element fuel DEFERRAL_TICKET w with
  | None => None
  | Some result =>
      if negb (result =? LZ_SUCCESS) then Some (result, caller_var, deferral_time)
      else
        match lz_get_staging_elem_content fuel DEFERRAL_TICKET w with
        | None => None
        | Some (result, deferral_time) =>
            if negb (result =? LZ_SUCCESS)
            then Some (result, caller_var, deferral_time)
            else Some (LZ_SUCCESS, caller_var, deferral_time)
        end
  end.

(** [lz_verify_staging_header] (lz_core.c 823-841). *)
Definition lz_verify_staging_header
    (hdr : lz_auth_hdr_t) (payload : nat -> Z) (w : world) : Z :=
  if negb (lz_core_verify_staging_elem_hdr hdr payload
             (bp_cur_nonce (lz_core_boot_params w)) w =? LZ_SUCCESS)
  then LZ_ERROR
  else
    let t := ah_type (ah_content hdr) in
    if (t =? hdr_type_code LZ_CORE_UPDATE)
       || (t =? hdr_type_code LZ_UDOWNLOADER_UPDATE)
       || (t =? hdr_type_code LZ_CPATCHER_UPDATE)
       || (t =? hdr_type_code APP_UPDATE)
       || (t =? hdr_type_code DEVICE_ID_REASSOC_RES)
       || (t =? hdr_type_code CONFIG_UPDATE)
    then LZ_SUCCESS
    else LZ_ERROR.

(** ** Image verifier *)

(** [lz_core_verify_image] (lz_core.c 884-963). [image_digest_out] is [None]
    for a NULL pointer, otherwise the buffer's contents; the result pairs the
    status with the buffer afterwards. The branch on [image_meta->magic]
    executes [return false;]. The [asctime] lines only format debug text. *)
Definition lz_core_verify_image
    (image_hdr_addr : Z) (image_hdr : lz_img_hdr_t)
    (image_code_addr : Z) (image_code : nat -> Z)
    (image_meta : lz_img_meta_t) (image_digest_out : option bytes) (w : world)
    : Z * option bytes :=
  let c := ih_content image_hdr in
  if negb (ih_magic c =? LZ_MAGIC) then (LZ_ERROR, image_digest_out) else
  if negb (image_code_addr =? wrap32 (image_hdr_addr + ih_hdr_size c))
  then (LZ_ERROR, image_digest_out) else
  let '(rc, digest) := lz_sha256 (read_bytes image_code (Z.to_nat (ih_size c))) in
  if negb (rc =? 0) then (LZ_ERROR, image_digest_out) else
  if negb (memcmp digest (ih_digest c) SHA256_DIGEST_LENGTH =? 0)
  then (LZ_ERROR, image_digest_out) else
  if negb (lz_ecdsa_verify_pub_pem (img_content_bytes c) (code_auth_pub_key w)
             (ih_signature image_hdr) =? 0)
  then (LZ_ERROR, image_digest_out) else
  if negb (meta_magic image_meta =? LZ_MAGIC) then (0, image_digest_out) else
  if (lastVersion image_meta >? ih_version c)
     || (last_issue_time image_meta >? ih_issue_time c)
  then (LZ_ERROR, image_digest_out) else
  (LZ_SUCCESS,
   match image_digest_out with
   | Some buf => Some (memcpy buf digest SHA256_DIGEST_LENGTH)
   | None => None
   end).

(** [lz_core_get_next_layer_addrs] (lz_core.c 290-333); [boot_mode_t] has no
    value for the [default] branch. *)
Definition lz_core_get_next_layer_addrs
    (boot_mode : boot_mode_t) (w : world) : image_t * lz_img_meta_t :=
  let info := img_info (config_data (lz_data_store w)) in
  match boot_mode with
  | APP => (lz_app w, app_meta info)
  | LZ_CPATCHER => (lz_cpatcher w, um_meta info)
  | LZ_UDOWNLOADER => (lz_udownloader w, ud_meta info)
  end.

(** [lz_core_verify_next_layer] (lz_core.c 337-353): status and the
    [next_layer_digest] buffer afterwards. *)
Definition lz_core_verify_next_layer
    (boot_mode : boot_mode_t) (next_layer_digest : bytes) (w : world) : Z * bytes :=
  let '(img, img_meta) := lz_core_get_next_layer_addrs boot_mode w in
  let '(result, out) :=
    lz_core_verify_image (img_hdr_addr img) (img_hdr img) (img_code_addr img)
      (img_code img) img_meta (Some next_layer_digest) w in
  (result, match out with Some d => d | None => next_layer_digest end).

(** ** Key derivation *)

(** [lz_core_derive_device_id] (lz_core.c 253-265). *)
Definition lz_core_derive_device_id (w : world) : Z * lz_ecc_keypair :=
  let '(rc, device_id_keypair) :=
    lz_derive_ecc_keypair
      (firstn sizeof_cdi_prime (bp_cdi_prime (lz_core_boot_params w))) in
  if negb (rc =? 0) then (LZ_ERROR, device_id_keypair)
  else (LZ_SUCCESS, device_id_keypair).

(** [lz_core_derive_alias_id_keypair] (lz_core.c 420-432). [digest] is a
    parameter of type pointer to byte, so the seed length [sizeof(digest)]
    is the size of a pointer. *)
Definition lz_core_derive_alias_id_keypair (digest : bytes) : Z * lz_ecc_keypair :=
  let '(rc, lz_alias_id_keypair) :=
    lz_derive_ecc_keypair (firstn sizeof_pointer digest) in
  if negb (rc =? 0) then (LZ_ERROR, lz_alias_id_keypair)
  else (LZ_SUCCESS, lz_alias_id_keypair).

(** [lz_core_derive_dev_auth] (lz_core.c 390-417): status and the [dev_auth]
    array afterwards. *)
Definition lz_core_derive_dev_auth
    (dev_auth : bytes) (dev_auth_length : nat) (lz_dev_id : lz_ecc_keypair)
    (w : world) : Z * bytes :=
  if (dev_auth_length <? SHA256_DIGEST_LENGTH)%nat then (LZ_ERROR, dev_auth) else
  let digest_dev_auth := zero_bytes (MAX_PUB_ECP_PEM_BYTES + LEN_UUID_V4_BIN) in
  let digest_dev_auth :=
    memcpy digest_dev_auth (lz_pub_key_to_pem lz_dev_id) MAX_PUB_ECP_PEM_BYTES in
  let digest_dev_auth :=
    memcpy_at digest_dev_auth MAX_PUB_ECP_PEM_BYTES
      (bp_dev_uuid (lz_core_boot_params w)) LEN_UUID_V4_BIN in
  let '(rc, mac) :=
    lz_hmac_sha256 digest_dev_auth
      (firstn sizeof_core_auth (bp_core_auth (lz_core_boot_params w))) in
  if negb (rc =? 0) then (LZ_ERROR, dev_auth)
  else (LZ_SUCCESS, memcpy dev_auth mac SHA256_DIGEST_LENGTH).

(** ** Certificate store *)

Definition set_img_cert_store (cs : lz_img_cert_store_t) (w : world) : world :=
  mk_world (params_ram w) (lz_data_store w) (staging_hdr w) (staging_byte w)
    (lz_app w) (lz_cpatcher w) (lz_udownloader w) (lz_core_hdr w) cs (awdt w).

Definition set_params_ram (p : params_ram_t) (w : world) : world :=
  mk_world p (lz_data_store w) (staging_hdr w) (staging_byte w)
    (lz_app w) (lz_cpatcher w) (lz_udownloader w) (lz_core_hdr w)
    (lz_img_cert_store w) (awdt w).

Definition set_awdt (a : option Z) (w : world) : world :=
  mk_world (params_ram w) (lz_data_store w) (staging_hdr w) (staging_byte w)
    (lz_app w) (lz_cpatcher w) (lz_udownloader w) (lz_core_hdr w)
    (lz_img_cert_store w) a.

(** [certBag[cursor .. cursor + size)] of the trust anchors. *)
Definition ta_cert (ta : trust_anchors_t) (e : cert_entry_t) : bytes :=
  firstn (Z.to_nat (ce_size e)) (skipn (Z.to_nat (ce_start e)) (ta_certBag ta)).

(** [lz_core_create_cert_store] (lz_core.c 434-545). The store is built in
    place in [lz_img_cert_store]; the first overflow check leaves with
    [return false;]. Both overflow checks compare [cursor + size] with the
    size of [certBag] by [>] and leave the terminating NUL out of account,
    and the room for the AliasID certificate is computed in [uint32_t]; the
    writes that follow are not bounded by the array, so [cs_certBag] of the
    result is the array together with what has been written behind it. *)
Definition lz_core_create_cert_store
    (boot_mode : boot_mode_t) (alias_keypair device_id_keypair : lz_ecc_keypair)
    (w : world) : world * Z :=
  let ta := trust_anchors (lz_data_store w) in
  let alias_keypair_pem := lz_pub_key_to_pem alias_keypair in
  let '(rc, serial) :=
    lz_set_serial_number_cert (firstn MAX_PUB_ECP_PEM_BYTES alias_keypair_pem) in
  if negb (rc =? 0) then (w, LZ_ERROR) else
  (* memset, DeviceID public key, management public key *)
  let dev_pub :=
    memcpy (zero_bytes MAX_PUB_ECP_PEM_BYTES) (lz_pub_key_to_pem device_id_keypair)
      MAX_PUB_ECP_PEM_BYTES in
  let mgmt :=
    memcpy (zero_bytes MAX_PUB_ECP_PEM_BYTES) (ta_management_pub_key (ta_info ta))
      MAX_PUB_ECP_PEM_BYTES in
  let e0 := mk_entry 0 0 in
  let bag := zero_bytes sizeof_img_certBag in
  let cursor := 0 in
  let store hub dev alias cur magic bag :=
    set_img_cert_store (mk_cs (mk_cs_info dev_pub mgmt hub dev alias cur magic) bag) w in
  let hub := ta_cert_hub (ta_info ta) in
  if cursor + ce_size hub >? Z.of_nat sizeof_img_certBag
  then (store e0 e0 e0 cursor 0 bag, 0) else
  let '(bag, cs_hub, cursor) :=
    if negb (ce_size hub =? 0) then
      let bag := memcpy_unchecked bag (Z.to_nat cursor) (ta_cert ta hub) (Z.to_nat (ce_size hub)) in
      let cursor' := cursor + ce_size hub in
      (store_unchecked bag (Z.to_nat cursor') 0, mk_entry cursor (ce_size hub), cursor' + 1)
    else (bag, e0, cursor) in
  let dev := ta_cert_deviceid (ta_info ta) in
  if cursor + ce_size dev >? Z.of_nat sizeof_img_certBag
  then (store cs_hub e0 e0 cursor 0 bag, LZ_ERROR) else
  let bag := memcpy_unchecked bag (Z.to_nat cursor) (ta_cert ta dev) (Z.to_nat (ce_size dev)) in
  let cs_dev := mk_entry cursor (ce_size dev) in
  let cursor := cursor + ce_size dev in
  let bag := store_unchecked bag (Z.to_nat cursor) 0 in
  let cursor := cursor + 1 in
  let rem_length := wrap32 (Z.of_nat sizeof_img_certBag - cursor) in
  let '(rc, pem) :=
    lz_write_cert_to_pem DeviceID_Lazarus_DE AliasID_Lazarus_DE serial
      alias_keypair device_id_keypair rem_length in
  let bag := memcpy_unchecked bag (Z.to_nat cursor) pem (length pem) in
  if negb (rc =? 0) then (store cs_hub cs_dev e0 cursor 0 bag, LZ_ERROR) else
  let rem_length := Z.of_nat (strlen (skipn (Z.to_nat cursor) bag)) in
  let cs_alias := mk_entry cursor rem_length in
  let cursor := cursor + rem_length in
  let bag := store_unchecked bag (Z.to_nat cursor) 0 in
  let cursor := cursor + 1 in
  (store cs_hub cs_dev cs_alias cursor LZ_MAGIC bag, LZ_SUCCESS).

(** ** Parameter handoff *)

(** [lz_img_boot_params_info_t img_boot_params_info_cpy = { 0 }]. *)
Definition img_boot_params_zero : lz_img_boot_params_info_t :=
  mk_img_params 0
    (zero_bytes MAX_PUB_ECP_PEM_BYTES) (zero_bytes MAX_PRIV_ECP_PEM_BYTES)
    (zero_bytes LEN_UUID_V4_BIN) (zero_bytes LEN_NONCE) (zero_bytes LEN_NONCE)
    (zero_bytes sizeof_dev_auth) false false
    (mk_nw 0 (zero_bytes sizeof_nw_body)).

Definition is_mode (a b : boot_mode_t) : bool :=
  match a, b with
  | APP, APP | LZ_CPATCHER, LZ_CPATCHER | LZ_UDOWNLOADER, LZ_UDOWNLOADER => true
  | _, _ => false
  end.

(** [lz_core_provide_params_ram] (lz_core.c 548-621). The block is built in
    the local copy field by field and written over the shared RAM block at
    the end. *)
Definition lz_core_provide_params_ram
    (boot_mode : boot_mode_t) (lz_core_updated firmware_update_necessary : bool)
    (lz_alias_id_keypair lz_dev_id_keypair : lz_ecc_keypair) (w : world)
    : world * Z :=
  let core := lz_core_boot_params w in
  let z := img_boot_params_zero in
  let pub := memcpy (alias_id_keypair_pub z) (lz_pub_key_to_pem lz_alias_id_keypair)
               MAX_PUB_ECP_PEM_BYTES in
  let priv := memcpy (alias_id_keypair_priv z) (lz_priv_key_to_pem lz_alias_id_keypair)
                MAX_PRIV_ECP_PEM_BYTES in
  (* App and UD get the next nonce *)
  let '(uuid, next_nonce) :=
    if is_mode boot_mode LZ_UDOWNLOADER || is_mode boot_mode APP then
      (memcpy (ip_dev_uuid z) (bp_dev_uuid core) LEN_UUID_V4_BIN,
       memcpy (ip_next_nonce z) (bp_next_nonce core) LEN_NONCE)
    else (ip_dev_uuid z, ip_next_nonce z) in
  (* UD and Core Patcher get the current nonce, dev_auth and the flags *)
  let privileged := is_mode boot_mode LZ_UDOWNLOADER || is_mode boot_mode LZ_CPATCHER in
  let uuid :=
    if privileged then memcpy uuid (bp_dev_uuid core) LEN_UUID_V4_BIN else uuid in
  let cur_nonce :=
    if privileged then memcpy (ip_cur_nonce z) (bp_cur_nonce core) LEN_NONCE
    else ip_cur_nonce z in
  let '(rc, auth) :=
    if privileged
    then lz_core_derive_dev_auth (dev_auth z) sizeof_dev_auth lz_dev_id_keypair w
    else (LZ_SUCCESS, dev_auth z) in
  if privileged && negb (rc =? LZ_SUCCESS) then (w, LZ_ERROR) else
  let reassoc := if privileged then lz_core_updated else false in
  let fw := if privileged then firmware_update_necessary else false in
  (* UD gets the network credentials when present *)
  let nw :=
    if is_mode boot_mode LZ_UDOWNLOADER
       && (nw_magic (nw_info (config_data (lz_data_store w))) =? LZ_MAGIC)
    then nw_info (config_data (lz_data_store w))
    else nw_data z in
  let img_boot_params_info_cpy :=
    mk_img_params LZ_MAGIC pub priv uuid next_nonce cur_nonce auth reassoc fw nw in
  let '(w, rc) :=
    lz_core_create_cert_store boot_mode lz_alias_id_keypair lz_dev_id_keypair w in
  if negb (rc =? LZ_SUCCESS) then (w, LZ_ERROR) else
  (set_params_ram (ImgView img_boot_params_info_cpy) w, LZ_SUCCESS).

(** ** Flash store and first-boot helpers *)

Definition LZ_RESULT_of_write (ok : bool) : Z := if ok then LZ_SUCCESS else LZ_ERROR.

(** [lz_core_erase_lz_data_store] (lz_core.c 699-708). *)
Definition lz_core_erase_lz_data_store (w : world) : world * Z :=
  let (w, ok) := lzport_flash_write FlashDataStore (SrcFill 255) w in
  (w, LZ_RESULT_of_write ok).

(** The page loop of [lz_core_erase_staging_area] (lz_core.c 710-723), from
    page [i] for [n] pages. *)
Fixpoint erase_staging_pages (n i : nat) (w : world) : world * Z :=
  match n with
  | O => (w, LZ_SUCCESS)
  | S n' =>
      let (w, ok) := lzport_flash_write (FlashStagingPage i) (SrcFill 255) w in
      if negb ok then (w, LZ_ERROR) else erase_staging_pages n' (S i) w
  end.

Definition lz_core_erase_staging_area (w : world) : world * Z :=
  erase_staging_pages LZ_STAGING_AREA_NUM_PAGES 0 w.

(** A [lz_config_data_t] after [memset(&cfg, b, sizeof(cfg))]. *)
Definition config_filled (b : Z) : lz_config_data_t :=
  let m := mk_meta (fill32 b) (fill32 b) (fill32 b) in
  mk_config
    (mk_ssi (fill32 b) (repeat b LEN_UUID_V4_BIN) (repeat b sizeof_static_symm))
    (mk_img_info m m m)
    (mk_nw (fill32 b) (repeat b sizeof_nw_body)).

(** [lz_core_store_static_symm] (lz_core.c 750-772). *)
Definition lz_core_store_static_symm (w : world) : world * Z :=
  let core := lz_core_boot_params w in
  let cfg := config_filled 255 in
  let ssi := static_symm_info cfg in
  let cfg_data_cpy :=
    mk_config
      (mk_ssi LZ_MAGIC
         (memcpy (ssi_dev_uuid ssi) (bp_dev_uuid core) (length (ssi_dev_uuid ssi)))
         (memcpy (ssi_static_symm ssi) (bp_static_symm core)
            (length (ssi_static_symm ssi))))
      (img_info cfg) (nw_info cfg) in
  let (w, ok) := lzport_flash_write FlashConfigData (SrcConfig cfg_data_cpy) w in
  (w, LZ_RESULT_of_write ok).

(** [lz_core_wipe_static_symm] (lz_core.c 359-388). *)
Definition lz_core_wipe_static_symm (w : world) : world * Z :=
  let cfg := config_data (lz_data_store w) in
  let ssi := static_symm_info cfg in
  if lz_is_mem_zero (ssi_static_symm ssi) (length (ssi_static_symm ssi))
  then (w, LZ_SUCCESS)
  else
    let config_data_cpy :=
      mk_config
        (mk_ssi LZ_MAGIC (ssi_dev_uuid ssi)
           (secure_zero_memory (ssi_static_symm ssi) (length (ssi_static_symm ssi))))
        (img_info cfg) (nw_info cfg) in
    let (w, ok) := lzport_flash_write FlashConfigData (SrcConfig config_data_cpy) w in
    (w, LZ_RESULT_of_write ok).

(** [lz_core_is_provisioning_complete] (lz_core.c 780-786). *)
Definition lz_core_is_provisioning_complete (w : world) : bool :=
  (ta_magic (ta_info (trust_anchors (lz_data_store w))) =? LZ_MAGIC)
  && (ih_magic (ih_content (img_hdr (lz_udownloader w))) =? LZ_MAGIC)
  && (ih_magic (ih_content (img_hdr (lz_cpatcher w))) =? LZ_MAGIC)
  && (ih_magic (ih_content (lz_core_hdr w)) =? LZ_MAGIC).

(** [trust_anchors_t ta_copy = { 0 }]. *)
Definition trust_anchors_zero : trust_anchors_t :=
  mk_ta
    (mk_ta_info (zero_bytes MAX_PUB_ECP_PEM_BYTES) (zero_bytes MAX_PUB_ECP_PEM_BYTES)
       (zero_bytes MAX_PUB_ECP_PEM_BYTES) (mk_entry 0 0) (mk_entry 0 0) 0 0)
    (zero_bytes sizeof_ta_certBag).

(** [lz_core_create_device_id_csr] (lz_core.c 626-697). *)
Definition lz_core_create_device_id_csr
    (first_boot : bool) (device_id_keypair : lz_ecc_keypair) (w : world)
    : world * Z :=
  let ta_copy :=
    if negb first_boot then trust_anchors (lz_data_store w)
    else mk_ta (ta_info trust_anchors_zero) (repeat 255 sizeof_ta_certBag) in
  let i := ta_info ta_copy in
  let dev_pub_key :=
    memcpy (ta_dev_pub_key i) (lz_pub_key_to_pem device_id_keypair)
      (length (ta_dev_pub_key i)) in
  let '(rc, serial) := lz_set_serial_number_csr dev_pub_key in
  if negb (rc =? 0) then (w, LZ_ERROR) else
  let bag_size := Z.of_nat (length (ta_certBag ta_copy)) in
  if negb first_boot && (ta_cursor i =? 0) then (w, LZ_ERROR) else
  let '(cursor, len) :=
    if first_boot then (ta_cursor i, bag_size)
    else if lz_core_is_provisioning_complete w
         then (ce_start (ta_cert_deviceid i), ce_size (ta_cert_deviceid i))
         else (0, bag_size) in
  let '(rc, pem) := lz_write_csr_to_pem DeviceID_Lazarus_DE serial device_id_keypair len in
  let bag := memcpy_at (ta_certBag ta_copy) (Z.to_nat cursor) pem (length pem) in
  if rc <? 0 then (w, LZ_ERROR) else
  let len := Z.of_nat (strlen (skipn (Z.to_nat cursor) bag)) in
  let entry := mk_entry cursor (len mod 65536) in
  let cursor := cursor + len in
  let bag := store_byte bag (Z.to_nat cursor) 0 in
  let cursor := cursor + 1 in
  let ta_copy :=
    mk_ta
      (mk_ta_info dev_pub_key (ta_management_pub_key i) (ta_code_auth_pub_key i)
         (ta_cert_hub i) entry cursor (ta_magic i))
      bag in
  let (w, ok) := lzport_flash_write FlashTrustAnchors (SrcTrustAnchors ta_copy) w in
  (w, LZ_RESULT_of_write ok).

(** [lz_core_is_updated] (lz_core.c 727-739). *)
Definition lz_core_is_updated (lz_dev_id_keypair : lz_ecc_keypair) (w : world) : bool :=
  let '(rc, old_key) :=
    lz_pem_to_pub_key (ta_dev_pub_key (ta_info (trust_anchors (lz_data_store w)))) in
  if negb (rc =? 0) then true
  else negb (lz_compare_public_key (kp_pub old_key) (kp_pub lz_dev_id_keypair) =? 0).

(** [lz_core_is_initial_boot] (lz_core.c 741-744). *)
Definition lz_core_is_initial_boot (w : world) : bool :=
  bp_initial_boot (lz_core_boot_params w).

(** [lz_core_boot_params_valid] (lz_core.c 775-778). *)
Definition lz_core_boot_params_valid (w : world) : bool :=
  bp_magic (lz_core_boot_params w) =? LZ_MAGIC.

(** Modelled from the spec: [lz_awdt_init] is defined in lz_awdt.c, outside
    the covered sources. Section 6: "`awdt_init(timeout_s)` is one-shot,
    irreversible"; section 4.9: "once initialized it cannot be stopped". The
    state keeps the timeout the watchdog was armed with. *)
Definition lz_awdt_init (time_s : Z) (w : world) : world :=
  match awdt w with
  | None => set_awdt (Some time_s) w
  | Some _ => w
  end.

(** ** Boot-mode state machine: [lz_core_run] (lz_core.c 53-245) *)

(** Uninitialised automatic variables of [lz_core_run]: whatever the stack
    holds when the function is entered. *)
Record stack_t := mk_stack {
  stack_deferral_time : Z;
  stack_next_layer_digest : bytes
}.

(** The return value and the automatic variables at [return boot_mode;]. *)
Record core_exit := mk_exit {
  exit_boot_mode : boot_mode_t;
  exit_initial_boot : bool;
  exit_lz_dev_id_keypair : lz_ecc_keypair;
  exit_next_layer_digest : bytes;
  exit_deferral_time : Z;
  exit_pem : bytes;
  exit_digest : bytes;
  exit_lz_alias_id_keypair : lz_ecc_keypair
}.

Definition gets {A} (f : world -> A) : M A := fun w => Continue (f w) w.

Definition wait_provisioning {A} : M A := fun w => WaitProvisioning w.

(** [if (r != LZ_SUCCESS) lz_error_handler();] *)
Definition halt_unless_success (r : Z) : M unit :=
  if negb (r =? LZ_SUCCESS) then lz_error_handler else ret tt.

(** Lines 60-144: parameter check, DeviceID, first-boot or later-boot
    housekeeping, DeviceID CSR, provisioning wait. Yields [lz_dev_id_keypair],
    [initial_boot] and [lz_core_updated]. *)
Definition boot_setup : M (lz_ecc_keypair * bool * bool) :=
  valid <- gets lz_core_boot_params_valid ;;
  (if negb valid then lz_error_handler else ret tt) ;;;
  d <- gets lz_core_derive_device_id ;;
  halt_unless_success (fst d) ;;;
  let lz_dev_id_keypair := snd d in
  initial_boot <- gets lz_core_is_initial_boot ;;
  (if initial_boot : bool then
     r <- call lz_core_erase_lz_data_store ;;
     halt_unless_success r ;;;
     r <- call lz_core_erase_staging_area ;;
     halt_unless_success r ;;;
     r <- call lz_core_store_static_symm ;;
     halt_unless_success r ;;;
     r <- call lz_update_img_meta_data ;;
     halt_unless_success r
   else
     r <- call lz_core_wipe_static_symm ;;
     halt_unless_success r) ;;;
  lz_core_updated <- gets (lz_core_is_updated lz_dev_id_keypair) ;;
  (if lz_core_updated : bool then
     r <- call (lz_core_create_device_id_csr initial_boot lz_dev_id_keypair) ;;
     halt_unless_success r
   else ret tt) ;;;
  complete <- gets lz_core_is_provisioning_complete ;;
  (if negb complete then wait_provisioning else ret tt) ;;;
  ret (lz_dev_id_keypair, initial_boot, lz_core_updated).

(** Lines 146-171: the boot-mode selection. *)
Definition select_boot_mode (fuel : nat) : M boot_mode_t :=
  n <- walk (lz_get_num_staging_elems fuel) ;;
  if n =? 0 then ret LZ_UDOWNLOADER
  else
    pending <- gets lz_std_updates_pending ;;
    (if pending =? LZ_SUCCESS
     then w <- get_world ;; put_world (lz_apply_updates w)
     else ret tt) ;;;
    r <- call lz_update_img_meta_data ;;
    halt_unless_success r ;;;
    core_pending <- gets lz_verified_core_update_pending ;;
    if core_pending =? LZ_SUCCESS then ret LZ_CPATCHER
    else
      valid <- walk (lz_has_valid_staging_element fuel BOOT_TICKET) ;;
      if valid =? LZ_SUCCESS then ret APP else ret LZ_UDOWNLOADER.

(** Lines 173-181: the deferral time handed to the watchdog later on. The
    local [deferral_time] starts as [stack_deferral_time]. *)
Definition determine_deferral_time (fuel : nat) (stack_deferral_time : Z) : M Z :=
  r <- walk (lz_get_deferral_time fuel stack_deferral_time) ;;
  let '(result, deferral_time, _) := r in
  if negb (result =? LZ_SUCCESS) then ret DEFAULT_WDT_TIMOUT_s
  else ret deferral_time.

(** Lines 183-199: trusted boot of the next layer with the dominance
    override. Yields [boot_mode], [firmware_update_necessary] and the
    [next_layer_digest] buffer. *)
Definition verify_boot_image
    (boot_mode : boot_mode_t) (next_layer_digest : bytes)
    : M (boot_mode_t * bool * bytes) :=
  v <- gets (lz_core_verify_next_layer boot_mode next_layer_digest) ;;
  if negb (fst v =? LZ_SUCCESS) then
    match boot_mode with
    | APP => ret (LZ_UDOWNLOADER, true, snd v)
    | _ => lz_error_handler
    end
  else ret (boot_mode, false, snd v).

(** Lines 201-244: AliasID, parameter block, watchdog, clean-up, return.
    [lz_awdt_last_reset_awdt] only selects a debug line and [lzport_rng_deinit]
    acts on the RNG peripheral, which is no part of [world]. *)
Definition handoff
    (boot_mode : boot_mode_t) (lz_core_updated firmware_update_necessary : bool)
    (lz_dev_id_keypair : lz_ecc_keypair) (next_layer_digest : bytes)
    (deferral_time : Z) : M core_exit :=
  let pem := firstn MAX_PRIV_ECP_PEM_BYTES (lz_priv_key_to_pem lz_dev_id_keypair) in
  let d := lz_sha256_two_parts (firstn SHA256_DIGEST_LENGTH next_layer_digest) pem in
  if fst d <? 0 then return_false else
  let digest := snd d in
  let a := lz_core_derive_alias_id_keypair digest in
  if negb (fst a =? LZ_SUCCESS) then return_false else
  let lz_alias_id_keypair := snd a in
  r <- call (lz_core_provide_params_ram boot_mode lz_core_updated
               firmware_update_necessary lz_alias_id_keypair lz_dev_id_keypair) ;;
  halt_unless_success r ;;;
  w <- get_world ;;
  put_world (lz_awdt_init deferral_time w) ;;;
  let initial_boot := false in
  (* TODO in the source: "Set new device id key to 0" *)
  let next_layer_digest := secure_zero_memory next_layer_digest SHA256_DIGEST_LENGTH in
  let deferral_time := 0 in
  ret (mk_exit boot_mode initial_boot lz_dev_id_keypair next_layer_digest
         deferral_time pem digest lz_alias_id_keypair).

Definition lz_core_run (fuel : nat) (stack : stack_t) : M core_exit :=
  s <- boot_setup ;;
  let '(lz_dev_id_keypair, initial_boot, lz_core_updated) := s in
  boot_mode <- select_boot_mode fuel ;;
  deferral_time <- determine_deferral_time fuel (stack_deferral_time stack) ;;
  v <- verify_boot_image boot_mode (stack_next_layer_digest stack) ;;
  let '(boot_mode, firmware_update_necessary, next_layer_digest) := v in
  handoff boot_mode lz_core_updated firmware_update_necessary lz_dev_id_keypair
    next_layer_digest deferral_time.

(** ** Predicates the properties are stated with *)

(** Invariant 6 of the data model, for the header [hdr] with the bytes behind
    [payload] under the expected [nonce]: magic, non-empty payload, digest of
    the payload, nonce, signature by the management key; each comparison over
    the bytes the C code compares. *)
Definition staging_record_valid
    (hdr : lz_auth_hdr_t) (payload : nat -> Z) (nonce : bytes) (w : world) : Prop :=
  let c := ah_content hdr in
  let sha := lz_sha256 (read_bytes payload (Z.to_nat (ah_payload_size c))) in
  ah_magic c = LZ_MAGIC
  /\ ah_payload_size c <> 0
  /\ (fst sha = 0
      /\ firstn SHA256_DIGEST_LENGTH (snd sha)
         = firstn SHA256_DIGEST_LENGTH (ah_digest c))
  /\ firstn LEN_NONCE (ah_nonce c) = firstn LEN_NONCE nonce
  /\ lz_ecdsa_verify_pub_pem (auth_content_bytes c) (management_pub_key w)
       (ah_signature hdr) = 0.

(** The first record of type [t] that carries the current nonce, as
    [lz_get_staging_hdr] finds it, is valid. *)
Definition first_ticket_valid (fuel : nat) (t : hdr_type_t) (w : world) : Prop :=
  exists off,
    lz_get_staging_hdr fuel t (bp_cur_nonce (lz_core_boot_params w)) w = Some (Found off)
    /\ staging_record_valid (staging_hdr w off) (staging_payload w off)
         (bp_cur_nonce (lz_core_boot_params w)) w.

(** Steps 1 to 4 of the image verifier (section 4.4) pass: magic, layout,
    digest of the first [size] bytes of the code, signature by the code
    signing key. *)
Definition image_authentic
    (image_hdr_addr : Z) (image_hdr : lz_img_hdr_t)
    (image_code_addr : Z) (image_code : nat -> Z) (w : world) : Prop :=
  let c := ih_content image_hdr in
  let sha := lz_sha256 (read_bytes image_code (Z.to_nat (ih_size c))) in
  ih_magic c = LZ_MAGIC
  /\ image_code_addr = wrap32 (image_hdr_addr + ih_hdr_size c)
  /\ fst sha = 0
  /\ firstn SHA256_DIGEST_LENGTH (snd sha) = firstn SHA256_DIGEST_LENGTH (ih_digest c)
  /\ lz_ecdsa_verify_pub_pem (img_content_bytes c) (code_auth_pub_key w)
       (ih_signature image_hdr) = 0.

(** The digest [lz_core_verify_image] computes: SHA-256 of the first
    [header.size] bytes of the image code. *)
Definition image_code_digest (image_hdr : lz_img_hdr_t) (image_code : nat -> Z) : bytes :=
  snd (lz_sha256 (read_bytes image_code (Z.to_nat (ih_size (ih_content image_hdr))))).

(** The header at [cursor] is inside the area and carries the magic value. *)
Definition looks_valid (w : world) (cursor : Z) : Prop :=
  cursor < sizeof_staging_content
  /\ ah_magic (ah_content (staging_hdr w cursor)) = LZ_MAGIC.

(** The cursor after [k] steps of the walk from [cursor]. *)
Definition cursor_after (w : world) (k : nat) (cursor : Z) : Z :=
  Nat.iter k (next_cursor w) cursor.



End Model.

(** * A small concrete platform

    Toy instances of the three interfaces and a few machine states, small
    enough to run the model on. The hash is a checksum and a signature is a
    tag built from the hash and the key: they stand in for SHA-256 and ECDSA
    only to exercise the control flow. *)

Module Demo.

Definition MAGIC : Z := 19546.

Definition type_code (t : hdr_type_t) : Z :=
  match t with
  | BOOT_TICKET => 0 | DEFERRAL_TICKET => 1 | LZ_CORE_UPDATE => 2
  | LZ_UDOWNLOADER_UPDATE => 3 | LZ_CPATCHER_UPDATE => 4 | APP_UPDATE => 5
  | DEVICE_ID_REASSOC_RES => 6 | CONFIG_UPDATE => 7
  end.

Definition constants : Constants := {|
  LZ_MAGIC := MAGIC;
  LZ_SUCCESS := 0;
  LZ_ERROR := 1;
  LZ_NOT_FOUND := 2;
  hdr_type_code := type_code;
  DEFAULT_WDT_TIMOUT_s := 30;
  LEN_UUID_V4_BIN := 16;
  LEN_NONCE := 16;
  MAX_PUB_ECP_PEM_BYTES := 8;
  MAX_PRIV_ECP_PEM_BYTES := 8;
  sizeof_cdi_prime := 4;
  sizeof_static_symm := 4;
  sizeof_core_auth := 4;
  sizeof_dev_auth := 32;
  sizeof_nw_body := 4;
  sizeof_lz_auth_hdr_t := 8;
  sizeof_staging_content := 64;
  LZ_STAGING_AREA_NUM_PAGES := 2;
  sizeof_img_certBag := 64;
  sizeof_ta_certBag := 64;
  auth_content_bytes := fun c =>
    [ah_magic c mod 256; ah_type c mod 256; ah_payload_size c mod 256]
    ++ ah_digest c ++ ah_nonce c ++ [ah_issue_time c mod 256];
  img_content_bytes := fun c =>
    [ih_magic c mod 256; ih_version c mod 256; ih_issue_time c mod 256;
     ih_size c mod 256; ih_hdr_size c mod 256] ++ ih_digest c;
  core_params_of_img := fun p =>
    mk_core_params (ip_magic p) false [] [] (ip_dev_uuid p) []
      (ip_cur_nonce p) (ip_next_nonce p);
  CHECK_failed := fun re => negb (re =? 0)
|}.

(** Checksum and length in a 32-byte array. *)
Definition toy_hash (m : bytes) : bytes :=
  (fold_left Z.add m 0 mod 256) :: (Z.of_nat (length m) mod 256) :: zero_bytes 30.

Definition bytes_eqb (a b : bytes) : bool :=
  if list_eq_dec Z.eq_dec a b then true else false.

(** A tag over a hash under a key. *)
Definition toy_tag (hash key : bytes) : bytes := firstn 2 hash ++ firstn 2 key.

Definition pad8 (b : bytes) : bytes := firstn 8 (b ++ zero_bytes 8).

Definition crypto : Crypto := {|
  lz_sha256 := fun m => (0, toy_hash m);
  lz_sha256_two_parts := fun a b => (0, toy_hash (a ++ b));
  lz_hmac_sha256 := fun msg key => (0, toy_hash (key ++ msg));
  lz_derive_ecc_keypair := fun seed => (0, mk_keypair seed (map (Z.add 1) seed));
  lz_pub_key_to_pem := fun kp => pad8 (kp_pub kp);
  lz_priv_key_to_pem := fun kp => pad8 (kp_priv kp);
  lz_pem_to_pub_key := fun pem => (0, mk_keypair [] pem);
  lz_compare_public_key := fun a b => memcmp (pad8 a) (pad8 b) 8;
  mbedtls_pk_parse_public_key := fun key => (0, mk_keypair [] key);
  mbedtls_pk_verify := fun pk hash sig =>
    if bytes_eqb sig (toy_tag hash (kp_pub pk)) then 0 else -1;
  lz_set_serial_number_cert := fun pem => (0, firstn 2 pem);
  lz_set_serial_number_csr := fun pem => (0, firstn 2 pem);
  lz_write_cert_to_pem := fun _ _ _ _ _ room =>
    if room <? 4 then (-1, []) else (0, [67; 69; 82; 0]);
  lz_write_csr_to_pem := fun _ _ _ room =>
    if room <? 4 then (-1, []) else (0, [67; 83; 82; 0])
|}.

(** Flash writes succeed and no update is pending. *)
Definition externals : Externals := {|
  lzport_flash_write := fun _ _ w => (w, true);
  lz_std_updates_pending := fun _ => 2;
  lz_apply_updates := fun w => w;
  lz_update_img_meta_data := fun w => (w, 0);
  lz_verified_core_update_pending := fun _ => 2
|}.

Definition mgmt_key : bytes := [77; 71; 0; 0; 0; 0; 0; 0].
Definition code_key : bytes := [67; 75; 0; 0; 0; 0; 0; 0].
Definition cur_nonce : bytes := repeat 7 16.
Definition next_nonce : bytes := repeat 9 16.
Definition stale_nonce : bytes := repeat 5 16.
Definition cdi_prime : bytes := [1; 2; 3; 4].
Definition dev_uuid : bytes := repeat 3 16.

(** A staging header over [payload], signed under [key]. *)
Definition ticket (t : hdr_type_t) (payload nonce key : bytes) : lz_auth_hdr_t :=
  let c := mk_auth_content MAGIC (type_code t) (Z.of_nat (length payload))
             (toy_hash payload) nonce 0 in
  mk_auth_hdr c (toy_tag (toy_hash (auth_content_bytes (Constants := constants) c)) key).


(** Erased flash read as a header. *)
Definition blank_hdr : lz_auth_hdr_t :=
  mk_auth_hdr (mk_auth_content 4294967295 4294967295 4294967295 [] [] 4294967295) [].

(** Elements laid out back to back from offset [off]: the header view. *)
Fixpoint hdr_table (off : Z) (els : list (lz_auth_hdr_t * bytes)) (c : Z) : lz_auth_hdr_t :=
  match els with
  | [] => blank_hdr
  | (h, p) :: rest =>
      if c =? off then h else hdr_table (off + 8 + Z.of_nat (length p)) rest c
  end.

(** The byte view of the payloads. *)
Fixpoint byte_table (off : Z) (els : list (lz_auth_hdr_t * bytes)) (c : Z) : Z :=
  match els with
  | [] => 255
  | (h, p) :: rest =>
      if (off + 8 <=? c) && (c <? off + 8 + Z.of_nat (length p))
      then nth (Z.to_nat (c - (off + 8))) p 255
      else byte_table (off + 8 + Z.of_nat (length p)) rest c
  end.

(** An image whose header sits at [addr] and whose code follows it. *)
Definition image (addr version issue_time : Z) (code : bytes) (key : bytes) : image_t :=
  let c := mk_img_content MAGIC [] version issue_time (Z.of_nat (length code)) 16
             (toy_hash code) in
  mk_image addr
    (mk_img_hdr c (toy_tag (toy_hash (img_content_bytes (Constants := constants) c)) key))
    (addr + 16) (fun i => nth i code 255).

Definition meta (version issue_time : Z) : lz_img_meta_t :=
  mk_meta version issue_time MAGIC.

Definition device_key : lz_ecc_keypair := mk_keypair cdi_prime [2; 3; 4; 5].

Definition data_store (app : lz_img_meta_t) : lz_data_store_t :=
  mk_store
    (mk_config (mk_ssi MAGIC dev_uuid (zero_bytes 4))
       (mk_img_info app (meta 1 100) (meta 1 100))
       (mk_nw MAGIC [10; 0; 0; 1]))
    (mk_ta
       (mk_ta_info (pad8 (kp_pub device_key)) mgmt_key code_key
          (mk_entry 0 3) (mk_entry 4 3) 8 MAGIC)
       ([72; 85; 66; 0; 68; 69; 86; 0] ++ repeat 255 56)).

Definition core_params : lz_core_boot_params_t :=
  mk_core_params MAGIC false cdi_prime (zero_bytes 4) dev_uuid [11; 12; 13; 14]
    cur_nonce next_nonce.

Definition zero_cert_store : lz_img_cert_store_t :=
  mk_cs (mk_cs_info [] [] (mk_entry 0 0) (mk_entry 0 0) (mk_entry 0 0) 0 0) [].

(** A provisioned device with the given staging elements, App image and
    stored App metadata. *)
Definition device (els : list (lz_auth_hdr_t * bytes)) (app : image_t)
    (app_m : lz_img_meta_t) : world :=
  mk_world (CoreView core_params) (data_store app_m)
    (hdr_table 0 els) (byte_table 0 els)
    app
    (image 3000 1 100 [30; 31] code_key)
    (image 2000 1 100 [20; 21; 22] code_key)
    (img_hdr (image 500 1 100 [5] code_key))
    zero_cert_store None.

Definition good_app : image_t := image 1000 2 200 [1; 2; 3; 4; 5] code_key.

(** The App header announces a digest of other code. *)
Definition corrupt_app : image_t :=
  mk_image 1000 (img_hdr good_app) 1016 (fun i => nth i [9; 9; 9; 9; 9] 255).

Definition boot_ticket : lz_auth_hdr_t * bytes :=
  (ticket BOOT_TICKET [66; 84] cur_nonce mgmt_key, [66; 84]).

(** A deferral ticket whose payload is the little-endian word 3600. *)
Definition deferral_ticket : lz_auth_hdr_t * bytes :=
  (ticket DEFERRAL_TICKET [16; 14; 0; 0] cur_nonce mgmt_key, [16; 14; 0; 0]).


Definition replayed_boot_ticket : lz_auth_hdr_t * bytes :=
  (ticket BOOT_TICKET [66; 84] stale_nonce mgmt_key, [66; 84]).

Definition stack : stack_t := mk_stack 7 (repeat 170 32).

(** Normal App boot: one boot ticket and one deferral ticket. *)
Definition w_app : world := device [boot_ticket; deferral_ticket] good_app (meta 1 100).

(** A boot ticket issued for an older nonce. *)
Definition w_replay : world := device [replayed_boot_ticket] good_app (meta 1 100).

(** An App image older than the stored metadata. *)
Definition w_rollback : world := device [boot_ticket] good_app (meta 3 300).

(** Empty staging area. *)
Definition w_empty : world := device [] good_app (meta 1 100).


(** A corrupted App image behind a valid boot ticket. *)
Definition w_corrupt_app : world := device [boot_ticket] corrupt_app (meta 1 100).

(** Stored App metadata with a wrong magic and a newer version than the
    image. *)
Definition stale_meta : lz_img_meta_t := mk_meta 3 300 0.

(** A first header whose payload size makes the cursor step wrap to zero. *)
Definition looping_hdr : lz_auth_hdr_t :=
  mk_auth_hdr (mk_auth_content MAGIC 0 4294967288 (zero_bytes 32) cur_nonce 0) [].

Definition w_loop : world :=
  mk_world (CoreView core_params) (data_store (meta 1 100))
    (fun _ => looping_hdr) (fun _ => 255)
    good_app
    (image 3000 1 100 [30; 31] code_key)
    (image 2000 1 100 [20; 21; 22] code_key)
    (img_hdr (image 500 1 100 [5] code_key))
    zero_cert_store None.

(** ** Running the model *)

Definition run_demo (w : world) : outcome core_exit :=
  lz_core_run (K := constants) (C := crypto) (E := externals) 8 stack w.

(** What a finished run leaves behind: returned mode, parameter block and
    watchdog timeout. *)
Definition summary (o : outcome core_exit)
    : option (boot_mode_t * option lz_img_boot_params_info_t * option Z) :=
  match o with
  | Continue e w =>
      Some (exit_boot_mode e,
            match params_ram w with ImgView p => Some p | CoreView _ => None end,
            awdt w)
  | _ => None
  end.

Definition summary_flags (o : outcome core_exit) : option (boot_mode_t * bool * bytes) :=
  match summary o with
  | Some (m, Some p, _) => Some (m, firmware_update_necessary p, ip_cur_nonce p)
  | _ => None
  end.

End Demo.

(** * The signing side of lz_ecdsa.c *)

(** [lz_ecc_signature]: the array [sig] and the number of its bytes in use. *)
Record lz_ecc_signature := mk_signature { sig_bytes : bytes; sig_length : Z }.

(** mbedtls and lz_ecc.h as the signing, raw-verifying and PEM-importing
    entry points of lz_ecdsa.c use them. *)
Class Signing := {
  (* key, hash, what the callback [lz_rand] delivers, [*sig] on entry: the
     status and [*sig] afterwards *)
  mbedtls_pk_sign :
    lz_ecc_keypair -> bytes -> bytes -> lz_ecc_signature -> Z * lz_ecc_signature;
  (* the EC key of the context, hash, signature bytes *)
  mbedtls_ecdsa_read_signature : lz_ecc_keypair -> bytes -> bytes -> Z;
  lz_pem_to_priv_key : bytes -> Z * lz_ecc_keypair
}.

Section Ecdsa.
Context {K : Constants} {C : Crypto} {G : Signing}.

(** The bytes [sig->sig[0 .. sig->length)] a verifier is handed. *)
Definition sig_data (sig : lz_ecc_signature) : bytes :=
  firstn (Z.to_nat (sig_length sig)) (sig_bytes sig).

(** [lz_ecdsa_sign] (lz_ecdsa.c 36-53): the status and [*sig] afterwards.
    [rnd] is what [lz_rand] yields during the call. *)
Definition lz_ecdsa_sign
    (data : bytes) (key_pair : lz_ecc_keypair) (rnd : bytes) (sig : lz_ecc_signature)
    : Z * lz_ecc_signature :=
  let '(re, hash) := lz_sha256 data in
  if CHECK_failed re then (re, sig) else
  let sig := mk_signature (sig_bytes sig) 0 in
  mbedtls_pk_sign key_pair hash rnd sig.

(** [lz_ecdsa_sign_pem] (lz_ecdsa.c 55-67). *)
Definition lz_ecdsa_sign_pem
    (data key rnd : bytes) (sig : lz_ecc_signature) : Z * lz_ecc_signature :=
  let '(re, keypair) := lz_pem_to_priv_key key in
  if CHECK_failed re then (re, sig) else
  lz_ecdsa_sign data keypair rnd sig.

(** [lz_ecdsa_verify] (lz_ecdsa.c 69-85). *)
Definition lz_ecdsa_verify
    (data : bytes) (key_pair : lz_ecc_keypair) (sig : lz_ecc_signature) : Z :=
  let '(re, hash) := lz_sha256 data in
  if CHECK_failed re then re else
  mbedtls_pk_verify key_pair hash (sig_data sig).

(** [lz_ecdsa_verify_pub] (lz_ecdsa.c 87-100). *)
Definition lz_ecdsa_verify_pub
    (data : bytes) (keypair : lz_ecc_keypair) (sig : lz_ecc_signature) : Z :=
  let '(re, hash) := lz_sha256 data in
  if CHECK_failed re then re else
  mbedtls_ecdsa_read_signature keypair hash (sig_data sig).

End Ecdsa.

(** * Entry point of Lazarus Core: lz_core/source/main.c *)

(** What main.c takes from lz_common.h, the memory map and the flash port. *)
Class Board := {
  (* the values of the enumerators of [boot_mode_t] *)
  boot_mode_value : boot_mode_t -> Z;
  (* the word at [*_CODE_START + 4], the reset vector of a layer *)
  reset_vector : boot_mode_t -> world -> Z;
  lzport_flash_init : world -> world * bool
}.

(** [funcptr_s_t] and [funcptr_ns_t]: a call that stays in the secure world,
    or one through [cmse_nonsecure_call]. *)
Inductive call_kind := SecureCall | NonSecureCall.

(** Where [main] gets to. *)
Inductive main_end :=
| Entered (layer : boot_mode_t) (kind : call_kind) (entry : Z) (w : world)
| Returned (w : world)             (* no layer called, [return 0;] *)
| Halted (w : world)               (* [lz_error_handler()] *)
| Waiting (w : world)              (* the provisioning wait of [lz_core_run] *)
| Running.                         (* a staging walk has not ended yet *)

Section Main.
Context {K : Constants} {C : Crypto} {E : Externals} {B : Board}.

(** [switch_to_next_layer] (main.c 88-113) on the value of its argument. *)
Definition switch_to_next_layer (boot_mode : Z) (w : world) : main_end :=
  if boot_mode_value LZ_CPATCHER =? boot_mode
  then Entered LZ_CPATCHER SecureCall (reset_vector LZ_CPATCHER w) w
  else if boot_mode_value LZ_UDOWNLOADER =? boot_mode
  then Entered LZ_UDOWNLOADER NonSecureCall (reset_vector LZ_UDOWNLOADER w) w
  else if boot_mode_value APP =? boot_mode
  then Entered APP NonSecureCall (reset_vector APP w) w
  else Returned w.

(** [main] (main.c 60-86). Pin, debug, timer and RNG initialisation act on
    peripherals that are no part of [world]. A [return false;] of
    [lz_core_run] reaches [switch_to_next_layer] as the value 0. *)
Definition main (fuel : nat) (stack : stack_t) (w : world) : main_end :=
  let (w, ok) := lzport_flash_init w in
  if negb ok then Halted w else
  match lz_core_run fuel stack w with
  | Continue e w' => switch_to_next_layer (boot_mode_value (exit_boot_mode e)) w'
  | ReturnFalse w' => switch_to_next_layer 0 w'
  | ErrorHandler w' => Halted w'
  | WaitProvisioning w' => Waiting w'
  | OutOfFuel => Running
  end.

End Main.

(** * Further notions the properties are stated with *)

(** A step of the run that never leaves through [return false;]. *)
Definition no_return_false {A} (m : M A) : Prop :=
  forall w w', m w <> ReturnFalse w'.

Section Views.
Context {K : Constants} {C : Crypto} {E : Externals}.


(** Bytes have been written behind [certBag]: the list holds more than the
    array does. *)
Definition bag_overrun (cs : lz_img_cert_store_t) : Prop :=
  (sizeof_img_certBag < length (cs_certBag cs))%nat.

(** Boolean form of [looks_valid]. *)
Definition looks_validb (w : world) (cursor : Z) : bool :=
  (cursor <? sizeof_staging_content)
  && (ah_magic (ah_content (staging_hdr w cursor)) =? LZ_MAGIC).

(** The header types [lz_verify_staging_header] lets through. *)
Definition update_types : list hdr_type_t :=
  [LZ_CORE_UPDATE; LZ_UDOWNLOADER_UPDATE; LZ_CPATCHER_UPDATE; APP_UPDATE;
   DEVICE_ID_REASSOC_RES; CONFIG_UPDATE].

(** A successful write of the configuration data leaves flash holding what
    was written. *)
Definition flash_keeps_config : Prop :=
  forall c w w',
    lzport_flash_write FlashConfigData (SrcConfig c) w = (w', true) ->
    config_data (lz_data_store w') = c.

(** The three images and the flash data store, which the verifier reads. *)
Definition same_images (w w' : world) : Prop :=
  lz_app w' = lz_app w
  /\ lz_cpatcher w' = lz_cpatcher w
  /\ lz_udownloader w' = lz_udownloader w
  /\ lz_core_hdr w' = lz_core_hdr w
  /\ lz_data_store w' = lz_data_store w.

End Views.

(** * Further machine states of the small platform *)

Module Fixtures.
Import Demo.

(** Flash that stores the configuration data it is given. *)
Definition flash : Externals := {|
  lzport_flash_write := fun target src w =>
    match target, src with
    | FlashConfigData, SrcConfig c =>
        (mk_world (params_ram w)
           (mk_store c (trust_anchors (lz_data_store w)))
           (staging_hdr w) (staging_byte w) (lz_app w) (lz_cpatcher w)
           (lz_udownloader w) (lz_core_hdr w) (lz_img_cert_store w) (awdt w),
         true)
    | _, _ => (w, true)
    end;
  lz_std_updates_pending := fun _ => 2;
  lz_apply_updates := fun w => w;
  lz_update_img_meta_data := fun w => (w, 0);
  lz_verified_core_update_pending := fun _ => 2
|}.

(** Flash on which every write fails. *)
Definition dead_flash : Externals := {|
  lzport_flash_write := fun _ _ w => (w, false);
  lz_std_updates_pending := fun _ => 2;
  lz_apply_updates := fun w => w;
  lz_update_img_meta_data := fun w => (w, 0);
  lz_verified_core_update_pending := fun _ => 2
|}.

(** The platform of [Demo] with a staging area of 4096 bytes. *)
Definition wide_constants : Constants := {|
  LZ_MAGIC := MAGIC;
  LZ_SUCCESS := 0;
  LZ_ERROR := 1;
  LZ_NOT_FOUND := 2;
  hdr_type_code := type_code;
  DEFAULT_WDT_TIMOUT_s := 30;
  LEN_UUID_V4_BIN := 16;
  LEN_NONCE := 16;
  MAX_PUB_ECP_PEM_BYTES := 8;
  MAX_PRIV_ECP_PEM_BYTES := 8;
  sizeof_cdi_prime := 4;
  sizeof_static_symm := 4;
  sizeof_core_auth := 4;
  sizeof_dev_auth := 32;
  sizeof_nw_body := 4;
  sizeof_lz_auth_hdr_t := 8;
  sizeof_staging_content := 4096;
  LZ_STAGING_AREA_NUM_PAGES := 8;
  sizeof_img_certBag := 64;
  sizeof_ta_certBag := 64;
  auth_content_bytes := auth_content_bytes (Constants := constants);
  img_content_bytes := img_content_bytes (Constants := constants);
  core_params_of_img := core_params_of_img (Constants := constants);
  CHECK_failed := fun re => negb (re =? 0)
|}.

(** A header with the magic value and no payload. *)
Definition empty_hdr : lz_auth_hdr_t :=
  mk_auth_hdr (mk_auth_content MAGIC 5 0 (zero_bytes 32) cur_nonce 0) [].

(** A valid boot ticket at offset 0, followed by 255 headers without payload:
    256 elements in all. *)
Definition crowded_hdr (c : Z) : lz_auth_hdr_t :=
  if c =? 0 then fst boot_ticket
  else if (10 <=? c) && (c <? 10 + 8 * 255) && ((c - 10) mod 8 =? 0) then empty_hdr
  else blank_hdr.

Definition w_crowded : world :=
  mk_world (CoreView core_params) (data_store (meta 1 100))
    crowded_hdr (byte_table 0 [boot_ticket])
    good_app
    (image 3000 1 100 [30; 31] code_key)
    (image 2000 1 100 [20; 21; 22] code_key)
    (img_hdr (image 500 1 100 [5] code_key))
    zero_cert_store None.

(** A device whose stored secret has not been wiped yet. *)
Definition w_unwiped : world :=
  mk_world (CoreView core_params)
    (mk_store
       (mk_config (mk_ssi MAGIC dev_uuid [9; 8; 7; 6])
          (mk_img_info (meta 1 100) (meta 1 100) (meta 1 100))
          (mk_nw MAGIC [10; 0; 0; 1]))
       (trust_anchors (data_store (meta 1 100))))
    (hdr_table 0 [boot_ticket]) (byte_table 0 [boot_ticket])
    good_app
    (image 3000 1 100 [30; 31] code_key)
    (image 2000 1 100 [20; 21; 22] code_key)
    (img_hdr (image 500 1 100 [5] code_key))
    zero_cert_store None.

(** Boot parameters of a first boot, with the static secret still there. *)
Definition first_boot_params : lz_core_boot_params_t :=
  mk_core_params MAGIC true cdi_prime [9; 8; 7; 6] dev_uuid [11; 12; 13; 14]
    cur_nonce next_nonce.

Definition w_first_boot : world :=
  mk_world (CoreView first_boot_params) (data_store (meta 1 100))
    (hdr_table 0 []) (byte_table 0 [])
    good_app
    (image 3000 1 100 [30; 31] code_key)
    (image 2000 1 100 [20; 21; 22] code_key)
    (img_hdr (image 500 1 100 [5] code_key))
    zero_cert_store None.

(** Trust anchors whose hub certificate entry is larger than the
    certificate bag of the next layer. *)
Definition w_big_hub : world :=
  mk_world (CoreView core_params)
    (mk_store (config_data (data_store (meta 1 100)))
       (mk_ta
          (mk_ta_info (pad8 (kp_pub device_key)) mgmt_key code_key
             (mk_entry 0 100) (mk_entry 4 3) 8 MAGIC)
          ([72; 85; 66; 0; 68; 69; 86; 0] ++ repeat 255 56)))
    (hdr_table 0 [boot_ticket]) (byte_table 0 [boot_ticket])
    good_app
    (image 3000 1 100 [30; 31] code_key)
    (image 2000 1 100 [20; 21; 22] code_key)
    (img_hdr (image 500 1 100 [5] code_key))
    zero_cert_store None.

(** Trust anchors without a hub certificate whose DeviceID certificate fills
    the certificate bag of the next layer to its last byte. *)
Definition w_exact_fit : world :=
  mk_world (CoreView core_params)
    (mk_store (config_data (data_store (meta 1 100)))
       (mk_ta
          (mk_ta_info (pad8 (kp_pub device_key)) mgmt_key code_key
             (mk_entry 0 0) (mk_entry 0 64) 65 MAGIC)
          (repeat 68 64)))
    (hdr_table 0 [boot_ticket]) (byte_table 0 [boot_ticket])
    good_app
    (image 3000 1 100 [30; 31] code_key)
    (image 2000 1 100 [20; 21; 22] code_key)
    (img_hdr (image 500 1 100 [5] code_key))
    zero_cert_store None.

(** A corrupted App image and an Update Downloader image that is corrupted
    as well. *)
Definition w_both_corrupt : world :=
  mk_world (CoreView core_params) (data_store (meta 1 100))
    (hdr_table 0 [boot_ticket]) (byte_table 0 [boot_ticket])
    corrupt_app
    (image 3000 1 100 [30; 31] code_key)
    (mk_image 2000 (img_hdr (image 2000 1 100 [20; 21; 22] code_key)) 2016
       (fun i => nth i [9; 9; 9] 255))
    (img_hdr (image 500 1 100 [5] code_key))
    zero_cert_store None.

(** The crypto of [Demo] with a two-part hash that reports an error. *)
Definition failing_alias_hash : Crypto := {|
  lz_sha256 := lz_sha256 (Crypto := crypto);
  lz_sha256_two_parts := fun _ _ => (-1, []);
  lz_hmac_sha256 := lz_hmac_sha256 (Crypto := crypto);
  lz_derive_ecc_keypair := lz_derive_ecc_keypair (Crypto := crypto);
  lz_pub_key_to_pem := lz_pub_key_to_pem (Crypto := crypto);
  lz_priv_key_to_pem := lz_priv_key_to_pem (Crypto := crypto);
  lz_pem_to_pub_key := lz_pem_to_pub_key (Crypto := crypto);
  lz_compare_public_key := lz_compare_public_key (Crypto := crypto);
  mbedtls_pk_parse_public_key := mbedtls_pk_parse_public_key (Crypto := crypto);
  mbedtls_pk_verify := mbedtls_pk_verify (Crypto := crypto);
  lz_set_serial_number_cert := lz_set_serial_number_cert (Crypto := crypto);
  lz_set_serial_number_csr := lz_set_serial_number_csr (Crypto := crypto);
  lz_write_cert_to_pem := lz_write_cert_to_pem (Crypto := crypto);
  lz_write_csr_to_pem := lz_write_csr_to_pem (Crypto := crypto)
|}.

(** A signer for the toy tag of [Demo]: the tag, zero padding behind it, and
    the tag's length. *)
Definition signing : Signing := {|
  mbedtls_pk_sign := fun k hash _ sig =>
    let t := toy_tag hash (kp_pub k) in
    (0, mk_signature (t ++ zero_bytes 4) (Z.of_nat (length t)));
  mbedtls_ecdsa_read_signature := fun k hash sig =>
    if bytes_eqb sig (toy_tag hash (kp_pub k)) then 0 else -1;
  lz_pem_to_priv_key := fun pem => (0, mk_keypair pem (map (Z.add 1) pem))
|}.

(** [APP] is the zero enumerator; flash initialisation succeeds. *)
Definition board : Board := {|
  boot_mode_value := fun m =>
    match m with APP => 0 | LZ_UDOWNLOADER => 1 | LZ_CPATCHER => 2 end;
  reset_vector := fun m w =>
    match m with
    | APP => img_code_addr (lz_app w) + 1
    | LZ_UDOWNLOADER => img_code_addr (lz_udownloader w) + 1
    | LZ_CPATCHER => img_code_addr (lz_cpatcher w) + 1
    end;
  lzport_flash_init := fun w => (w, true)
|}.

End Fixtures.

(** * Properties *)

Section Properties.
Context {K : Constants} {C : Crypto} {E : Externals}.

(** ** Buffer primitives *)

Lemma memcmp_eq_iff (a b : bytes) (n : nat) :
  memcmp a b n = 0 <-> firstn n a = firstn n b.
Proof.
  revert a b; induction n as [|n IH]; intros a b; simpl.
  - split; reflexivity.
  - destruct a as [|x a], b as [|y b]; try (split; [lia | discriminate]).
    + split; reflexivity.
    + destruct (Z.eqb_spec x y) as [->|Hne].
      * rewrite IH. split; [intros ->; reflexivity | intros H; now inversion H].
      * split; [lia | intros H; inversion H; contradiction].
Qed.

Lemma memcmp_eqb (a b : bytes) (n : nat) :
  length a = n -> length b = n -> (memcmp a b n =? 0) = true <-> a = b.
Proof.
  intros Ha Hb. rewrite Z.eqb_eq, memcmp_eq_iff.
  rewrite <- Ha at 1. rewrite <- Hb at 1. now rewrite !firstn_all.
Qed.

Lemma memcpy_length (dst src : bytes) (n : nat) :
  length (memcpy dst src n) = length dst.
Proof.
  revert dst src; induction n as [|n IH]; intros [|d dst] [|s src]; simpl;
    try reflexivity.
  now rewrite IH.
Qed.

Lemma memcpy_exact (dst src : bytes) (n : nat) :
  length dst = n -> length src = n -> memcpy dst src n = src.
Proof.
  revert dst src; induction n as [|n IH]; intros [|d dst] [|s src]; simpl;
    try discriminate; try reflexivity.
  intros Hd Hs. f_equal. apply IH; congruence.
Qed.

Lemma secure_zero_memory_all (buf : bytes) (n : nat) :
  length buf = n -> secure_zero_memory buf n = zero_bytes n.
Proof.
  intros H. unfold secure_zero_memory. apply memcpy_exact; [exact H|].
  apply repeat_length.
Qed.

(** ** Staging header verification *)

Ltac break_test :=
  match goal with
  | |- context [ ?a =? ?b ] => destruct (Z.eqb_spec a b); cbn [negb andb orb]
  end.

Lemma lz_core_verify_staging_elem_hdr_sig_iff hdr payload w :
  LZ_SUCCESS <> LZ_ERROR ->
  let c := ah_content hdr in
  let sha := lz_sha256 (read_bytes payload (Z.to_nat (ah_payload_size c))) in
  lz_core_verify_staging_elem_hdr_sig hdr payload w = LZ_SUCCESS <->
  (fst sha = 0
   /\ firstn SHA256_DIGEST_LENGTH (snd sha) = firstn SHA256_DIGEST_LENGTH (ah_digest c))
  /\ lz_ecdsa_verify_pub_pem (auth_content_bytes c) (management_pub_key w)
       (ah_signature hdr) = 0.
Proof.
  intros Hne c sha. unfold lz_core_verify_staging_elem_hdr_sig.
  fold c. fold sha. destruct sha as [rc digest] eqn:Hsha. cbn [fst snd].
  rewrite <- memcmp_eq_iff.
  repeat break_test; split; intros H; try tauto; try congruence.
Qed.

Lemma lz_core_verify_staging_elem_hdr_iff hdr payload nonce w :
  LZ_SUCCESS <> LZ_ERROR ->
  lz_core_verify_staging_elem_hdr hdr payload nonce w = LZ_SUCCESS <->
  staging_record_valid hdr payload nonce w.
Proof.
  intros Hne.
  pose proof (lz_core_verify_staging_elem_hdr_sig_iff hdr payload w Hne) as Hsig.
  cbv zeta in Hsig.
  unfold lz_core_verify_staging_elem_hdr, staging_record_valid.
  rewrite <- (memcmp_eq_iff (ah_nonce _)).
  repeat break_test; split; intros H; try tauto; try congruence.
Qed.

Lemma lz_core_verify_staging_elem_hdr_cases hdr payload nonce w :
  lz_core_verify_staging_elem_hdr hdr payload nonce w = LZ_SUCCESS
  \/ lz_core_verify_staging_elem_hdr hdr payload nonce w = LZ_ERROR.
Proof.
  unfold lz_core_verify_staging_elem_hdr.
  repeat break_test; auto.
Qed.

(** C1. [lz_core_verify_staging_elem_hdr] accepts a staging record exactly
    when its magic is [LZ_MAGIC], its payload size is positive, SHA-256 of
    the payload equals the header's digest, the header's nonce equals the
    expected nonce and the ECDSA signature over the header content verifies
    under the management public key; a record that misses any of the five is
    rejected with [LZ_ERROR]. Arrays have their declared sizes. *)
Theorem lz_core_verify_staging_elem_hdr_accepts_exactly
    (hdr : lz_auth_hdr_t) (payload : nat -> Z) (nonce : bytes) (w : world) :
  let c := ah_content hdr in
  let sha := lz_sha256 (read_bytes payload (Z.to_nat (ah_payload_size c))) in
  let conditions :=
    ah_magic c = LZ_MAGIC
    /\ ah_payload_size c > 0
    /\ (fst sha = 0 /\ snd sha = ah_digest c)
    /\ ah_nonce c = nonce
    /\ lz_ecdsa_verify_pub_pem (auth_content_bytes c) (management_pub_key w)
         (ah_signature hdr) = 0 in
  LZ_SUCCESS <> LZ_ERROR ->
  0 <= ah_payload_size c ->
  length (ah_nonce c) = LEN_NONCE ->
  length nonce = LEN_NONCE ->
  length (ah_digest c) = SHA256_DIGEST_LENGTH ->
  length (snd sha) = SHA256_DIGEST_LENGTH ->
  (lz_core_verify_staging_elem_hdr hdr payload nonce w = LZ_SUCCESS <-> conditions)
  /\ (~ conditions -> lz_core_verify_staging_elem_hdr hdr payload nonce w = LZ_ERROR).
Proof.
  intros c sha conditions Hne Hsz Hn1 Hn2 Hd1 Hd2.
  assert (Hiff : lz_core_verify_staging_elem_hdr hdr payload nonce w = LZ_SUCCESS
                 <-> conditions).
  { rewrite (lz_core_verify_staging_elem_hdr_iff hdr payload nonce w Hne).
    unfold staging_record_valid, conditions. fold c. fold sha.
    rewrite <- Hn1 at 1. rewrite <- Hn2 at 1. rewrite !firstn_all.
    rewrite <- Hd2 at 1. rewrite <- Hd1 at 1. rewrite !firstn_all.
    split; intros (H1 & H2 & H3 & H4 & H5); repeat split; try tauto; lia. }
  split; [exact Hiff|].
  intros Hnot.
  destruct (lz_core_verify_staging_elem_hdr_cases hdr payload nonce w) as [H|H];
    [|exact H].
  exfalso. apply Hnot, Hiff, H.
Qed.

(** ** Image verifier *)

(** With steps 1 to 4 passed, stored metadata without the magic value makes
    [lz_core_verify_image] leave through [return false;]: status 0, output
    buffer untouched, versions not looked at. *)
Lemma lz_core_verify_image_invalid_meta
    hdr_addr hdr code_addr code (image_meta : lz_img_meta_t) out w :
  image_authentic hdr_addr hdr code_addr code w ->
  meta_magic image_meta <> LZ_MAGIC ->
  lz_core_verify_image hdr_addr hdr code_addr code image_meta out w = (0, out).
Proof.
  intros (Hm & Ha & Hrc & Hd & Hs) Hmeta.
  unfold lz_core_verify_image.
  apply memcmp_eq_iff in Hd.
  destruct (lz_sha256 _) as [rc digest]. cbn [fst snd] in *.
  rewrite Hd.
  repeat break_test; try congruence; try contradiction.
Qed.

(** Every way [lz_core_verify_image] can report [LZ_SUCCESS]. *)
Lemma lz_core_verify_image_success_cases
    hdr_addr hdr code_addr code (image_meta : lz_img_meta_t) out w :
  LZ_SUCCESS <> LZ_ERROR ->
  fst (lz_core_verify_image hdr_addr hdr code_addr code image_meta out w) = LZ_SUCCESS ->
  image_authentic hdr_addr hdr code_addr code w
  /\ ((meta_magic image_meta <> LZ_MAGIC /\ LZ_SUCCESS = 0
       /\ snd (lz_core_verify_image hdr_addr hdr code_addr code image_meta out w) = out)
      \/ (meta_magic image_meta = LZ_MAGIC
          /\ ih_version (ih_content hdr) >= lastVersion image_meta
          /\ ih_issue_time (ih_content hdr) >= last_issue_time image_meta
          /\ snd (lz_core_verify_image hdr_addr hdr code_addr code image_meta out w)
             = option_map
                 (fun buf => memcpy buf (image_code_digest hdr code) SHA256_DIGEST_LENGTH)
                 out)).
Proof.
  intros Hne. unfold lz_core_verify_image, image_authentic, image_code_digest.
  rewrite <- memcmp_eq_iff.
  destruct (lz_sha256 _) as [rc digest]. cbn [fst snd].
  repeat break_test; cbn [fst snd]; intros H; try congruence.
  - destruct (Z.gtb_spec (lastVersion image_meta) (ih_version (ih_content hdr)));
      destruct (Z.gtb_spec (last_issue_time image_meta) (ih_issue_time (ih_content hdr)));
      cbn [orb fst snd] in *; try congruence.
    split; [tauto|]. right. repeat split; try lia; try assumption.
  - split; [tauto|]. left. repeat split; auto; congruence.
Qed.

(** A verification that does not report [LZ_SUCCESS] leaves the output
    buffer as it was. *)
Lemma lz_core_verify_image_failure_keeps_buffer
    hdr_addr hdr code_addr code (image_meta : lz_img_meta_t) out w :
  fst (lz_core_verify_image hdr_addr hdr code_addr code image_meta out w) <> LZ_SUCCESS ->
  snd (lz_core_verify_image hdr_addr hdr code_addr code image_meta out w) = out.
Proof.
  unfold lz_core_verify_image.
  destruct (lz_sha256 _) as [rc digest].
  repeat break_test; cbn [fst snd]; try reflexivity.
  destruct (_ || _); cbn [fst snd]; [reflexivity | congruence].
Qed.

(** Rollback monotonicity where the stored metadata carries the magic
    value. *)
Lemma lz_core_verify_image_monotonic
    hdr_addr hdr code_addr code (image_meta : lz_img_meta_t) out w :
  LZ_SUCCESS <> LZ_ERROR ->
  meta_magic image_meta = LZ_MAGIC ->
  fst (lz_core_verify_image hdr_addr hdr code_addr code image_meta out w) = LZ_SUCCESS ->
  ih_version (ih_content hdr) >= lastVersion image_meta
  /\ ih_issue_time (ih_content hdr) >= last_issue_time image_meta.
Proof.
  intros Hne Hmagic Hok.
  destruct (lz_core_verify_image_success_cases _ _ _ _ _ _ _ Hne Hok)
    as (_ & [(Hbad & _) | (_ & Hv & Ht & _)]); [contradiction | tauto].
Qed.

(** C2. Where [LZ_SUCCESS] is the zero enumerator, [lz_core_verify_image]
    accepts an authentic image against stored metadata whose magic is not
    [LZ_MAGIC] whatever the versions are, in particular with
    [H.version < M.lastVersion]: the branch meant to reject leaves with
    [return false;]. *)
Theorem lz_core_verify_image_accepts_below_stored_version
    hdr_addr hdr code_addr code (image_meta : lz_img_meta_t) out w :
  LZ_SUCCESS = 0 ->
  image_authentic hdr_addr hdr code_addr code w ->
  meta_magic image_meta <> LZ_MAGIC ->
  ih_version (ih_content hdr) < lastVersion image_meta ->
  fst (lz_core_verify_image hdr_addr hdr code_addr code image_meta out w) = LZ_SUCCESS.
Proof.
  intros H0 Hauth Hmeta _.
  rewrite (lz_core_verify_image_invalid_meta _ _ _ _ _ _ _ Hauth Hmeta).
  symmetry. exact H0.
Qed.

(** C9. Where [LZ_SUCCESS] is the zero enumerator, [lz_core_verify_image]
    reports success for an authentic image against stored metadata whose
    magic is not [LZ_MAGIC] and leaves the bytes of [image_digest_out] as
    they were: the computed digest is not written. *)
Theorem lz_core_verify_image_success_leaves_buffer
    hdr_addr hdr code_addr code (image_meta : lz_img_meta_t) (buf : bytes) w :
  LZ_SUCCESS = 0 ->
  image_authentic hdr_addr hdr code_addr code w ->
  meta_magic image_meta <> LZ_MAGIC ->
  lz_core_verify_image hdr_addr hdr code_addr code image_meta (Some buf) w
  = (LZ_SUCCESS, Some buf).
Proof.
  intros H0 Hauth Hmeta.
  rewrite (lz_core_verify_image_invalid_meta _ _ _ _ _ _ _ Hauth Hmeta).
  now rewrite H0.
Qed.

(** ** Walking the staging area *)

Lemma cursor_after_S w k c :
  cursor_after w (S k) c = cursor_after w k (next_cursor w c).
Proof.
  unfold cursor_after. induction k as [|k IH]; [reflexivity|].
  change (Nat.iter (S (S k)) (next_cursor w) c)
    with (next_cursor w (Nat.iter (S k) (next_cursor w) c)).
  rewrite IH. reflexivity.
Qed.

(** What the loop returns when it returns: the number of leading headers that
    look valid, counted modulo 256 on top of the start value. *)
Lemma lz_get_num_staging_elems_loop_counts fuel w :
  forall c n r,
    lz_get_num_staging_elems_loop fuel w c n = Some r ->
    exists k : nat,
      r = Nat.iter k (fun m => wrap8 (m + 1)) n
      /\ (forall i, (i < k)%nat -> looks_valid w (cursor_after w i c))
      /\ ~ looks_valid w (cursor_after w k c).
Proof.
  induction fuel as [|fuel IH]; intros c n r; simpl; [discriminate|].
  destruct (Z.ltb_spec c sizeof_staging_content) as [Hlt|Hge].
  - destruct (Z.eqb_spec (ah_magic (ah_content (staging_hdr w c))) LZ_MAGIC)
      as [Hm|Hm]; cbn [negb].
    + intros H. destruct (IH _ _ _ H) as (k & Hr & Hall & Hstop).
      exists (S k). split; [|split].
      * rewrite Hr. clear. induction k as [|k IHk]; [reflexivity|].
        simpl in *. now rewrite IHk.
      * intros i Hi. destruct i as [|j]; [split; assumption|].
        rewrite cursor_after_S. apply Hall. lia.
      * rewrite cursor_after_S. exact Hstop.
    + intros H; inversion H; subst. exists O. split; [reflexivity|split].
      * intros i Hi; lia.
      * intros [_ Hv]. contradiction.
  - intros H; inversion H; subst. exists O. split; [reflexivity|split].
    + intros i Hi; lia.
    + intros [Hv _]. simpl in Hv. lia.
Qed.

(** A header that steps the cursor onto itself keeps the loop going for any
    number of iterations. *)
Lemma lz_get_num_staging_elems_loop_stuck fuel w c :
  looks_valid w c -> next_cursor w c = c ->
  forall n, lz_get_num_staging_elems_loop fuel w c n = None.
Proof.
  intros [Hlt Hm] Hnext. induction fuel as [|fuel IH]; intros n; simpl;
    [reflexivity|].
  destruct (Z.ltb_spec c sizeof_staging_content); [|lia].
  rewrite Hm, Z.eqb_refl. cbn [negb]. rewrite Hnext. apply IH.
Qed.



(** A count, once produced, does not depend on the fuel. *)
Lemma lz_get_num_staging_elems_loop_fuel fuel w :
  forall c n r fuel',
    lz_get_num_staging_elems_loop fuel w c n = Some r ->
    (fuel <= fuel')%nat ->
    lz_get_num_staging_elems_loop fuel' w c n = Some r.
Proof.
  induction fuel as [|fuel IH]; intros c n r fuel' H Hle; [discriminate|].
  destruct fuel' as [|fuel']; [lia|]. simpl in *.
  destruct (c <? sizeof_staging_content); [|exact H].
  destruct (negb _); [exact H|].
  apply IH; [exact H | lia].
Qed.

(** The loop is still running after [fuel] iterations exactly when the
    first [fuel] cursors all point at valid-looking headers. *)
Lemma lz_get_num_staging_elems_loop_None fuel w :
  forall c n,
    lz_get_num_staging_elems_loop fuel w c n = None <->
    (forall k, (k < fuel)%nat -> looks_valid w (cursor_after w k c)).
Proof.
  induction fuel as [|fuel IH]; intros c n; simpl.
  - split; [intros _ k Hk; lia | reflexivity].
  - destruct (Z.ltb_spec c sizeof_staging_content) as [Hlt|Hge].
    + destruct (Z.eqb_spec (ah_magic (ah_content (staging_hdr w c))) LZ_MAGIC)
        as [Hm|Hm]; cbn [negb].
      * rewrite IH. split.
        -- intros H k Hk. destruct k as [|k]; [split; assumption|].
           rewrite cursor_after_S. apply H. lia.
        -- intros H k Hk. rewrite <- cursor_after_S. apply H. lia.
      * split; [discriminate|]. intros H.
        destruct (H O) as [_ Hv]; [lia | contradiction].
    + split; [discriminate|]. intros H.
      destruct (H O) as [Hv _]; [lia | simpl in Hv; lia].
Qed.

Lemma cursor_after_add w a b c :
  cursor_after w (a + b) c = cursor_after w a (cursor_after w b c).
Proof.
  unfold cursor_after. induction a as [|a IH]; [reflexivity|].
  simpl. now rewrite IH.
Qed.

Lemma cursor_after_nonneg w k : 0 <= cursor_after w k 0.
Proof.
  destruct k as [|k]; [simpl; lia|].
  unfold cursor_after. simpl. unfold next_cursor, wrap32.
  apply Z.mod_pos_bound. lia.
Qed.

(** Among [N + 1] numbers below [N] two are equal. *)
Lemma bounded_search (f : nat -> nat) (v N : nat) :
  (exists i, (i <= N)%nat /\ f i = v) \/ (forall i, (i <= N)%nat -> f i <> v).
Proof.
  induction N as [|N [(i & Hi & He) | Hno]].
  - destruct (Nat.eq_dec (f O) v) as [He|Hne].
    + left. exists O. split; [lia | exact He].
    + right. intros i Hi. replace i with O by lia. exact Hne.
  - left. exists i. split; [lia | exact He].
  - destruct (Nat.eq_dec (f (S N)) v) as [He|Hne].
    + left. exists (S N). split; [lia | exact He].
    + right. intros i Hi. destruct (Nat.eq_dec i (S N)) as [->|Hi'];
        [exact Hne | apply Hno; lia].
Qed.

Lemma pigeonhole_nat (N : nat) :
  forall f : nat -> nat,
    (forall k, (k <= N)%nat -> (f k < N)%nat) ->
    exists i j, (i < j)%nat /\ (j <= N)%nat /\ f i = f j.
Proof.
  induction N as [|N IH]; intros f Hf.
  - specialize (Hf O). lia.
  - destruct (bounded_search f (f (S N)) N) as [(i & Hi & He) | Hno].
    + exists i, (S N). repeat split; lia.
    + set (g := fun k => if (f k <? f (S N))%nat then f k else pred (f k)).
      assert (Hg : forall k, (k <= N)%nat -> (g k < N)%nat).
      { intros k Hk. unfold g.
        pose proof (Hf k ltac:(lia)). pose proof (Hf (S N) ltac:(lia)).
        pose proof (Hno k Hk).
        destruct (Nat.ltb_spec (f k) (f (S N))); lia. }
      destruct (IH g Hg) as (i & j & Hij & Hj & Heq).
      exists i, j. repeat split; try lia.
      pose proof (Hno i ltac:(lia)). pose proof (Hno j ltac:(lia)).
      unfold g in Heq.
      destruct (Nat.ltb_spec (f i) (f (S N))), (Nat.ltb_spec (f j) (f (S N))); lia.
Qed.

(** The count is produced within one iteration per byte of the area plus
    one, or never: a loop that is still running then has come back to a
    cursor it has seen before. *)
Lemma lz_get_num_staging_elems_never w :
  lz_get_num_staging_elems (S (Z.to_nat sizeof_staging_content)) w = None ->
  forall fuel, lz_get_num_staging_elems fuel w = None.
Proof.
  unfold lz_get_num_staging_elems. intros Hrun fuel.
  set (N := Z.to_nat sizeof_staging_content) in *.
  rewrite lz_get_num_staging_elems_loop_None in Hrun.
  assert (Hrange : forall k, (k <= N)%nat -> (Z.to_nat (cursor_after w k 0) < N)%nat).
  { intros k Hk. destruct (Hrun k ltac:(lia)) as [Hlt _].
    pose proof (cursor_after_nonneg w k). unfold N. lia. }
  destruct (pigeonhole_nat N (fun k => Z.to_nat (cursor_after w k 0)) Hrange)
    as (i & j & Hij & Hj & Heq).
  assert (Hcyc : cursor_after w i 0 = cursor_after w j 0).
  { pose proof (cursor_after_nonneg w i). pose proof (cursor_after_nonneg w j).
    apply Z2Nat.inj; assumption. }
  assert (Hall : forall k, looks_valid w (cursor_after w k 0)).
  { intros k. induction k as [k IHk] using lt_wf_ind.
    destruct (Nat.le_gt_cases k N) as [Hk|Hk]; [apply Hrun; lia|].
    replace k with ((k - j) + j)%nat by lia.
    rewrite cursor_after_add, <- Hcyc, <- cursor_after_add.
    apply IHk. lia. }
  apply lz_get_num_staging_elems_loop_None. intros k _. apply Hall.
Qed.


(** C10. For a staging area whose first header carries [LZ_MAGIC] and a
    payload size with [sizeof(lz_auth_hdr_t) + payload_size = 0] in 32-bit
    arithmetic, the loop of [lz_get_num_staging_elems] never leaves: no
    number of iterations produces a count. *)
Theorem lz_get_num_staging_elems_diverges (w : world) :
  0 < sizeof_staging_content ->
  ah_magic (ah_content (staging_hdr w 0)) = LZ_MAGIC ->
  wrap32 (sizeof_lz_auth_hdr_t + ah_payload_size (ah_content (staging_hdr w 0))) = 0 ->
  forall fuel, lz_get_num_staging_elems fuel w = None.
Proof.
  intros Hsz Hm Hwrap fuel. unfold lz_get_num_staging_elems.
  apply lz_get_num_staging_elems_loop_stuck.
  - split; assumption.
  - unfold next_cursor. rewrite Z.add_0_l. exact Hwrap.
Qed.

(** ** Searching and validating staging elements *)

(** A header the search returns lies in the area, looks valid, has the
    requested type and carries the requested nonce. *)
Lemma lz_get_staging_hdr_loop_found fuel t nonce w :
  forall c off,
    lz_get_staging_hdr_loop fuel t nonce w c = Some (Found off) ->
    looks_valid w off
    /\ ah_type (ah_content (staging_hdr w off)) = hdr_type_code t
    /\ firstn LEN_NONCE (ah_nonce (ah_content (staging_hdr w off)))
       = firstn LEN_NONCE nonce.
Proof.
  induction fuel as [|fuel IH]; intros c off; simpl; [discriminate|].
  destruct (Z.ltb_spec c sizeof_staging_content) as [Hlt|]; [|discriminate].
  destruct (Z.eqb_spec (ah_magic (ah_content (staging_hdr w c))) LZ_MAGIC) as [Hm|];
    cbn [negb]; [|discriminate].
  destruct (Z.eqb_spec (ah_type (ah_content (staging_hdr w c))) (hdr_type_code t))
    as [Ht|]; cbn [andb]; [|apply IH].
  destruct (Z.eqb_spec (memcmp (ah_nonce (ah_content (staging_hdr w c))) nonce LEN_NONCE) 0)
    as [Hn|]; [|apply IH].
  intros H; inversion H; subst.
  apply memcmp_eq_iff in Hn. repeat split; assumption.
Qed.

Lemma lz_get_staging_hdr_loop_fuel fuel t nonce w :
  forall c r fuel',
    lz_get_staging_hdr_loop fuel t nonce w c = Some r ->
    (fuel <= fuel')%nat ->
    lz_get_staging_hdr_loop fuel' t nonce w c = Some r.
Proof.
  induction fuel as [|fuel IH]; intros c r fuel' H Hle; [discriminate|].
  destruct fuel' as [|fuel']; [lia|]. simpl in *.
  destruct (c <? sizeof_staging_content); [|exact H].
  destruct (negb _); [exact H|].
  destruct (_ && _); [exact H|].
  apply IH; [exact H | lia].
Qed.



Lemma lz_has_valid_staging_element_iff fuel t w :
  LZ_SUCCESS <> LZ_ERROR -> LZ_SUCCESS <> LZ_NOT_FOUND ->
  lz_has_valid_staging_element fuel t w = Some LZ_SUCCESS <-> first_ticket_valid fuel t w.
Proof.
  intros Hne Hnf. unfold lz_has_valid_staging_element, first_ticket_valid.
  destruct (lz_get_staging_hdr fuel t _ w) as [[off|]|].
  - pose proof (lz_core_verify_staging_elem_hdr_iff (staging_hdr w off)
                  (staging_payload w off) (bp_cur_nonce (lz_core_boot_params w)) w Hne)
      as Hv.
    destruct (Z.eqb_spec (lz_core_verify_staging_elem_hdr (staging_hdr w off)
                (staging_payload w off) (bp_cur_nonce (lz_core_boot_params w)) w)
                LZ_SUCCESS) as [Hok|Hbad]; cbn [negb].
    + split; [intros _; exists off; split; [reflexivity | now apply Hv] | reflexivity].
    + split; [intros H; inversion H; congruence|].
      intros (off' & Hf & Hval). inversion Hf; subst. tauto.
  - split; [intros H; inversion H; congruence | intros (off & Hf & _); discriminate].
  - split; [discriminate | intros (off & Hf & _); discriminate].
Qed.

(** The status of [lz_has_valid_staging_element] when the walk ends. *)
Lemma lz_has_valid_staging_element_cases fuel t w r :
  lz_has_valid_staging_element fuel t w = Some r ->
  r = LZ_SUCCESS \/ r = LZ_ERROR \/ r = LZ_NOT_FOUND.
Proof.
  unfold lz_has_valid_staging_element.
  destruct (lz_get_staging_hdr fuel t _ w) as [[off|]|]; [| |discriminate].
  - destruct (negb _); intros H; inversion H; auto.
  - intros H; inversion H; auto.
Qed.

(** ** Deferral time *)

(** [lz_get_deferral_time] never changes the caller's variable; on success
    its own parameter ends up pointing at the ticket's payload. *)
Lemma lz_get_deferral_time_caller_var fuel v w r v' p :
  lz_get_deferral_time fuel v w = Some (r, v', p) -> v' = v.
Proof.
  unfold lz_get_deferral_time.
  destruct (lz_has_valid_staging_element fuel DEFERRAL_TICKET w) as [res|];
    [|discriminate].
  destruct (negb (res =? LZ_SUCCESS)); [intros H; now inversion H|].
  destruct (lz_get_staging_elem_content fuel DEFERRAL_TICKET w) as [[res' q]|];
    [|discriminate].
  destruct (negb (res' =? LZ_SUCCESS)); intros H; now inversion H.
Qed.

(** C8. When the staging area holds a valid deferral ticket (the first
    [DEFERRAL_TICKET] record carrying [cur_nonce] verifies),
    [lz_get_deferral_time] returns [LZ_SUCCESS] and leaves the caller's
    variable with the value it had before the call: the payload address is
    only assigned to the function's own parameter. *)
Theorem lz_get_deferral_time_leaves_caller_value (fuel : nat) (v : Z) (w : world) :
  LZ_SUCCESS <> LZ_ERROR -> LZ_SUCCESS <> LZ_NOT_FOUND ->
  first_ticket_valid fuel DEFERRAL_TICKET w ->
  exists off,
    lz_get_staging_hdr fuel DEFERRAL_TICKET (bp_cur_nonce (lz_core_boot_params w)) w
    = Some (Found off)
    /\ lz_get_deferral_time fuel v w
       = Some (LZ_SUCCESS, v, StagingPtr (off + sizeof_lz_auth_hdr_t)).
Proof.
  intros Hne Hnf Hvalid.
  pose proof (proj2 (lz_has_valid_staging_element_iff fuel DEFERRAL_TICKET w Hne Hnf) Hvalid)
    as Hhas.
  destruct Hvalid as (off & Hfound & _). exists off. split; [exact Hfound|].
  unfold lz_get_deferral_time, lz_get_staging_elem_content.
  rewrite Hhas, Hfound, Z.eqb_refl. reflexivity.
Qed.

Lemma lz_get_deferral_time_status fuel v w r v' p :
  LZ_SUCCESS <> LZ_ERROR -> LZ_SUCCESS <> LZ_NOT_FOUND ->
  lz_get_deferral_time fuel v w = Some (r, v', p) ->
  r = LZ_SUCCESS <-> first_ticket_valid fuel DEFERRAL_TICKET w.
Proof.
  intros Hne Hnf.
  rewrite <- (lz_has_valid_staging_element_iff fuel DEFERRAL_TICKET w Hne Hnf).
  unfold lz_get_deferral_time, lz_get_staging_elem_content,
    lz_has_valid_staging_element.
  destruct (lz_get_staging_hdr fuel DEFERRAL_TICKET _ w) as [[off|]|];
    [| |discriminate].
  - destruct (negb (lz_core_verify_staging_elem_hdr _ _ _ w =? LZ_SUCCESS)).
    + destruct (Z.eqb_spec LZ_ERROR LZ_SUCCESS); [congruence|]. cbn [negb].
      intros H; inversion H; subst. split; congruence.
    + rewrite Z.eqb_refl. cbn [negb].
      intros H; inversion H; subst. split; congruence.
  - destruct (Z.eqb_spec LZ_NOT_FOUND LZ_SUCCESS); [congruence|]. cbn [negb].
    intros H; inversion H; subst. split; congruence.
Qed.

(** Without a valid deferral ticket the caller falls back to the default
    timeout; with one it keeps whatever its variable held. *)
Lemma determine_deferral_time_value fuel v w t w' :
  LZ_SUCCESS <> LZ_ERROR -> LZ_SUCCESS <> LZ_NOT_FOUND ->
  determine_deferral_time fuel v w = Continue t w' ->
  w' = w
  /\ (first_ticket_valid fuel DEFERRAL_TICKET w -> t = v)
  /\ (~ first_ticket_valid fuel DEFERRAL_TICKET w -> t = DEFAULT_WDT_TIMOUT_s).
Proof.
  intros Hne Hnf. unfold determine_deferral_time, bind, walk, ret.
  destruct (lz_get_deferral_time fuel v w) as [[[r v'] p]|] eqn:Hdt; [|discriminate].
  pose proof (lz_get_deferral_time_caller_var _ _ _ _ _ _ Hdt) as ->.
  pose proof (lz_get_deferral_time_status _ _ _ _ _ _ Hne Hnf Hdt) as Hst.
  destruct (Z.eqb_spec r LZ_SUCCESS) as [Hr|Hr]; cbn [negb];
    intros H; inversion H; subst; repeat split; tauto.
Qed.

(** ** Boot-mode selection *)

Lemma bind_Continue_inv {A B} (m : M A) (k : A -> M B) w b w' :
  bind m k w = Continue b w' ->
  exists a w1, m w = Continue a w1 /\ k a w1 = Continue b w'.
Proof.
  unfold bind. destruct (m w) as [a w1| | | |]; try discriminate.
  intros H. exists a, w1. split; [reflexivity | exact H].
Qed.

Lemma halt_unless_success_Continue r w u w' :
  halt_unless_success r w = Continue u w' -> r = LZ_SUCCESS /\ w' = w.
Proof.
  unfold halt_unless_success, lz_error_handler, ret.
  destruct (Z.eqb_spec r LZ_SUCCESS); cbn [negb]; [|discriminate].
  intros H; inversion H; auto.
Qed.




(** ** Key derivation *)

(** C6. [lz_core_derive_alias_id_keypair] reads only the first
    [sizeof_pointer] bytes of the digest it is given: two digests that agree
    there yield the same status and the same AliasID key pair, whatever their
    remaining bytes are. *)
Theorem lz_core_derive_alias_id_keypair_prefix_only (d1 d2 : bytes) :
  firstn sizeof_pointer d1 = firstn sizeof_pointer d2 ->
  lz_core_derive_alias_id_keypair d1 = lz_core_derive_alias_id_keypair d2.
Proof.
  intros H. unfold lz_core_derive_alias_id_keypair. now rewrite H.
Qed.

(** Both derivations are functions of their inputs; the DeviceID one reads
    the whole of [cdi_prime]. *)
Lemma lz_core_derive_device_id_deterministic (w1 w2 : world) :
  firstn sizeof_cdi_prime (bp_cdi_prime (lz_core_boot_params w1))
  = firstn sizeof_cdi_prime (bp_cdi_prime (lz_core_boot_params w2)) ->
  lz_core_derive_device_id w1 = lz_core_derive_device_id w2.
Proof.
  intros H. unfold lz_core_derive_device_id. now rewrite H.
Qed.

(** ** Parameter handoff *)

(** The two flags of the block [lz_core_provide_params_ram] writes. *)
Lemma lz_core_provide_params_ram_flags
    (boot_mode : boot_mode_t) (lz_core_updated firmware_update : bool)
    (alias_kp dev_kp : lz_ecc_keypair) (w w' : world) :
  LZ_SUCCESS <> LZ_ERROR ->
  lz_core_provide_params_ram boot_mode lz_core_updated firmware_update alias_kp dev_kp w
  = (w', LZ_SUCCESS) ->
  exists p,
    params_ram w' = ImgView p
    /\ firmware_update_necessary p
       = (if is_mode boot_mode APP then false else firmware_update)
    /\ dev_reassociation_necessary p
       = (if is_mode boot_mode APP then false else lz_core_updated).
Proof.
  intros Hne. unfold lz_core_provide_params_ram.
  destruct boot_mode; cbn [is_mode orb andb];
    try (destruct (lz_core_derive_dev_auth _ _ _ _) as [ra auth];
         destruct (Z.eqb_spec ra LZ_SUCCESS); cbn [negb];
         [|intros H; inversion H; congruence]);
    destruct (lz_core_create_cert_store _ _ _ _) as [w1 rc];
    (destruct (Z.eqb_spec rc LZ_SUCCESS); cbn [negb]; intros H; inversion H;
     [|congruence]);
    eexists; (split; [reflexivity|]); cbn; split; reflexivity.
Qed.

(** C5. When [lz_core_provide_params_ram] succeeds, the RAM block holds the
    next layer's parameters: for [APP] the fields [cur_nonce] and [dev_auth]
    are all zero and both flags are false, while [next_nonce] is the copy of
    the Core's; for [LZ_UDOWNLOADER] and [LZ_CPATCHER] [cur_nonce] is the copy
    of the Core's, [dev_auth] is the derived value and the flags are the
    arguments; [next_nonce] is copied for [LZ_UDOWNLOADER] and stays zero for
    [LZ_CPATCHER]. *)
Theorem lz_core_provide_params_ram_need_to_know
    (boot_mode : boot_mode_t) (lz_core_updated firmware_update : bool)
    (alias_kp dev_kp : lz_ecc_keypair) (w w' : world) :
  LZ_SUCCESS <> LZ_ERROR ->
  lz_core_provide_params_ram boot_mode lz_core_updated firmware_update alias_kp dev_kp w
  = (w', LZ_SUCCESS) ->
  exists p,
    params_ram w' = ImgView p
    /\ let core := lz_core_boot_params w in
       let copied src := memcpy (zero_bytes LEN_NONCE) src LEN_NONCE in
       match boot_mode with
       | APP =>
           ip_cur_nonce p = zero_bytes LEN_NONCE
           /\ dev_auth p = zero_bytes sizeof_dev_auth
           /\ dev_reassociation_necessary p = false
           /\ firmware_update_necessary p = false
           /\ ip_next_nonce p = copied (bp_next_nonce core)
       | LZ_UDOWNLOADER =>
           ip_cur_nonce p = copied (bp_cur_nonce core)
           /\ lz_core_derive_dev_auth (zero_bytes sizeof_dev_auth) sizeof_dev_auth dev_kp w
              = (LZ_SUCCESS, dev_auth p)
           /\ dev_reassociation_necessary p = lz_core_updated
           /\ firmware_update_necessary p = firmware_update
           /\ ip_next_nonce p = copied (bp_next_nonce core)
       | LZ_CPATCHER =>
           ip_cur_nonce p = copied (bp_cur_nonce core)
           /\ lz_core_derive_dev_auth (zero_bytes sizeof_dev_auth) sizeof_dev_auth dev_kp w
              = (LZ_SUCCESS, dev_auth p)
           /\ dev_reassociation_necessary p = lz_core_updated
           /\ firmware_update_necessary p = firmware_update
           /\ ip_next_nonce p = zero_bytes LEN_NONCE
       end.
Proof.
  intros Hne. unfold lz_core_provide_params_ram.
  destruct boot_mode; cbn [is_mode orb andb img_boot_params_zero
    ip_cur_nonce ip_next_nonce ip_dev_uuid dev_auth alias_id_keypair_pub
    alias_id_keypair_priv nw_data].
  - (* APP *)
    destruct (lz_core_create_cert_store _ _ _ _) as [w1 rc].
    destruct (Z.eqb_spec rc LZ_SUCCESS); cbn [negb]; intros H; inversion H;
      [|congruence].
    eexists. split; [reflexivity|]. cbn. repeat split; reflexivity.
  - (* LZ_CPATCHER *)
    destruct (lz_core_derive_dev_auth _ _ _ _) as [ra auth] eqn:Hauth.
    destruct (Z.eqb_spec ra LZ_SUCCESS); cbn [negb];
      [|intros H; inversion H; congruence].
    destruct (lz_core_create_cert_store _ _ _ _) as [w1 rc].
    destruct (Z.eqb_spec rc LZ_SUCCESS); cbn [negb]; intros H; inversion H;
      [|congruence].
    eexists. split; [reflexivity|]. cbn. subst. repeat split; reflexivity.
  - (* LZ_UDOWNLOADER *)
    destruct (lz_core_derive_dev_auth _ _ _ _) as [ra auth] eqn:Hauth.
    destruct (Z.eqb_spec ra LZ_SUCCESS); cbn [negb];
      [|intros H; inversion H; congruence].
    destruct (lz_core_create_cert_store _ _ _ _) as [w1 rc].
    destruct (Z.eqb_spec rc LZ_SUCCESS); cbn [negb]; intros H; inversion H;
      [|congruence].
    eexists. split; [reflexivity|]. cbn. subst. repeat split; reflexivity.
Qed.

(** ** The whole run *)

Tactic Notation "inv_bind" hyp(H) "as" ident(a) ident(w) ident(H1) :=
  apply bind_Continue_inv in H; destruct H as (a & w & H1 & H).

Lemma gets_Continue {A} (f : world -> A) w a w' :
  gets f w = Continue a w' -> a = f w /\ w' = w.
Proof. unfold gets. intros H; inversion H; auto. Qed.

Lemma lz_awdt_init_params_ram t w : params_ram (lz_awdt_init t w) = params_ram w.
Proof. unfold lz_awdt_init. destruct (awdt w); reflexivity. Qed.

Lemma lz_awdt_init_armed t w : awdt w = None -> awdt (lz_awdt_init t w) = Some t.
Proof. unfold lz_awdt_init. intros ->. reflexivity. Qed.

(** The DeviceID key pair [lz_core_run] works with is the one derived from
    the boot parameters on entry. *)
Lemma boot_setup_device_key w kp ib upd w1 :
  boot_setup w = Continue (kp, ib, upd) w1 ->
  kp = snd (lz_core_derive_device_id w).
Proof.
  unfold boot_setup. intros H.
  inv_bind H as valid wa Hv. apply gets_Continue in Hv as [Hvalid Hwa]. subst wa.
  inv_bind H as u1 wb Hb.
  assert (wb = w).
  { destruct (negb valid); unfold lz_error_handler, ret in Hb; inversion Hb; auto. }
  subst wb.
  inv_bind H as d wc Hd. apply gets_Continue in Hd as [Hd1 Hwc]. subst d wc.
  inv_bind H as u2 wd H2.
  inv_bind H as ib' we H3.
  inv_bind H as u3 wf H4.
  inv_bind H as upd' wg H5.
  inv_bind H as u4 wh H6.
  inv_bind H as cp wi H7.
  inv_bind H as u5 wj H8.
  unfold ret in H. inversion H. reflexivity.
Qed.

Lemma verify_boot_image_Continue mode nld w m f d w' :
  verify_boot_image mode nld w = Continue (m, f, d) w' ->
  w' = w
  /\ d = snd (lz_core_verify_next_layer mode nld w)
  /\ ((fst (lz_core_verify_next_layer mode nld w) = LZ_SUCCESS /\ m = mode /\ f = false)
      \/ (fst (lz_core_verify_next_layer mode nld w) <> LZ_SUCCESS
          /\ mode = APP /\ m = LZ_UDOWNLOADER /\ f = true)).
Proof.
  unfold verify_boot_image, bind, gets.
  destruct (Z.eqb_spec (fst (lz_core_verify_next_layer mode nld w)) LZ_SUCCESS);
    cbn [negb].
  - unfold ret. intros H; inversion H; subst.
    split; [reflexivity|]. split; [reflexivity|]. left. auto.
  - destruct mode; unfold ret, lz_error_handler; intros H; inversion H; subst.
    split; [reflexivity|]. split; [reflexivity|]. right. auto.
Qed.

Lemma handoff_Continue mode upd fw kp nld dt w e w' :
  handoff mode upd fw kp nld dt w = Continue e w' ->
  let pem := firstn MAX_PRIV_ECP_PEM_BYTES (lz_priv_key_to_pem kp) in
  let digest := snd (lz_sha256_two_parts (firstn SHA256_DIGEST_LENGTH nld) pem) in
  let alias := snd (lz_core_derive_alias_id_keypair digest) in
  e = mk_exit mode false kp (secure_zero_memory nld SHA256_DIGEST_LENGTH) 0
        pem digest alias
  /\ exists w1,
       lz_core_provide_params_ram mode upd fw alias kp w = (w1, LZ_SUCCESS)
       /\ w' = lz_awdt_init dt w1.
Proof.
  cbv zeta. unfold handoff.
  destruct (_ <? 0); [discriminate|].
  destruct (negb _); [discriminate|].
  intros H.
  inv_bind H as r wa Hcall. unfold call in Hcall.
  destruct (lz_core_provide_params_ram _ _ _ _ _ w) as [w1 r1] eqn:Hp.
  inversion Hcall; subst r wa. clear Hcall.
  inv_bind H as u wb Hh. apply halt_unless_success_Continue in Hh as [Hr Hwb].
  subst r1 wb.
  inv_bind H as wc wd Hg. unfold get_world in Hg. inversion Hg; subst wc wd.
  inv_bind H as u2 we Hput. unfold put_world in Hput. inversion Hput; subst we.
  unfold ret in H. inversion H; subst.
  split; [reflexivity|]. exists w1. split; reflexivity.
Qed.

Lemma lz_core_run_phases fuel stack w kp ib upd w1 mode w2 dt w3 :
  boot_setup w = Continue (kp, ib, upd) w1 ->
  select_boot_mode fuel w1 = Continue mode w2 ->
  determine_deferral_time fuel (stack_deferral_time stack) w2 = Continue dt w3 ->
  lz_core_run fuel stack w
  = match verify_boot_image mode (stack_next_layer_digest stack) w3 with
    | Continue (m, f, d) w4 => handoff m upd f kp d dt w4
    | ReturnFalse w4 => ReturnFalse w4
    | ErrorHandler w4 => ErrorHandler w4
    | WaitProvisioning w4 => WaitProvisioning w4
    | OutOfFuel => OutOfFuel
    end.
Proof.
  intros Hs Hm Hd. unfold lz_core_run.
  unfold bind at 1. rewrite Hs.
  unfold bind at 1. rewrite Hm.
  unfold bind at 1. rewrite Hd.
  unfold bind.
  destruct (verify_boot_image mode (stack_next_layer_digest stack) w3)
    as [[[m f] d] w4| | | |]; reflexivity.
Qed.

Lemma lz_core_run_Continue fuel stack w e w' :
  lz_core_run fuel stack w = Continue e w' ->
  exists kp ib upd w1 mode w2 dt w3 m f d w4,
    boot_setup w = Continue (kp, ib, upd) w1
    /\ select_boot_mode fuel w1 = Continue mode w2
    /\ determine_deferral_time fuel (stack_deferral_time stack) w2 = Continue dt w3
    /\ verify_boot_image mode (stack_next_layer_digest stack) w3 = Continue (m, f, d) w4
    /\ handoff m upd f kp d dt w4 = Continue e w'.
Proof.
  unfold lz_core_run. intros H.
  inv_bind H as s w1 Hs. destruct s as [[kp ib] upd].
  inv_bind H as mode w2 Hm.
  inv_bind H as dt w3 Hd.
  inv_bind H as v w4 Hv. destruct v as [[m f] d].
  exists kp, ib, upd, w1, mode, w2, dt, w3, m, f, d, w4. auto.
Qed.

Lemma lz_core_verify_image_buffer
    hdr_addr hdr code_addr code (image_meta : lz_img_meta_t) out w :
  exists d,
    snd (lz_core_verify_image hdr_addr hdr code_addr code image_meta out w) = out
    \/ snd (lz_core_verify_image hdr_addr hdr code_addr code image_meta out w)
       = option_map (fun buf => memcpy buf d SHA256_DIGEST_LENGTH) out.
Proof.
  unfold lz_core_verify_image. destruct (lz_sha256 _) as [rc digest]. exists digest.
  repeat break_test; cbn [fst snd]; try (left; reflexivity).
  destruct (_ || _); cbn [snd]; [left | right]; reflexivity.
Qed.

Lemma lz_core_verify_next_layer_length mode nld w :
  length (snd (lz_core_verify_next_layer mode nld w)) = length nld.
Proof.
  unfold lz_core_verify_next_layer.
  destruct (lz_core_get_next_layer_addrs mode w) as [img img_meta].
  destruct (lz_core_verify_image_buffer (img_hdr_addr img) (img_hdr img)
              (img_code_addr img) (img_code img) img_meta (Some nld) w)
    as (d & [Hb | Hb]);
    destruct (lz_core_verify_image _ _ _ _ _ _ w) as [result out];
    cbn [snd option_map] in *; subst out; [reflexivity | apply memcpy_length].
Qed.

(** C4. Let the run reach the selection of boot mode [mode] and let the
    image of that mode fail [lz_core_verify_next_layer]. For [APP] the run
    goes on as the handoff to [LZ_UDOWNLOADER] with
    [firmware_update_necessary] set, so a run that reaches its end returns
    [LZ_UDOWNLOADER] and has written a parameter block whose
    [firmware_update_necessary] flag is true. For [LZ_CPATCHER] and
    [LZ_UDOWNLOADER] the run ends in the error handler. *)
Theorem lz_core_run_dominance
    (fuel : nat) (stack : stack_t) (w w1 w2 w3 : world)
    (kp : lz_ecc_keypair) (ib upd : bool) (mode : boot_mode_t) (dt : Z) :
  LZ_SUCCESS <> LZ_ERROR ->
  boot_setup w = Continue (kp, ib, upd) w1 ->
  select_boot_mode fuel w1 = Continue mode w2 ->
  determine_deferral_time fuel (stack_deferral_time stack) w2 = Continue dt w3 ->
  fst (lz_core_verify_next_layer mode (stack_next_layer_digest stack) w3) <> LZ_SUCCESS ->
  match mode with
  | APP =>
      lz_core_run fuel stack w
      = handoff LZ_UDOWNLOADER upd true kp
          (snd (lz_core_verify_next_layer APP (stack_next_layer_digest stack) w3)) dt w3
      /\ (forall e w',
            lz_core_run fuel stack w = Continue e w' ->
            exit_boot_mode e = LZ_UDOWNLOADER
            /\ exists p, params_ram w' = ImgView p /\ firmware_update_necessary p = true)
  | LZ_CPATCHER | LZ_UDOWNLOADER => lz_core_run fuel stack w = ErrorHandler w3
  end.
Proof.
  intros Hne Hs Hm Hd Hfail.
  rewrite (lz_core_run_phases fuel stack w kp ib upd w1 mode w2 dt w3 Hs Hm Hd).
  unfold verify_boot_image, bind, gets.
  destruct (Z.eqb_spec
              (fst (lz_core_verify_next_layer mode (stack_next_layer_digest stack) w3))
              LZ_SUCCESS) as [Hok|_]; [contradiction|].
  cbn [negb]. destruct mode; unfold ret, lz_error_handler; try reflexivity.
  split; [reflexivity|].
  intros e w' Hrun. apply handoff_Continue in Hrun. cbv zeta in Hrun.
  destruct Hrun as (He & wp & Hp & Hw'). subst e w'.
  split; [reflexivity|].
  destruct (lz_core_provide_params_ram_flags _ _ _ _ _ _ _ Hne Hp) as (p & Hram & Hfw & _).
  exists p. rewrite lz_awdt_init_params_ram. split; [exact Hram | exact Hfw].
Qed.

(** C7. At [return boot_mode;] of a run that reaches its end, the
    next-layer digest buffer is all zero and [deferral_time] is zero, while
    [lz_dev_id_keypair] still holds the DeviceID key pair derived on entry
    and [pem] its private key in PEM form: the source leaves the clearing of
    the device key as a TODO. *)
Theorem lz_core_run_exit_locals
    (fuel : nat) (stack : stack_t) (w w' : world) (e : core_exit) :
  length (stack_next_layer_digest stack) = SHA256_DIGEST_LENGTH ->
  lz_core_run fuel stack w = Continue e w' ->
  exit_next_layer_digest e = zero_bytes SHA256_DIGEST_LENGTH
  /\ exit_deferral_time e = 0
  /\ exit_lz_dev_id_keypair e = snd (lz_core_derive_device_id w)
  /\ exit_pem e
     = firstn MAX_PRIV_ECP_PEM_BYTES
         (lz_priv_key_to_pem (snd (lz_core_derive_device_id w))).
Proof.
  intros Hlen Hrun.
  apply lz_core_run_Continue in Hrun.
  destruct Hrun as (kp & ib & upd & w1 & mode & w2 & dt & w3 & m & f & d & w4
                    & Hs & Hm & Hd & Hv & Hh).
  apply boot_setup_device_key in Hs.
  apply verify_boot_image_Continue in Hv. destruct Hv as (_ & Hdig & _).
  apply handoff_Continue in Hh. cbv zeta in Hh. destruct Hh as (He & _).
  subst e kp. cbn [exit_next_layer_digest exit_deferral_time exit_lz_dev_id_keypair
                     exit_pem].
  repeat split; try reflexivity.
  apply secure_zero_memory_all.
  rewrite Hdig, lz_core_verify_next_layer_length. exact Hlen.
Qed.

(** The timeout the watchdog is armed with: the default without a valid
    deferral ticket, and otherwise the value [deferral_time] happened to hold
    on the stack. *)
Lemma lz_core_run_watchdog
    (fuel : nat) (stack : stack_t) (w w' : world) (e : core_exit) :
  LZ_SUCCESS <> LZ_ERROR -> LZ_SUCCESS <> LZ_NOT_FOUND ->
  lz_core_run fuel stack w = Continue e w' ->
  exists t w2 w5,
    w' = lz_awdt_init t w5
    /\ (first_ticket_valid fuel DEFERRAL_TICKET w2 -> t = stack_deferral_time stack)
    /\ (~ first_ticket_valid fuel DEFERRAL_TICKET w2 -> t = DEFAULT_WDT_TIMOUT_s).
Proof.
  intros Hne Hnf Hrun.
  apply lz_core_run_Continue in Hrun.
  destruct Hrun as (kp & ib & upd & w1 & mode & w2 & dt & w3 & m & f & d & w4
                    & Hs & Hm & Hd & Hv & Hh).
  apply handoff_Continue in Hh. cbv zeta in Hh. destruct Hh as (_ & w5 & _ & Hw').
  destruct (determine_deferral_time_value _ _ _ _ _ Hne Hnf Hd) as (_ & Hvalid & Hdef).
  exists dt, w2, w5. auto.
Qed.

End Properties.

(** * The properties on the concrete platform *)

(** A valid boot ticket is accepted under the current nonce, and the same
    ticket issued for a stale nonce is rejected. *)
Lemma lz_core_verify_staging_elem_hdr_accepts_exactly_witness :
  lz_core_verify_staging_elem_hdr (K := Demo.constants) (C := Demo.crypto)
    (fst Demo.boot_ticket) (staging_payload (K := Demo.constants) Demo.w_app 0)
    Demo.cur_nonce Demo.w_app = 0
  /\ lz_core_verify_staging_elem_hdr (K := Demo.constants) (C := Demo.crypto)
       (fst Demo.replayed_boot_ticket)
       (staging_payload (K := Demo.constants) Demo.w_app 0)
       Demo.cur_nonce Demo.w_app = 1.
Proof.
  split.
  - pose proof (lz_core_verify_staging_elem_hdr_accepts_exactly
                  (K := Demo.constants) (C := Demo.crypto)
                  (fst Demo.boot_ticket)
                  (staging_payload (K := Demo.constants) Demo.w_app 0)
                  Demo.cur_nonce Demo.w_app) as H.
    cbv zeta in H.
    apply H; try (vm_compute; reflexivity); try (vm_compute; discriminate).
    repeat split; vm_compute; reflexivity.
  - pose proof (lz_core_verify_staging_elem_hdr_accepts_exactly
                  (K := Demo.constants) (C := Demo.crypto)
                  (fst Demo.replayed_boot_ticket)
                  (staging_payload (K := Demo.constants) Demo.w_app 0)
                  Demo.cur_nonce Demo.w_app) as H.
    cbv zeta in H.
    apply H; try (vm_compute; reflexivity); try (vm_compute; discriminate).
    intros (_ & _ & _ & Hnonce & _). vm_compute in Hnonce. discriminate Hnonce.
Defined.

(** The App image of version 2 is accepted against stored metadata of
    version 3 whose magic is wrong. *)
Lemma lz_core_verify_image_accepts_below_stored_version_witness :
  ih_version (ih_content (img_hdr Demo.good_app)) = 2
  /\ lastVersion Demo.stale_meta = 3
  /\ fst (lz_core_verify_image (K := Demo.constants) (C := Demo.crypto)
            1000 (img_hdr Demo.good_app) 1016 (img_code Demo.good_app)
            Demo.stale_meta (Some (repeat 170 32)) Demo.w_app)
     = LZ_SUCCESS (Constants := Demo.constants).
Proof.
  split; [reflexivity|]. split; [reflexivity|].
  apply (lz_core_verify_image_accepts_below_stored_version
           (K := Demo.constants) (C := Demo.crypto)).
  - reflexivity.
  - repeat split; vm_compute; reflexivity.
  - vm_compute. discriminate.
  - vm_compute. reflexivity.
Defined.

(** On that input the caller's digest buffer still holds its old bytes,
    which are not the digest of the code. *)
Lemma lz_core_verify_image_success_leaves_buffer_witness :
  lz_core_verify_image (K := Demo.constants) (C := Demo.crypto)
    1000 (img_hdr Demo.good_app) 1016 (img_code Demo.good_app)
    Demo.stale_meta (Some (repeat 170 32)) Demo.w_app
  = (0, Some (repeat 170 32))
  /\ image_code_digest (C := Demo.crypto)
       (img_hdr Demo.good_app) (img_code Demo.good_app)
     = 15 :: 5 :: zero_bytes 30.
Proof.
  split; [|vm_compute; reflexivity].
  apply (lz_core_verify_image_success_leaves_buffer
           (K := Demo.constants) (C := Demo.crypto)).
  - reflexivity.
  - repeat split; vm_compute; reflexivity.
  - vm_compute. discriminate.
Defined.



(** A valid boot ticket in front of a corrupted App image: the run hands
    off to the Update Downloader with [firmware_update_necessary] set. *)
Lemma lz_core_run_dominance_witness :
  exists e w',
    lz_core_run (K := Demo.constants) (C := Demo.crypto) (E := Demo.externals)
      8 Demo.stack Demo.w_corrupt_app = Continue e w'
    /\ exit_boot_mode e = LZ_UDOWNLOADER
    /\ exists p, params_ram w' = ImgView p /\ firmware_update_necessary p = true.
Proof.
  destruct (lz_core_run (K := Demo.constants) (C := Demo.crypto)
              (E := Demo.externals) 8 Demo.stack Demo.w_corrupt_app)
    as [e w'| | | |] eqn:Hrun; try (vm_compute in Hrun; discriminate Hrun).
  exists e, w'. split; [reflexivity|].
  assert (H01 : LZ_SUCCESS (Constants := Demo.constants)
                <> LZ_ERROR (Constants := Demo.constants))
    by (vm_compute; discriminate).
  pose proof (lz_core_run_dominance (K := Demo.constants) (C := Demo.crypto)
                (E := Demo.externals) 8 Demo.stack
                Demo.w_corrupt_app Demo.w_corrupt_app Demo.w_corrupt_app
                Demo.w_corrupt_app Demo.device_key false false APP 30 H01) as H.
  cbv iota in H.
  destruct H as (_ & Hall); try (vm_compute; reflexivity);
    [vm_compute; discriminate|].
  apply Hall. exact Hrun.
Defined.

(** The App block of a normal App boot. *)
Lemma lz_core_provide_params_ram_need_to_know_witness :
  exists w' p,
    lz_core_provide_params_ram (K := Demo.constants) (C := Demo.crypto)
      APP true true (mk_keypair [30; 40; 0; 0] [31; 41; 1; 1]) Demo.device_key
      Demo.w_app = (w', 0)
    /\ params_ram w' = ImgView p
    /\ ip_cur_nonce p = zero_bytes 16
    /\ dev_auth p = zero_bytes 32
    /\ dev_reassociation_necessary p = false
    /\ firmware_update_necessary p = false
    /\ ip_next_nonce p = Demo.next_nonce.
Proof.
  destruct (lz_core_provide_params_ram (K := Demo.constants) (C := Demo.crypto)
              APP true true (mk_keypair [30; 40; 0; 0] [31; 41; 1; 1])
              Demo.device_key Demo.w_app) as [w' r] eqn:Hp.
  assert (Hr : r = 0) by (vm_compute in Hp; inversion Hp; reflexivity).
  subst r.
  assert (H01 : LZ_SUCCESS (Constants := Demo.constants)
                <> LZ_ERROR (Constants := Demo.constants))
    by (vm_compute; discriminate).
  destruct (lz_core_provide_params_ram_need_to_know (K := Demo.constants)
              (C := Demo.crypto) APP true true
              (mk_keypair [30; 40; 0; 0] [31; 41; 1; 1]) Demo.device_key
              Demo.w_app w' H01 Hp) as (p & Hram & Hfields).
  cbv zeta iota in Hfields.
  destruct Hfields as (Hcur & Hauth & Hre & Hfw & Hnext).
  exists w', p. split; [reflexivity|]. split; [exact Hram|].
  split; [exact Hcur|]. split; [exact Hauth|]. split; [exact Hre|].
  split; [exact Hfw|]. rewrite Hnext. vm_compute. reflexivity.
Defined.

(** Two digests that differ from the fifth byte on give the same AliasID. *)
Lemma lz_core_derive_alias_id_keypair_prefix_only_witness :
  [1; 2; 3; 4] ++ zero_bytes 28 <> [1; 2; 3; 4] ++ repeat 9 28
  /\ lz_core_derive_alias_id_keypair (K := Demo.constants) (C := Demo.crypto)
       ([1; 2; 3; 4] ++ zero_bytes 28)
     = lz_core_derive_alias_id_keypair (K := Demo.constants) (C := Demo.crypto)
         ([1; 2; 3; 4] ++ repeat 9 28).
Proof.
  split; [vm_compute; discriminate|].
  apply (lz_core_derive_alias_id_keypair_prefix_only (K := Demo.constants)
           (C := Demo.crypto)).
  reflexivity.
Defined.

(** At the end of a normal App boot the DeviceID private key is still in
    [lz_dev_id_keypair] and in [pem]. *)
Lemma lz_core_run_exit_locals_witness :
  exists e w',
    lz_core_run (K := Demo.constants) (C := Demo.crypto) (E := Demo.externals)
      8 Demo.stack Demo.w_app = Continue e w'
    /\ exit_next_layer_digest e = zero_bytes 32
    /\ exit_deferral_time e = 0
    /\ kp_priv (exit_lz_dev_id_keypair e) = [1; 2; 3; 4]
    /\ exit_pem e = [1; 2; 3; 4; 0; 0; 0; 0].
Proof.
  destruct (lz_core_run (K := Demo.constants) (C := Demo.crypto)
              (E := Demo.externals) 8 Demo.stack Demo.w_app)
    as [e w'| | | |] eqn:Hrun; try (vm_compute in Hrun; discriminate Hrun).
  exists e, w'. split; [reflexivity|].
  destruct (lz_core_run_exit_locals (K := Demo.constants) (C := Demo.crypto)
              (E := Demo.externals) 8 Demo.stack Demo.w_app w' e eq_refl Hrun)
    as (Hd & Ht & Hk & Hpem).
  split; [exact Hd|]. split; [exact Ht|].
  split; [rewrite Hk | rewrite Hpem]; vm_compute; reflexivity.
Defined.

(** The deferral ticket at offset 10 carries the word 3600 and is valid;
    the call succeeds and the caller's variable still holds 7. *)
Lemma lz_get_deferral_time_leaves_caller_value_witness :
  exists off,
    lz_get_deferral_time (K := Demo.constants) (C := Demo.crypto) 8 7 Demo.w_app
    = Some (0, 7, StagingPtr (off + 8))
    /\ read_bytes (staging_payload (K := Demo.constants) Demo.w_app off) 4
       = [16; 14; 0; 0].
Proof.
  assert (H01 : LZ_SUCCESS (Constants := Demo.constants)
                <> LZ_ERROR (Constants := Demo.constants))
    by (vm_compute; discriminate).
  assert (H02 : LZ_SUCCESS (Constants := Demo.constants)
                <> LZ_NOT_FOUND (Constants := Demo.constants))
    by (vm_compute; discriminate).
  assert (Hvalid : first_ticket_valid (K := Demo.constants) (C := Demo.crypto)
                     8 DEFERRAL_TICKET Demo.w_app).
  { exists 10. split; [vm_compute; reflexivity|].
    unfold staging_record_valid.
    repeat split; try (vm_compute; reflexivity); vm_compute; discriminate. }
  destruct (lz_get_deferral_time_leaves_caller_value (K := Demo.constants)
              (C := Demo.crypto) 8 7 Demo.w_app H01 H02 Hvalid)
    as (off & Hfound & Hdt).
  exists off. split; [exact Hdt|].
  assert (Hoff : off = 10) by (vm_compute in Hfound; inversion Hfound; reflexivity).
  rewrite Hoff. vm_compute. reflexivity.
Defined.

(** A first header with payload size 2^32 - 8 on a platform whose header has
    8 bytes: the element count is never produced. *)
Lemma lz_get_num_staging_elems_diverges_witness :
  ah_payload_size (ah_content (staging_hdr Demo.w_loop 0)) = 4294967288
  /\ forall fuel,
       lz_get_num_staging_elems (K := Demo.constants) fuel Demo.w_loop = None.
Proof.
  split; [reflexivity|].
  apply (lz_get_num_staging_elems_diverges (K := Demo.constants) Demo.w_loop);
    vm_compute; reflexivity.
Defined.

(** ** Scenarios of section 8 *)

(** Scenario 2, normal App boot: mode [APP], block without [cur_nonce]. *)
Example scenario_normal_app_boot :
  Demo.summary_flags (Demo.run_demo Demo.w_app) = Some (APP, false, zero_bytes 16).
Proof. vm_compute. reflexivity. Qed.

(** Scenario 4, corrupted App image: Update Downloader, firmware update
    requested, current nonce handed over. *)
Example scenario_corrupted_app :
  Demo.summary_flags (Demo.run_demo Demo.w_corrupt_app)
  = Some (LZ_UDOWNLOADER, true, Demo.cur_nonce).
Proof. vm_compute. reflexivity. Qed.

(** Scenario 5, rollback attempt against intact metadata: rejected, fallback
    to the Update Downloader. *)
Example scenario_rollback_attempt :
  Demo.summary_flags (Demo.run_demo Demo.w_rollback)
  = Some (LZ_UDOWNLOADER, true, Demo.cur_nonce).
Proof. vm_compute. reflexivity. Qed.

(** Scenario 6, nonce replay: the ticket is ignored. *)
Example scenario_nonce_replay :
  Demo.summary_flags (Demo.run_demo Demo.w_replay)
  = Some (LZ_UDOWNLOADER, false, Demo.cur_nonce).
Proof. vm_compute. reflexivity. Qed.

(** Empty staging area: Update Downloader, watchdog armed with the default
    timeout. *)
Example scenario_empty_staging :
  option_map (fun s => (fst (fst s), snd s)) (Demo.summary (Demo.run_demo Demo.w_empty))
  = Some (LZ_UDOWNLOADER, Some 30).
Proof. vm_compute. reflexivity. Qed.

(** With the valid deferral ticket for 3600 s in the staging area the
    watchdog is armed with the value found on the stack. *)
Example scenario_deferral_ticket :
  option_map (fun s => (fst (fst s), snd s)) (Demo.summary (Demo.run_demo Demo.w_app))
  = Some (APP, Some (stack_deferral_time Demo.stack)).
Proof. vm_compute. reflexivity. Qed.

(** * Further properties of lz_core.c, lz_ecdsa.c and main.c *)

Section FurtherProperties.
Context {K : Constants} {C : Crypto} {E : Externals}.

Ltac case_test :=
  match goal with
  | |- context [ ?a =? ?b ] => destruct (Z.eqb_spec a b); cbn [negb andb orb]
  end.

(** ** Buffer primitives *)

Lemma read_bytes_ext (p q : nat -> Z) (n : nat) :
  (forall i, (i < n)%nat -> p i = q i) -> read_bytes p n = read_bytes q n.
Proof.
  intros H. unfold read_bytes. apply map_ext_in.
  intros i Hi. apply in_seq in Hi. apply H. lia.
Qed.

Lemma memcmp_zero_firstn (a b b' : bytes) (n : nat) :
  firstn n b = firstn n b' -> (memcmp a b n =? 0) = (memcmp a b' n =? 0).
Proof.
  intros H.
  destruct (Z.eqb_spec (memcmp a b n) 0) as [H0|H0];
    destruct (Z.eqb_spec (memcmp a b' n) 0) as [H1|H1]; try reflexivity; exfalso.
  - apply H1. apply memcmp_eq_iff. apply memcmp_eq_iff in H0. congruence.
  - apply H0. apply memcmp_eq_iff. apply memcmp_eq_iff in H1. congruence.
Qed.

Lemma memcpy_nil (src : bytes) (n : nat) : memcpy [] src n = [].
Proof. destruct n; reflexivity. Qed.

Lemma memcpy_firstn (dst src : bytes) (n : nat) :
  (n <= length dst)%nat -> (n <= length src)%nat ->
  firstn n (memcpy dst src n) = firstn n src.
Proof.
  revert dst src; induction n as [|n IH]; intros dst src Hd Hs; [reflexivity|].
  destruct dst as [|d dst]; [simpl in Hd; lia|].
  destruct src as [|s src]; [simpl in Hs; lia|].
  simpl in *. f_equal. apply IH; lia.
Qed.

Lemma memcpy_idempotent (dst src : bytes) (n : nat) :
  memcpy (memcpy dst src n) src n = memcpy dst src n.
Proof.
  revert dst src; induction n as [|n IH]; intros dst src; [reflexivity|].
  destruct dst as [|d dst]; [reflexivity|].
  destruct src as [|s src]; [reflexivity|].
  simpl. f_equal. apply IH.
Qed.

Lemma memcpy_at_length (dst : bytes) (off : nat) (src : bytes) (n : nat) :
  length (memcpy_at dst off src n) = length dst.
Proof.
  unfold memcpy_at. rewrite length_app, memcpy_length, <- length_app.
  now rewrite firstn_skipn.
Qed.

(** Reading back what [memcpy_at] has just written. *)
Lemma memcpy_at_read (dst : bytes) (off : nat) (src : bytes) (n : nat) :
  (off + n <= length dst)%nat -> (n <= length src)%nat ->
  firstn n (skipn off (memcpy_at dst off src n)) = firstn n src.
Proof.
  intros Hd Hs. unfold memcpy_at.
  rewrite skipn_app, length_firstn, Nat.min_l by lia.
  rewrite Nat.sub_diag. cbn [skipn].
  rewrite (skipn_all2 (firstn off dst)) by (rewrite length_firstn; lia).
  cbn [app]. apply memcpy_firstn; [rewrite length_skipn; lia | exact Hs].
Qed.

(** A write at or behind [off + n] leaves the [n] bytes from [off] alone. *)
Lemma memcpy_at_read_before
    (dst : bytes) (off n off' : nat) (src : bytes) (m : nat) :
  (off + n <= off')%nat ->
  firstn n (skipn off (memcpy_at dst off' src m)) = firstn n (skipn off dst).
Proof.
  intros H. unfold memcpy_at.
  destruct (Nat.le_gt_cases off' (length dst)) as [Hin|Hout].
  - rewrite skipn_app, length_firstn, Nat.min_l by exact Hin.
    replace (off - off')%nat with O by lia. cbn [skipn].
    rewrite firstn_app, length_skipn, length_firstn, Nat.min_l by exact Hin.
    replace (n - (off' - off))%nat with O by lia.
    cbn [firstn]. rewrite app_nil_r.
    rewrite <- (firstn_skipn off' dst) at 2.
    rewrite skipn_app, length_firstn, Nat.min_l by exact Hin.
    replace (off - off')%nat with O by lia. cbn [skipn].
    rewrite firstn_app, length_skipn, length_firstn, Nat.min_l by exact Hin.
    replace (n - (off' - off))%nat with O by lia.
    cbn [firstn]. now rewrite app_nil_r.
  - rewrite (skipn_all2 dst) by lia. rewrite memcpy_nil, app_nil_r.
    now replace (firstn off' dst) with dst by (symmetry; apply firstn_all2; lia).
Qed.

Lemma memcpy_unchecked_length (dst : bytes) (off : nat) (src : bytes) (n : nat) :
  length (memcpy_unchecked dst off src n)
  = Nat.max (length dst) (off + Nat.min n (length src)).
Proof.
  unfold memcpy_unchecked.
  rewrite !length_app, repeat_length, length_skipn, !length_firstn. lia.
Qed.



Lemma lz_is_mem_zero_all (buf : bytes) :
  lz_is_mem_zero buf (length buf) = true -> buf = zero_bytes (length buf).
Proof.
  unfold lz_is_mem_zero, zero_bytes. rewrite firstn_all.
  induction buf as [|b buf IH]; [reflexivity|].
  cbn [forallb length repeat]. intros H.
  apply andb_true_iff in H. destruct H as [Hb Hrest].
  apply Z.eqb_eq in Hb. subst b. f_equal. apply IH, Hrest.
Qed.

Lemma lz_is_mem_zero_zero_bytes (n : nat) :
  lz_is_mem_zero (zero_bytes n) (length (zero_bytes n)) = true.
Proof.
  unfold lz_is_mem_zero, zero_bytes. rewrite firstn_all.
  induction n as [|n IH]; [reflexivity|]. cbn [repeat forallb]. now rewrite IH.
Qed.

(** ** Image verifier *)

(** X1. Against stored metadata that carries [LZ_MAGIC], [lz_core_verify_image]
    reports [LZ_SUCCESS] exactly for an authentic image (magic, layout, code
    digest, code-signing signature) whose version and issue time are not
    below the stored ones; every other result is [LZ_ERROR] with the output
    buffer untouched, and on success the buffer holds the code digest. *)
Theorem lz_core_verify_image_valid_meta_accepts_exactly
    hdr_addr hdr code_addr code (image_meta : lz_img_meta_t) out w :
  LZ_SUCCESS <> LZ_ERROR ->
  meta_magic image_meta = LZ_MAGIC ->
  let r := lz_core_verify_image hdr_addr hdr code_addr code image_meta out w in
  (fst r = LZ_SUCCESS <->
     image_authentic hdr_addr hdr code_addr code w
     /\ lastVersion image_meta <= ih_version (ih_content hdr)
     /\ last_issue_time image_meta <= ih_issue_time (ih_content hdr))
  /\ (fst r <> LZ_SUCCESS -> fst r = LZ_ERROR /\ snd r = out)
  /\ (fst r = LZ_SUCCESS ->
      snd r = option_map
                (fun buf => memcpy buf (image_code_digest hdr code) SHA256_DIGEST_LENGTH)
                out).
Proof.
  intros Hne Hmeta r. subst r.
  unfold lz_core_verify_image, image_authentic, image_code_digest.
  rewrite <- memcmp_eq_iff.
  destruct (lz_sha256 _) as [rc digest]. cbn [fst snd].
  repeat case_test; cbn [fst snd]; try contradiction;
    try (split; [split; [congruence | tauto] | split; [tauto | congruence]]).
  destruct (Z.gtb_spec (lastVersion image_meta) (ih_version (ih_content hdr)));
    destruct (Z.gtb_spec (last_issue_time image_meta) (ih_issue_time (ih_content hdr)));
    cbn [orb fst snd];
    try (split; [split; [congruence | intros; lia] | split; [tauto | congruence]]).
  split; [split; [intros _; repeat split; auto; lia | reflexivity]|].
  split; [congruence|]. intros _. destruct out; reflexivity.
Qed.

(** ** Staging headers *)

(** X2. The verdict of [lz_core_verify_staging_elem_hdr] depends on the
    payload only through its first [payload_size] bytes and on the expected
    nonce only through its first [LEN_NONCE] bytes. *)
Theorem lz_core_verify_staging_elem_hdr_extent
    (hdr : lz_auth_hdr_t) (p1 p2 : nat -> Z) (n1 n2 : bytes) (w : world) :
  (forall i, (i < Z.to_nat (ah_payload_size (ah_content hdr)))%nat -> p1 i = p2 i) ->
  firstn LEN_NONCE n1 = firstn LEN_NONCE n2 ->
  lz_core_verify_staging_elem_hdr hdr p1 n1 w
  = lz_core_verify_staging_elem_hdr hdr p2 n2 w.
Proof.
  intros Hp Hn.
  unfold lz_core_verify_staging_elem_hdr, lz_core_verify_staging_elem_hdr_sig.
  rewrite (read_bytes_ext p1 p2 _ Hp).
  now rewrite (memcmp_zero_firstn _ n1 n2 _ Hn).
Qed.

(** X3. [lz_verify_staging_header] reports [LZ_SUCCESS] exactly for a valid
    staging record whose type is one of the six update types; where the type
    codes are pairwise distinct, a record of any other type (a boot or a
    deferral ticket) gets [LZ_ERROR] even if it is valid. *)
Theorem lz_verify_staging_header_update_types_only
    (hdr : lz_auth_hdr_t) (payload : nat -> Z) (w : world) :
  LZ_SUCCESS <> LZ_ERROR ->
  (lz_verify_staging_header hdr payload w = LZ_SUCCESS <->
     staging_record_valid hdr payload (bp_cur_nonce (lz_core_boot_params w)) w
     /\ exists t, In t update_types /\ ah_type (ah_content hdr) = hdr_type_code t)
  /\ ((forall t t', hdr_type_code t = hdr_type_code t' -> t = t') ->
      forall t, ~ In t update_types ->
        ah_type (ah_content hdr) = hdr_type_code t ->
        lz_verify_staging_header hdr payload w = LZ_ERROR).
Proof.
  intros Hne.
  pose proof (lz_core_verify_staging_elem_hdr_iff hdr payload
                (bp_cur_nonce (lz_core_boot_params w)) w Hne) as Hiff.
  unfold lz_verify_staging_header, update_types.
  destruct (Z.eqb_spec
              (lz_core_verify_staging_elem_hdr hdr payload
                 (bp_cur_nonce (lz_core_boot_params w)) w) LZ_SUCCESS) as [Hok|Hbad];
    cbn [negb].
  - apply Hiff in Hok. split.
    + repeat case_test;
        first
          [ split;
            [ intros _; split; [exact Hok|]; eexists; split; [|eassumption];
              cbn [In]; tauto
            | reflexivity ]
          | split;
            [ congruence
            | intros (_ & t & Hin & Ht); cbn [In] in Hin;
              repeat (destruct Hin as [<-|Hin]; [congruence|]); contradiction ] ].
    + intros Hinj t Hnot Ht.
      repeat case_test; try reflexivity; exfalso; apply Hnot;
        match goal with
        | H : ah_type _ = hdr_type_code ?u |- _ =>
            rewrite Ht in H; apply Hinj in H; subst t; cbn [In]; tauto
        end.
  - split; [|reflexivity].
    split; [congruence|]. intros (Hv & _). apply Hiff in Hv. contradiction.
Qed.


(** ** Counting the staging elements *)

Lemma looks_validb_spec (w : world) (c : Z) :
  looks_validb w c = true <-> looks_valid w c.
Proof.
  unfold looks_validb, looks_valid.
  rewrite andb_true_iff, Z.ltb_lt, Z.eqb_eq. tauto.
Qed.

Lemma forallb_below (P : nat -> bool) (k : nat) :
  forallb P (seq 0 k) = true -> forall i, (i < k)%nat -> P i = true.
Proof.
  intros H i Hi. rewrite forallb_forall in H. apply H, in_seq. lia.
Qed.

Lemma count_mod_256 (k : nat) :
  Nat.iter k (fun m => wrap8 (m + 1)) 0 = Z.of_nat k mod 256.
Proof.
  induction k as [|k IH]; [reflexivity|].
  rewrite Nat.iter_succ, IH. unfold wrap8.
  rewrite Zplus_mod_idemp_l. f_equal. lia.
Qed.

(** With exactly [k] leading headers that look valid, the loop returns after
    [k + 1] iterations with the start value counted up [k] times. *)
Lemma lz_get_num_staging_elems_loop_exact (w : world) (k : nat) :
  forall c n fuel,
    (forall i, (i < k)%nat -> looks_valid w (cursor_after w i c)) ->
    ~ looks_valid w (cursor_after w k c) ->
    (k < fuel)%nat ->
    lz_get_num_staging_elems_loop fuel w c n
    = Some (Nat.iter k (fun m => wrap8 (m + 1)) n).
Proof.
  induction k as [|k IH]; intros c n fuel Hlead Hstop Hfuel.
  - destruct fuel as [|fuel]; [lia|]. cbn [lz_get_num_staging_elems_loop].
    change (Nat.iter 0 (fun m => wrap8 (m + 1)) n) with n.
    unfold looks_valid in Hstop. change (cursor_after w 0 c) with c in Hstop.
    destruct (Z.ltb_spec c sizeof_staging_content); [|reflexivity].
    destruct (Z.eqb_spec (ah_magic (ah_content (staging_hdr w c))) LZ_MAGIC);
      [tauto | reflexivity].
  - destruct fuel as [|fuel]; [lia|]. cbn [lz_get_num_staging_elems_loop].
    destruct (Hlead O ltac:(lia)) as [Hlt Hmagic].
    change (cursor_after w 0 c) with c in Hlt, Hmagic.
    apply Z.ltb_lt in Hlt. apply Z.eqb_eq in Hmagic.
    rewrite Hlt, Hmagic. cbn [negb].
    rewrite (IH (next_cursor w c) (wrap8 (n + 1)) fuel).
    + now rewrite Nat.iter_succ_r.
    + intros i Hi. rewrite <- cursor_after_S. apply Hlead. lia.
    + rewrite <- cursor_after_S. exact Hstop.
    + lia.
Qed.

(** X4. In a staging area with exactly [k] leading headers that look valid
    (inside the area, magic [LZ_MAGIC]), [lz_get_num_staging_elems] returns
    within [k + 1] iterations, and what it returns is [k] modulo 256: the
    counter is a [uint8_t]. *)
Theorem lz_get_num_staging_elems_exact (w : world) (k fuel : nat) :
  (forall i, (i < k)%nat -> looks_valid w (cursor_after w i 0)) ->
  ~ looks_valid w (cursor_after w k 0) ->
  (k < fuel)%nat ->
  lz_get_num_staging_elems fuel w = Some (Z.of_nat k mod 256).
Proof.
  intros Hlead Hstop Hfuel. unfold lz_get_num_staging_elems.
  rewrite (lz_get_num_staging_elems_loop_exact w k 0 0 fuel Hlead Hstop Hfuel).
  now rewrite count_mod_256.
Qed.

(** X5. [lz_get_num_staging_elems] either returns within one iteration per
    byte of the area plus one, with a result no further iteration changes,
    or it never returns: a walk that is still going after that many steps has
    come back to a cursor it has been at. *)
Theorem lz_get_num_staging_elems_returns_early_or_never (w : world) :
  (exists r, forall fuel, (Z.to_nat sizeof_staging_content < fuel)%nat ->
             lz_get_num_staging_elems fuel w = Some r)
  \/ (forall fuel, lz_get_num_staging_elems fuel w = None).
Proof.
  destruct (lz_get_num_staging_elems (S (Z.to_nat sizeof_staging_content)) w)
    as [r|] eqn:Hrun.
  - left. exists r. intros fuel Hfuel. unfold lz_get_num_staging_elems in *.
    apply (lz_get_num_staging_elems_loop_fuel _ _ _ _ _ _ Hrun). lia.
  - right. apply lz_get_num_staging_elems_never, Hrun.
Qed.

(** X6. A staging area whose number of leading valid-looking headers is a
    multiple of 256 is taken for empty: the 8-bit count reads 0 and
    [lz_core_run] selects the Update Downloader without applying updates or
    looking for a boot ticket. *)
Theorem select_boot_mode_full_counter_reads_as_empty (w : world) (k fuel : nat) :
  (forall i, (i < k)%nat -> looks_valid w (cursor_after w i 0)) ->
  ~ looks_valid w (cursor_after w k 0) ->
  Z.of_nat k mod 256 = 0 ->
  (k < fuel)%nat ->
  select_boot_mode fuel w = Continue LZ_UDOWNLOADER w.
Proof.
  intros Hlead Hstop Hmod Hfuel.
  unfold select_boot_mode, bind, walk, lz_get_num_staging_elems.
  rewrite (lz_get_num_staging_elems_loop_exact w k 0 0 fuel Hlead Hstop Hfuel).
  rewrite count_mod_256, Hmod. reflexivity.
Qed.

(** ** Certificate store of the next layer *)


Lemma set_img_cert_store_same (w : world) :
  set_img_cert_store (lz_img_cert_store w) w = w.
Proof. destruct w; reflexivity. Qed.

(** [lz_core_create_cert_store] writes nothing but [lz_img_cert_store]. *)
Lemma lz_core_create_cert_store_frame mode alias kp (w : world) :
  exists cs, fst (lz_core_create_cert_store mode alias kp w) = set_img_cert_store cs w.
Proof.
  unfold lz_core_create_cert_store.
  destruct (lz_set_serial_number_cert _) as [rc serial].
  destruct (negb (rc =? 0)).
  { exists (lz_img_cert_store w). now rewrite set_img_cert_store_same. }
  cbv zeta.
  destruct (_ >? _); [eexists; reflexivity|].
  destruct (negb (_ =? 0)).
  - destruct (_ >? _); [eexists; reflexivity|].
    destruct (lz_write_cert_to_pem _ _ _ _ _ _) as [rc2 pem].
    destruct (negb (rc2 =? 0)); eexists; reflexivity.
  - destruct (_ >? _); [eexists; reflexivity|].
    destruct (lz_write_cert_to_pem _ _ _ _ _ _) as [rc2 pem].
    destruct (negb (rc2 =? 0)); eexists; reflexivity.
Qed.

(** X7. Every outcome of [lz_core_create_cert_store], for certificate sizes
    that are not negative, with what each leaves behind [certBag]. (1) The
    serial number cannot be set: [LZ_ERROR], store untouched. (2) The hub
    certificate is larger than the bag: status 0 from [return false;], magic
    0, bag all zero. (3) The DeviceID certificate does not pass its check:
    [LZ_ERROR], magic 0, and the hub's NUL has been written behind the bag
    exactly when the hub certificate fills the bag. (4) The DeviceID
    certificate passes: the AliasID writer is given the room
    [sizeof(certBag) - cursor] computed in [uint32_t]; if it fails the result
    is [LZ_ERROR] with magic 0, otherwise [LZ_SUCCESS] with magic [LZ_MAGIC]
    and the table laid out as hub, DeviceID, AliasID, each entry one byte
    behind the end of the one before and the cursor one byte behind the last.
    In (4) the bag is overrun exactly when the AliasID text ends behind it
    or the final cursor lies behind it; a DeviceID certificate that ends
    exactly at the end of the bag passes the check, puts its NUL and the whole
    AliasID entry behind the bag and makes the room [2^32 - 1]. *)
Theorem lz_core_create_cert_store_outcomes mode alias kp (w : world) :
  let ta := trust_anchors (lz_data_store w) in
  let hub := ta_cert_hub (ta_info ta) in
  let dev := ta_cert_deviceid (ta_info ta) in
  let size := Z.of_nat sizeof_img_certBag in
  let r := lz_core_create_cert_store mode alias kp w in
  let cs := lz_img_cert_store (fst r) in
  let i := cs_info cs in
  let after_hub := if ce_size hub =? 0 then 0 else ce_size hub + 1 in
  let after_dev := after_hub + ce_size dev + 1 in
  0 <= ce_size hub -> 0 <= ce_size dev ->
  r = (w, LZ_ERROR)
  \/ (size < ce_size hub
      /\ snd r = 0 /\ cs_magic i = 0
      /\ cs_certBag cs = zero_bytes sizeof_img_certBag)
  \/ (ce_size hub <= size /\ size < after_hub + ce_size dev
      /\ snd r = LZ_ERROR /\ cs_magic i = 0
      /\ (bag_overrun cs <-> ce_size hub = size /\ ce_size hub <> 0))
  \/ (ce_size hub <= size /\ after_hub + ce_size dev <= size
      /\ cs_cert_hub i
         = (if ce_size hub =? 0 then mk_entry 0 0 else mk_entry 0 (ce_size hub))
      /\ cs_cert_deviceid i = mk_entry after_hub (ce_size dev)
      /\ (after_hub + ce_size dev = size -> wrap32 (size - after_dev) = 4294967295)
      /\ exists rc pem,
           lz_write_cert_to_pem DeviceID_Lazarus_DE AliasID_Lazarus_DE
             (snd (lz_set_serial_number_cert
                     (firstn MAX_PUB_ECP_PEM_BYTES (lz_pub_key_to_pem alias))))
             alias kp (wrap32 (size - after_dev)) = (rc, pem)
           /\ ((rc <> 0 /\ snd r = LZ_ERROR /\ cs_magic i = 0
                /\ (bag_overrun cs <-> size < after_dev + Z.of_nat (length pem)))
               \/ (rc = 0 /\ snd r = LZ_SUCCESS /\ cs_magic i = LZ_MAGIC
                   /\ ce_start (cs_cert_aliasid i) = after_dev
                   /\ cs_cursor i
                      = after_dev + ce_size (cs_cert_aliasid i) + 1
                   /\ (bag_overrun cs <->
                       size < after_dev + Z.of_nat (length pem)
                       \/ size < cs_cursor i)))).
Proof.
  cbv zeta. intros Hhs Hds. unfold lz_core_create_cert_store, bag_overrun.
  destruct (lz_set_serial_number_cert _) as [rc serial]. cbn [snd].
  destruct (negb (rc =? 0)); [left; reflexivity|]. right.
  cbv zeta.
  destruct (Z.gtb_spec (0 + ce_size (ta_cert_hub (ta_info (trust_anchors (lz_data_store w)))))
              (Z.of_nat sizeof_img_certBag)) as [Hhub|Hhub].
  { left. cbn. repeat split; lia. }
  right.
  assert (Hwrap : forall a, a = Z.of_nat sizeof_img_certBag ->
                            wrap32 (Z.of_nat sizeof_img_certBag - (a + 1)) = 4294967295).
  { intros a ->. replace (_ - _) with (-1) by lia. reflexivity. }
  destruct (Z.eqb_spec (ce_size (ta_cert_hub (ta_info (trust_anchors (lz_data_store w))))) 0)
    as [Hz|Hz]; cbn [negb];
    (match goal with
     | |- context [ ?a >? ?b ] => destruct (Z.gtb_spec a b) as [Hdev|Hdev]
     end;
     [ left;
       cbn [fst snd lz_img_cert_store set_img_cert_store cs_info cs_magic cs_certBag];
       unfold store_unchecked; rewrite ?memcpy_unchecked_length;
       unfold zero_bytes; rewrite repeat_length; cbn [length];
       repeat split; try reflexivity; lia
     | right ]);
    destruct (lz_write_cert_to_pem _ _ _ _ _ _) as [rc2 pem] eqn:Hpem;
    (destruct (Z.eqb_spec rc2 0) as [Hrc|Hrc]; cbn [negb];
     cbn [fst snd lz_img_cert_store set_img_cert_store cs_info cs_magic
          cs_certBag cs_cert_hub cs_cert_deviceid cs_cert_aliasid cs_cursor
          ce_start ce_size];
     (split; [lia|]); (split; [lia|]); (split; [reflexivity|]);
     (split; [f_equal; lia|]); (split; [apply Hwrap|]);
     exists rc2, pem;
     (split;
      [first [reflexivity | exact Hpem | rewrite <- Hpem; f_equal; f_equal; lia]|]);
     [ right; (split; [exact Hrc|]); (split; [reflexivity|]); (split; [reflexivity|]);
       (split; [lia|]); (split; [lia|])
     | left; (split; [exact Hrc|]); (split; [reflexivity|]); (split; [reflexivity|]) ];
     unfold store_unchecked; rewrite !memcpy_unchecked_length;
     unfold zero_bytes; rewrite repeat_length; cbn [length]; lia).
Qed.

(** X8. A hub certificate entry larger than the certificate bag makes
    [lz_core_create_cert_store] leave through [return false;]: the status is
    0 and the store keeps magic 0. [lz_core_provide_params_ram] compares that
    status with [LZ_SUCCESS], so for the App it reports success exactly when
    [LZ_SUCCESS] is 0, and then hands over the store with magic 0. *)
Theorem lz_core_create_cert_store_hub_overflow
    (upd fw : bool) (alias kp : lz_ecc_keypair) (w : world) :
  fst (lz_set_serial_number_cert
         (firstn MAX_PUB_ECP_PEM_BYTES (lz_pub_key_to_pem alias))) = 0 ->
  Z.of_nat sizeof_img_certBag
  < ce_size (ta_cert_hub (ta_info (trust_anchors (lz_data_store w)))) ->
  (forall mode,
     snd (lz_core_create_cert_store mode alias kp w) = 0
     /\ cs_magic (cs_info (lz_img_cert_store
                             (fst (lz_core_create_cert_store mode alias kp w)))) = 0)
  /\ snd (lz_core_provide_params_ram APP upd fw alias kp w)
     = (if 0 =? LZ_SUCCESS then LZ_SUCCESS else LZ_ERROR)
  /\ cs_magic (cs_info (lz_img_cert_store
                          (fst (lz_core_provide_params_ram APP upd fw alias kp w)))) = 0.
Proof.
  intros Hserial Hhub.
  assert (Hcs : forall mode,
             lz_core_create_cert_store mode alias kp w
             = (set_img_cert_store
                  (mk_cs
                     (mk_cs_info
                        (memcpy (zero_bytes MAX_PUB_ECP_PEM_BYTES)
                           (lz_pub_key_to_pem kp) MAX_PUB_ECP_PEM_BYTES)
                        (memcpy (zero_bytes MAX_PUB_ECP_PEM_BYTES)
                           (ta_management_pub_key
                              (ta_info (trust_anchors (lz_data_store w))))
                           MAX_PUB_ECP_PEM_BYTES)
                        (mk_entry 0 0) (mk_entry 0 0) (mk_entry 0 0) 0 0)
                     (zero_bytes sizeof_img_certBag)) w, 0)).
  { intros mode. unfold lz_core_create_cert_store.
    destruct (lz_set_serial_number_cert _) as [rc serial]. cbn [fst] in Hserial.
    subst rc. cbn [Z.eqb negb]. cbv zeta.
    destruct (Z.gtb_spec
                (0 + ce_size (ta_cert_hub (ta_info (trust_anchors (lz_data_store w)))))
                (Z.of_nat sizeof_img_certBag)); [reflexivity | lia]. }
  split; [intros mode; rewrite Hcs; split; reflexivity|].
  unfold lz_core_provide_params_ram. cbn [is_mode orb andb].
  rewrite Hcs.
  destruct (0 =? LZ_SUCCESS); cbn [negb fst snd]; split; reflexivity.
Qed.


(** ** Parameter handoff *)

(** What [lz_core_provide_params_ram] leaves behind: on failure at most a
    new certificate store, on success in addition the next layer's block. *)
Lemma lz_core_provide_params_ram_shape
    mode (upd fw : bool) alias kp (w : world) :
  let r := lz_core_provide_params_ram mode upd fw alias kp w in
  (snd r = LZ_ERROR /\ exists cs, fst r = set_img_cert_store cs w)
  \/ (snd r = LZ_SUCCESS
      /\ exists cs p,
           fst r = set_params_ram (ImgView p) (set_img_cert_store cs w)
           /\ ip_magic p = LZ_MAGIC
           /\ alias_id_keypair_pub p
              = memcpy (zero_bytes MAX_PUB_ECP_PEM_BYTES) (lz_pub_key_to_pem alias)
                  MAX_PUB_ECP_PEM_BYTES
           /\ alias_id_keypair_priv p
              = memcpy (zero_bytes MAX_PRIV_ECP_PEM_BYTES) (lz_priv_key_to_pem alias)
                  MAX_PRIV_ECP_PEM_BYTES
           /\ ip_dev_uuid p
              = memcpy (zero_bytes LEN_UUID_V4_BIN)
                  (bp_dev_uuid (lz_core_boot_params w)) LEN_UUID_V4_BIN
           /\ nw_data p
              = (if is_mode mode LZ_UDOWNLOADER
                    && (nw_magic (nw_info (config_data (lz_data_store w))) =? LZ_MAGIC)
                 then nw_info (config_data (lz_data_store w))
                 else mk_nw 0 (zero_bytes sizeof_nw_body))).
Proof.
  cbv zeta. unfold lz_core_provide_params_ram.
  destruct (lz_core_create_cert_store_frame mode alias kp w) as [cs Hcs].
  destruct mode; cbn [is_mode orb andb img_boot_params_zero
    ip_cur_nonce ip_next_nonce ip_dev_uuid dev_auth alias_id_keypair_pub
    alias_id_keypair_priv nw_data];
    try (destruct (lz_core_derive_dev_auth _ _ _ _) as [ra auth];
         destruct (negb (ra =? LZ_SUCCESS));
         [left; split; [reflexivity|]; exists (lz_img_cert_store w);
          cbn [fst]; now rewrite set_img_cert_store_same|]);
    destruct (lz_core_create_cert_store _ _ _ _) as [w1 rc]; cbn [fst] in Hcs;
    subst w1;
    (destruct (negb (rc =? LZ_SUCCESS));
     [left; split; [reflexivity|]; exists cs; reflexivity|]);
    right; (split; [reflexivity|]); eexists; eexists;
    (split; [reflexivity|]); cbn [ip_magic alias_id_keypair_pub
      alias_id_keypair_priv ip_dev_uuid nw_data];
    rewrite ?memcpy_idempotent; repeat split; reflexivity.
Qed.

(** X10. As long as [lz_core_provide_params_ram] writes nothing behind
    [certBag] (the certificate store it leaves is not overrun), it writes
    neither flash nor the staging area, the images or the watchdog: the data
    store, the staging area, the three images and the watchdog state are as
    before; and when it does not report [LZ_SUCCESS] the shared RAM block is
    as before too, so no partly built block is handed over. Nothing is said
    of a run that overruns the bag: what its bytes land on is decided by the
    memory layout. *)
Theorem lz_core_provide_params_ram_frame
    mode (upd fw : bool) alias kp (w : world) :
  let r := lz_core_provide_params_ram mode upd fw alias kp w in
  ~ bag_overrun (lz_img_cert_store (fst r)) ->
  same_images w (fst r)
  /\ staging_hdr (fst r) = staging_hdr w
  /\ staging_byte (fst r) = staging_byte w
  /\ awdt (fst r) = awdt w
  /\ (snd r <> LZ_SUCCESS -> params_ram (fst r) = params_ram w).
Proof.
  cbv zeta. intros _. unfold same_images.
  destruct (lz_core_provide_params_ram_shape mode upd fw alias kp w)
    as [(Hr & cs & Hw) | (Hr & cs & p & Hw & _)]; rewrite Hw; cbn;
    repeat split; try reflexivity.
  intros H. contradiction.
Qed.

(** X11. The block a successful [lz_core_provide_params_ram] writes carries
    [LZ_MAGIC], the AliasID key pair in PEM form and, for every boot mode,
    the device UUID; the network credentials of the flash configuration are
    in it only for the Update Downloader and only if they carry [LZ_MAGIC],
    otherwise the field is all zero. *)
Theorem lz_core_provide_params_ram_identity_and_network
    mode (upd fw : bool) alias kp (w w' : world) :
  LZ_SUCCESS <> LZ_ERROR ->
  lz_core_provide_params_ram mode upd fw alias kp w = (w', LZ_SUCCESS) ->
  exists p,
    params_ram w' = ImgView p
    /\ ip_magic p = LZ_MAGIC
    /\ alias_id_keypair_pub p
       = memcpy (zero_bytes MAX_PUB_ECP_PEM_BYTES) (lz_pub_key_to_pem alias)
           MAX_PUB_ECP_PEM_BYTES
    /\ alias_id_keypair_priv p
       = memcpy (zero_bytes MAX_PRIV_ECP_PEM_BYTES) (lz_priv_key_to_pem alias)
           MAX_PRIV_ECP_PEM_BYTES
    /\ ip_dev_uuid p
       = memcpy (zero_bytes LEN_UUID_V4_BIN)
           (bp_dev_uuid (lz_core_boot_params w)) LEN_UUID_V4_BIN
    /\ nw_data p
       = match mode with
         | LZ_UDOWNLOADER =>
             if nw_magic (nw_info (config_data (lz_data_store w))) =? LZ_MAGIC
             then nw_info (config_data (lz_data_store w))
             else mk_nw 0 (zero_bytes sizeof_nw_body)
         | _ => mk_nw 0 (zero_bytes sizeof_nw_body)
         end.
Proof.
  intros Hne Hrun.
  destruct (lz_core_provide_params_ram_shape mode upd fw alias kp w)
    as [(Hr & _) | (_ & cs & p & Hw & Hm & Hpub & Hpriv & Hu & Hnw)];
    rewrite Hrun in *; cbn [fst snd] in *; [congruence|].
  exists p. subst w'. split; [reflexivity|].
  repeat (split; [assumption|]).
  rewrite Hnw. destruct mode; reflexivity.
Qed.

(** ** The static secret in flash *)

(** The configuration data after a successful [lz_core_wipe_static_symm], on
    flash that keeps what is written. *)
Lemma lz_core_wipe_static_symm_result (w w1 : world) :
  LZ_SUCCESS <> LZ_ERROR -> flash_keeps_config ->
  lz_core_wipe_static_symm w = (w1, LZ_SUCCESS) ->
  let cfg := config_data (lz_data_store w) in
  let cfg1 := config_data (lz_data_store w1) in
  ssi_static_symm (static_symm_info cfg1)
  = zero_bytes (length (ssi_static_symm (static_symm_info cfg)))
  /\ ssi_dev_uuid (static_symm_info cfg1) = ssi_dev_uuid (static_symm_info cfg)
  /\ (ssi_magic (static_symm_info cfg1) = LZ_MAGIC
      \/ ssi_magic (static_symm_info cfg1) = ssi_magic (static_symm_info cfg))
  /\ img_info cfg1 = img_info cfg
  /\ nw_info cfg1 = nw_info cfg.
Proof.
  intros Hne Hflash. cbv zeta. unfold lz_core_wipe_static_symm.
  destruct (lz_is_mem_zero _ _) eqn:Hzero.
  - intros H; inversion H; subst w1.
    split; [now apply lz_is_mem_zero_all|]. tauto.
  - destruct (lzport_flash_write _ _ w) as [w2 ok] eqn:Hwrite.
    destruct ok; cbn [LZ_RESULT_of_write]; intros H; inversion H; [|congruence].
    subst w2. rewrite (Hflash _ _ _ Hwrite). cbn.
    split; [now apply secure_zero_memory_all|]. tauto.
Qed.

(** X12. On flash that keeps what is written, a successful
    [lz_core_wipe_static_symm] leaves the stored static secret all zero and
    the device UUID, the image metadata and the network data as they were;
    run again on the result it succeeds without changing anything. *)
Theorem lz_core_wipe_static_symm_idempotent (w w1 : world) :
  LZ_SUCCESS <> LZ_ERROR -> flash_keeps_config ->
  lz_core_wipe_static_symm w = (w1, LZ_SUCCESS) ->
  let cfg := config_data (lz_data_store w) in
  let cfg1 := config_data (lz_data_store w1) in
  ssi_static_symm (static_symm_info cfg1)
  = zero_bytes (length (ssi_static_symm (static_symm_info cfg)))
  /\ ssi_dev_uuid (static_symm_info cfg1) = ssi_dev_uuid (static_symm_info cfg)
  /\ img_info cfg1 = img_info cfg
  /\ nw_info cfg1 = nw_info cfg
  /\ lz_core_wipe_static_symm w1 = (w1, LZ_SUCCESS).
Proof.
  intros Hne Hflash Hrun.
  destruct (lz_core_wipe_static_symm_result w w1 Hne Hflash Hrun)
    as (Hs & Hu & _ & Hi & Hn).
  cbv zeta. repeat (split; [assumption|]).
  unfold lz_core_wipe_static_symm. rewrite Hs.
  now rewrite lz_is_mem_zero_zero_bytes.
Qed.

(** X13. The life of the static secret in flash: after a successful
    [lz_core_store_static_symm] on the first boot the configuration data hold
    [LZ_MAGIC], the device UUID and the secret of the boot parameters; after a
    successful [lz_core_wipe_static_symm] on a later boot over the same flash
    contents they hold [LZ_MAGIC], the same UUID and a secret that is all
    zero. Flash keeps what is written and the two arrays of the boot
    parameters have their declared sizes. *)
Theorem lz_core_store_then_wipe_static_symm (w w1 : world) :
  LZ_SUCCESS <> LZ_ERROR -> flash_keeps_config ->
  length (bp_dev_uuid (lz_core_boot_params w)) = LEN_UUID_V4_BIN ->
  length (bp_static_symm (lz_core_boot_params w)) = sizeof_static_symm ->
  lz_core_store_static_symm w = (w1, LZ_SUCCESS) ->
  static_symm_info (config_data (lz_data_store w1))
  = mk_ssi LZ_MAGIC (bp_dev_uuid (lz_core_boot_params w))
      (bp_static_symm (lz_core_boot_params w))
  /\ forall w2 w3,
       config_data (lz_data_store w2) = config_data (lz_data_store w1) ->
       lz_core_wipe_static_symm w2 = (w3, LZ_SUCCESS) ->
       static_symm_info (config_data (lz_data_store w3))
       = mk_ssi LZ_MAGIC (bp_dev_uuid (lz_core_boot_params w))
           (zero_bytes sizeof_static_symm).
Proof.
  intros Hne Hflash Hu Hs Hstore.
  assert (Hcfg : static_symm_info (config_data (lz_data_store w1))
                 = mk_ssi LZ_MAGIC (bp_dev_uuid (lz_core_boot_params w))
                     (bp_static_symm (lz_core_boot_params w))).
  { unfold lz_core_store_static_symm in Hstore.
    destruct (lzport_flash_write _ _ w) as [w2 ok] eqn:Hwrite.
    destruct ok; cbn [LZ_RESULT_of_write] in Hstore; inversion Hstore;
      [|congruence].
    subst w2. rewrite (Hflash _ _ _ Hwrite).
    cbn [static_symm_info config_filled ssi_dev_uuid ssi_static_symm].
    rewrite !repeat_length.
    rewrite !memcpy_exact by (rewrite ?repeat_length; auto). reflexivity. }
  split; [exact Hcfg|].
  intros w2 w3 Hsame Hwipe.
  destruct (lz_core_wipe_static_symm_result w2 w3 Hne Hflash Hwipe)
    as (Hz & Hid & Hmagic & _).
  rewrite Hsame, Hcfg in Hz, Hid, Hmagic.
  cbn [ssi_static_symm ssi_dev_uuid ssi_magic] in Hz, Hid, Hmagic.
  rewrite Hs in Hz.
  destruct (static_symm_info (config_data (lz_data_store w3))) as [m u s].
  cbn [ssi_static_symm ssi_dev_uuid ssi_magic] in Hz, Hid, Hmagic.
  subst u s. destruct Hmagic as [-> | ->]; reflexivity.
Qed.

(** ** DeviceID certificate signing request *)

(** X23. [lz_core_create_device_id_csr] either returns [LZ_ERROR] with the
    state untouched, or issues one flash write of the trust anchors. What it
    writes keeps the management key, the code signing key, the hub
    certificate entry, the magic value and the size of the certificate bag of
    the structure it started from (the stored trust anchors, or on the first
    boot the zeroed structure with an erased bag), and its DeviceID entry
    starts at the old DeviceID entry when provisioning is complete and at 0
    otherwise. On a later boot a stored cursor of 0 gives [LZ_ERROR] without
    a write. *)
Theorem lz_core_create_device_id_csr_writes
    (first_boot : bool) (kp : lz_ecc_keypair) (w : world) :
  let old :=
    if first_boot
    then mk_ta (ta_info trust_anchors_zero) (repeat 255 sizeof_ta_certBag)
    else trust_anchors (lz_data_store w) in
  let r := lz_core_create_device_id_csr first_boot kp w in
  (first_boot = false -> ta_cursor (ta_info old) = 0 -> r = (w, LZ_ERROR))
  /\ (r = (w, LZ_ERROR)
      \/ exists ta,
           r = (let (w', ok) :=
                  lzport_flash_write FlashTrustAnchors (SrcTrustAnchors ta) w in
                (w', LZ_RESULT_of_write ok))
           /\ ta_management_pub_key (ta_info ta) = ta_management_pub_key (ta_info old)
           /\ ta_code_auth_pub_key (ta_info ta) = ta_code_auth_pub_key (ta_info old)
           /\ ta_cert_hub (ta_info ta) = ta_cert_hub (ta_info old)
           /\ ta_magic (ta_info ta) = ta_magic (ta_info old)
           /\ length (ta_certBag ta) = length (ta_certBag old)
           /\ ce_start (ta_cert_deviceid (ta_info ta))
              = (if first_boot then 0
                 else if lz_core_is_provisioning_complete w
                      then ce_start (ta_cert_deviceid (ta_info old))
                      else 0)).
Proof.
  cbv zeta. unfold lz_core_create_device_id_csr.
  destruct first_boot; cbn [negb andb].
  - split; [discriminate|].
    destruct (lz_set_serial_number_csr _) as [rc serial].
    destruct (negb (rc =? 0)); [left; reflexivity|].
    destruct (lz_write_csr_to_pem _ _ _ _) as [rc2 pem].
    destruct (rc2 <? 0); [left; reflexivity|].
    right. eexists. split; [reflexivity|].
    cbn [ta_info ta_certBag ta_management_pub_key ta_code_auth_pub_key
         ta_cert_hub ta_magic ta_cert_deviceid ce_start ta_cursor trust_anchors_zero].
    repeat split. unfold store_byte. now rewrite !memcpy_at_length.
  - split.
    + intros _ Hcur.
      destruct (lz_set_serial_number_csr _) as [rc serial].
      destruct (negb (rc =? 0)); [reflexivity|].
      rewrite Hcur. reflexivity.
    + destruct (lz_set_serial_number_csr _) as [rc serial].
      destruct (negb (rc =? 0)); [left; reflexivity|].
      destruct (ta_cursor _ =? 0); [left; reflexivity|].
      destruct (lz_core_is_provisioning_complete w).
      * destruct (lz_write_csr_to_pem _ _ _ _) as [rc2 pem].
        destruct (rc2 <? 0); [left; reflexivity|].
        right. eexists. split; [reflexivity|].
        cbn [ta_info ta_certBag ta_management_pub_key ta_code_auth_pub_key
             ta_cert_hub ta_magic ta_cert_deviceid ce_start].
        repeat split. unfold store_byte. now rewrite !memcpy_at_length.
      * destruct (lz_write_csr_to_pem _ _ _ _) as [rc2 pem].
        destruct (rc2 <? 0); [left; reflexivity|].
        right. eexists. split; [reflexivity|].
        cbn [ta_info ta_certBag ta_management_pub_key ta_code_auth_pub_key
             ta_cert_hub ta_magic ta_cert_deviceid ce_start].
        repeat split. unfold store_byte. now rewrite !memcpy_at_length.
Qed.

(** ** Erasing the staging area *)



(** ** The whole run, from entry to handoff *)

Tactic Notation "split_bind" hyp(H) "as" ident(a) ident(w) ident(H1) :=
  apply bind_Continue_inv in H; destruct H as (a & w & H1 & H).

(** What a completed [boot_setup] has checked. *)
Lemma boot_setup_Continue w kp ib upd w1 :
  boot_setup w = Continue (kp, ib, upd) w1 ->
  lz_core_boot_params_valid w = true
  /\ lz_core_derive_device_id w = (LZ_SUCCESS, kp)
  /\ ib = lz_core_is_initial_boot w
  /\ lz_core_is_provisioning_complete w1 = true.
Proof.
  unfold boot_setup. intros H.
  split_bind H as valid wa Hv. apply gets_Continue in Hv as [Hvalid Hwa]. subst wa.
  split_bind H as u1 wb Hb.
  assert (Hvw : valid = true /\ wb = w).
  { destruct valid; cbn [negb] in Hb; unfold lz_error_handler, ret in Hb;
      inversion Hb; auto. }
  destruct Hvw as [Hv ->]. rewrite Hv in Hvalid.
  split_bind H as d wc Hd. apply gets_Continue in Hd as [Hd1 Hwc]. subst wc.
  split_bind H as u2 wd H2. apply halt_unless_success_Continue in H2 as [Hok ->].
  split_bind H as ib' we H3. apply gets_Continue in H3 as [Hib ->].
  split_bind H as u3 wf H4.
  split_bind H as upd' wg H5.
  split_bind H as u4 wh H6.
  split_bind H as cp wi H7. apply gets_Continue in H7 as [Hcp ->].
  split_bind H as u5 wj H8.
  assert (Hcw : cp = true /\ wj = wh).
  { destruct cp; cbn [negb] in H8; unfold wait_provisioning, ret in H8;
      inversion H8; auto. }
  destruct Hcw as [Hc ->].
  unfold ret in H. inversion H. subst.
  split; [auto|]. split; [|split; [reflexivity | congruence]].
  destruct (lz_core_derive_device_id w) as [r k]. cbn [fst snd] in *. congruence.
Qed.

Lemma lz_awdt_init_same_images t w : same_images w (lz_awdt_init t w).
Proof.
  unfold same_images, lz_awdt_init. destruct (awdt w); cbn; repeat split; reflexivity.
Qed.

Lemma lz_awdt_init_is_armed t w : awdt (lz_awdt_init t w) <> None.
Proof.
  unfold lz_awdt_init. destruct (awdt w) eqn:H; cbn; congruence.
Qed.

(** The verifier reads the state only through the images and the data
    store. *)
Lemma lz_core_verify_next_layer_same_images mode d w w' :
  same_images w w' ->
  lz_core_verify_next_layer mode d w' = lz_core_verify_next_layer mode d w.
Proof.
  intros (Ha & Hc & Hu & _ & Hs).
  unfold lz_core_verify_next_layer, lz_core_get_next_layer_addrs,
    lz_core_verify_image, code_auth_pub_key.
  rewrite Ha, Hc, Hu, Hs. reflexivity.
Qed.

Lemma lz_core_get_next_layer_addrs_same_images mode w w' :
  same_images w w' ->
  lz_core_get_next_layer_addrs mode w' = lz_core_get_next_layer_addrs mode w.
Proof.
  intros (Ha & Hc & Hu & _ & Hs). unfold lz_core_get_next_layer_addrs.
  rewrite Ha, Hc, Hu, Hs. reflexivity.
Qed.

Lemma image_authentic_same_images a h c code w w' :
  same_images w w' -> image_authentic a h c code w -> image_authentic a h c code w'.
Proof.
  intros (_ & _ & _ & _ & Hs). unfold image_authentic, code_auth_pub_key.
  now rewrite Hs.
Qed.

Lemma lz_core_verify_next_layer_failure_keeps_buffer mode d w :
  fst (lz_core_verify_next_layer mode d w) <> LZ_SUCCESS ->
  snd (lz_core_verify_next_layer mode d w) = d.
Proof.
  unfold lz_core_verify_next_layer.
  destruct (lz_core_get_next_layer_addrs mode w) as [img m].
  pose proof (lz_core_verify_image_failure_keeps_buffer
                (img_hdr_addr img) (img_hdr img) (img_code_addr img) (img_code img)
                m (Some d) w) as Hkeep.
  destruct (lz_core_verify_image _ _ _ _ _ _ _) as [r out]. cbn [fst snd] in *.
  intros H. now rewrite (Hkeep H).
Qed.

(** Everything a run that reaches [return boot_mode;] has gone through. *)
Lemma lz_core_run_handoff fuel stack w e w' :
  LZ_SUCCESS <> LZ_ERROR ->
  lz_core_run fuel stack w = Continue e w' ->
  exists kp ib upd w1 mode w2 dt w3 f p,
    boot_setup w = Continue (kp, ib, upd) w1
    /\ select_boot_mode fuel w1 = Continue mode w2
    /\ determine_deferral_time fuel (stack_deferral_time stack) w2 = Continue dt w3
    /\ ((fst (lz_core_verify_next_layer mode (stack_next_layer_digest stack) w3)
         = LZ_SUCCESS /\ exit_boot_mode e = mode /\ f = false)
        \/ (fst (lz_core_verify_next_layer mode (stack_next_layer_digest stack) w3)
            <> LZ_SUCCESS
            /\ mode = APP /\ exit_boot_mode e = LZ_UDOWNLOADER /\ f = true))
    /\ exit_pem e = firstn MAX_PRIV_ECP_PEM_BYTES (lz_priv_key_to_pem kp)
    /\ exit_digest e
       = snd (lz_sha256_two_parts
                (firstn SHA256_DIGEST_LENGTH
                   (snd (lz_core_verify_next_layer mode
                           (stack_next_layer_digest stack) w3)))
                (exit_pem e))
    /\ exit_lz_alias_id_keypair e
       = snd (lz_core_derive_alias_id_keypair (exit_digest e))
    /\ same_images w3 w'
    /\ awdt w' <> None
    /\ params_ram w' = ImgView p
    /\ firmware_update_necessary p
       = (if is_mode (exit_boot_mode e) APP then false else f)
    /\ ip_magic p = LZ_MAGIC
    /\ alias_id_keypair_pub p
       = memcpy (zero_bytes MAX_PUB_ECP_PEM_BYTES)
           (lz_pub_key_to_pem (exit_lz_alias_id_keypair e)) MAX_PUB_ECP_PEM_BYTES
    /\ alias_id_keypair_priv p
       = memcpy (zero_bytes MAX_PRIV_ECP_PEM_BYTES)
           (lz_priv_key_to_pem (exit_lz_alias_id_keypair e)) MAX_PRIV_ECP_PEM_BYTES.
Proof.
  intros Hne Hrun.
  destruct (lz_core_run_Continue _ _ _ _ _ Hrun)
    as (kp & ib & upd & w1 & mode & w2 & dt & w3 & m & f & d & w4
        & Hsetup & Hsel & Hdef & Hver & Hhand).
  apply verify_boot_image_Continue in Hver as (-> & -> & Hcases).
  apply handoff_Continue in Hhand. cbv zeta in Hhand.
  destruct Hhand as (He & w5 & Hprov & ->).
  destruct (lz_core_provide_params_ram_flags _ _ _ _ _ _ _ Hne Hprov)
    as (p & Hp & Hfw & _).
  destruct (lz_core_provide_params_ram_shape m upd f
              (snd (lz_core_derive_alias_id_keypair
                      (snd (lz_sha256_two_parts
                              (firstn SHA256_DIGEST_LENGTH
                                 (snd (lz_core_verify_next_layer mode
                                         (stack_next_layer_digest stack) w3)))
                              (firstn MAX_PRIV_ECP_PEM_BYTES (lz_priv_key_to_pem kp))))))
              kp w3)
    as [(Hr & _) | (_ & cs & p' & Hw5 & Hm & Hpub & Hpriv & _)];
    rewrite Hprov in *; cbn [fst snd] in *; [congruence|].
  assert (p' = p) as ->.
  { rewrite Hw5 in Hp. cbn in Hp. congruence. }
  exists kp, ib, upd, w1, mode, w2, dt, w3, f, p.
  subst e. cbn [exit_boot_mode exit_pem exit_digest exit_lz_alias_id_keypair].
  repeat (split; [first [assumption | reflexivity]|]).
  split.
  { destruct (lz_awdt_init_same_images dt w5) as (Ha & Hc & Hu & Hh & Hs).
    unfold same_images. rewrite Ha, Hc, Hu, Hh, Hs, Hw5. cbn.
    repeat split; reflexivity. }
  split; [apply lz_awdt_init_is_armed|].
  split; [now rewrite lz_awdt_init_params_ram|].
  repeat (split; [first [assumption | reflexivity]|]). assumption.
Qed.

(** X14. [lz_core_run] hands off only a checked device: boot parameters
    without [LZ_MAGIC] end the run in [lz_error_handler] with the state
    untouched, and every run that reaches [return boot_mode;] had valid boot
    parameters, a successful DeviceID derivation and, when the set-up phase
    was over, complete provisioning data (trust anchors and the headers of
    Update Downloader, Core Patcher and Core all carrying [LZ_MAGIC]). *)
Theorem lz_core_run_hands_off_only_checked_device
    (fuel : nat) (stack : stack_t) (w : world) :
  (lz_core_boot_params_valid w = false -> lz_core_run fuel stack w = ErrorHandler w)
  /\ (forall e w',
        lz_core_run fuel stack w = Continue e w' ->
        lz_core_boot_params_valid w = true
        /\ fst (lz_core_derive_device_id w) = LZ_SUCCESS
        /\ exists kp ib upd w1,
             boot_setup w = Continue (kp, ib, upd) w1
             /\ lz_core_is_provisioning_complete w1 = true).
Proof.
  split.
  - intros H. unfold lz_core_run, boot_setup, bind, gets. rewrite H. reflexivity.
  - intros e w' Hrun.
    destruct (lz_core_run_Continue _ _ _ _ _ Hrun)
      as (kp & ib & upd & w1 & mode & w2 & dt & w3 & m & f & d & w4
          & Hsetup & _).
    destruct (boot_setup_Continue _ _ _ _ _ Hsetup) as (Hv & Hd & _ & Hc).
    split; [exact Hv|]. split; [now rewrite Hd|].
    exists kp, ib, upd, w1. split; assumption.
Qed.

(** X15. The image [lz_core_run] returns the mode of has passed
    verification in the very state that is handed over, whenever the mode is
    the App or the Core Patcher, or the block says that no firmware update is
    necessary: nothing [lz_core_run] does after the verification touches the
    images, the stored metadata or the code signing key. *)
Theorem lz_core_run_enters_verified_image
    (fuel : nat) (stack : stack_t) (w w' : world) (e : core_exit) :
  LZ_SUCCESS <> LZ_ERROR ->
  lz_core_run fuel stack w = Continue e w' ->
  (exit_boot_mode e <> LZ_UDOWNLOADER
   \/ exists p, params_ram w' = ImgView p /\ firmware_update_necessary p = false) ->
  fst (lz_core_verify_next_layer (exit_boot_mode e)
         (stack_next_layer_digest stack) w') = LZ_SUCCESS.
Proof.
  intros Hne Hrun Hcond.
  destruct (lz_core_run_handoff _ _ _ _ _ Hne Hrun)
    as (kp & ib & upd & w1 & mode & w2 & dt & w3 & f & p
        & _ & _ & _ & Hcases & _ & _ & _ & Hsame & _ & Hp & Hfw & _).
  rewrite (lz_core_verify_next_layer_same_images _ _ _ _ Hsame).
  destruct Hcases as [(Hok & Hm & _) | (_ & _ & Hm & Hf)].
  - now rewrite Hm.
  - exfalso. destruct Hcond as [Hud | (p' & Hp' & Hfalse)]; [contradiction|].
    rewrite Hp in Hp'. inversion Hp'; subst p'.
    rewrite Hm, Hf in Hfw. cbn in Hfw. congruence.
Qed.

(** X16. When the block handed over says that a firmware update is
    necessary, the returned mode is the Update Downloader, the App image has
    failed verification, and the image measurement that went into the
    AliasID derivation is the content of the uninitialised stack buffer
    [next_layer_digest]: nothing of the Update Downloader image enters the
    decision or the measurement. *)
Theorem lz_core_run_fallback_alias_from_stack_buffer
    (fuel : nat) (stack : stack_t) (w w' : world) (e : core_exit)
    (p : lz_img_boot_params_info_t) :
  LZ_SUCCESS <> LZ_ERROR ->
  lz_core_run fuel stack w = Continue e w' ->
  params_ram w' = ImgView p ->
  firmware_update_necessary p = true ->
  exit_boot_mode e = LZ_UDOWNLOADER
  /\ fst (lz_core_verify_next_layer APP (stack_next_layer_digest stack) w')
     <> LZ_SUCCESS
  /\ exit_digest e
     = snd (lz_sha256_two_parts
              (firstn SHA256_DIGEST_LENGTH (stack_next_layer_digest stack))
              (exit_pem e))
  /\ exit_lz_alias_id_keypair e
     = snd (lz_core_derive_alias_id_keypair (exit_digest e)).
Proof.
  intros Hne Hrun Hp' Htrue.
  destruct (lz_core_run_handoff _ _ _ _ _ Hne Hrun)
    as (kp & ib & upd & w1 & mode & w2 & dt & w3 & f & p0
        & _ & _ & _ & Hcases & _ & Hdigest & Halias & Hsame & _ & Hp & Hfw & _).
  rewrite Hp in Hp'. inversion Hp'; subst p0.
  destruct Hcases as [(_ & _ & Hf) | (Hbad & Hmode & Hm & _)].
  - exfalso. rewrite Hf in Hfw. destruct (is_mode _ _) in Hfw; congruence.
  - subst mode. split; [exact Hm|].
    rewrite (lz_core_verify_next_layer_same_images _ _ _ _ Hsame).
    split; [exact Hbad|]. split; [|exact Halias].
    rewrite Hdigest.
    now rewrite (lz_core_verify_next_layer_failure_keeps_buffer _ _ _ Hbad).
Qed.

(** X17. When the block handed over says that no firmware update is
    necessary and the stored metadata of the returned mode carry [LZ_MAGIC],
    the image of that mode in the state handed over is authentic and not
    older than the metadata, and the digest the AliasID key pair is derived
    from is the two-part hash of the image's code digest and the DeviceID
    private key in PEM form. Digest buffers have 32 bytes. *)
Theorem lz_core_run_alias_bound_to_verified_image
    (fuel : nat) (stack : stack_t) (w w' : world) (e : core_exit)
    (p : lz_img_boot_params_info_t) :
  let img := fst (lz_core_get_next_layer_addrs (exit_boot_mode e) w') in
  let m := snd (lz_core_get_next_layer_addrs (exit_boot_mode e) w') in
  LZ_SUCCESS <> LZ_ERROR ->
  length (stack_next_layer_digest stack) = SHA256_DIGEST_LENGTH ->
  length (image_code_digest (img_hdr img) (img_code img)) = SHA256_DIGEST_LENGTH ->
  lz_core_run fuel stack w = Continue e w' ->
  params_ram w' = ImgView p ->
  firmware_update_necessary p = false ->
  meta_magic m = LZ_MAGIC ->
  image_authentic (img_hdr_addr img) (img_hdr img) (img_code_addr img) (img_code img) w'
  /\ lastVersion m <= ih_version (ih_content (img_hdr img))
  /\ last_issue_time m <= ih_issue_time (ih_content (img_hdr img))
  /\ exit_digest e
     = snd (lz_sha256_two_parts (image_code_digest (img_hdr img) (img_code img))
              (exit_pem e)).
Proof.
  cbv zeta. intros Hne Hlen Hdlen Hrun Hp' Hfalse Hmagic.
  destruct (lz_core_run_handoff _ _ _ _ _ Hne Hrun)
    as (kp & ib & upd & w1 & mode & w2 & dt & w3 & f & p0
        & _ & _ & _ & Hcases & _ & Hdigest & _ & Hsame & _ & Hp & Hfw & _).
  rewrite Hp in Hp'. inversion Hp'; subst p0.
  destruct Hcases as [(Hok & Hm & _) | (_ & _ & Hm & Hf)].
  2:{ exfalso. rewrite Hm, Hf in Hfw. cbn in Hfw. congruence. }
  rewrite Hm in *. clear Hm.
  rewrite (lz_core_get_next_layer_addrs_same_images _ _ _ Hsame) in *.
  rewrite Hdigest. unfold lz_core_verify_next_layer in *.
  destruct (lz_core_get_next_layer_addrs mode w3) as [img m]. cbn [fst snd] in *.
  pose proof (lz_core_verify_image_success_cases
                (img_hdr_addr img) (img_hdr img) (img_code_addr img) (img_code img)
                m (Some (stack_next_layer_digest stack)) w3 Hne) as Hcases.
  destruct (lz_core_verify_image _ _ _ _ _ _ _) as [r out]. cbn [fst snd] in *.
  destruct (Hcases Hok) as (Hauth & [(Hbad & _) | (_ & Hv & Ht & Hout)]);
    [contradiction|].
  split; [apply (image_authentic_same_images _ _ _ _ _ _ Hsame), Hauth|].
  split; [lia|]. split; [lia|].
  rewrite Hout. cbn [option_map].
  rewrite memcpy_exact by assumption.
  rewrite <- Hdlen at 1. now rewrite firstn_all.
Qed.

(** X18. In the state [lz_core_run] hands over, the shared RAM block is the
    next layer's block with [LZ_MAGIC], it holds the PEM forms of the very
    AliasID key pair that was derived from the digest of image and DeviceID
    key, and the watchdog is armed. *)
Theorem lz_core_run_handoff_state
    (fuel : nat) (stack : stack_t) (w w' : world) (e : core_exit) :
  LZ_SUCCESS <> LZ_ERROR ->
  lz_core_run fuel stack w = Continue e w' ->
  awdt w' <> None
  /\ exit_lz_alias_id_keypair e
     = snd (lz_core_derive_alias_id_keypair (exit_digest e))
  /\ exists p,
       params_ram w' = ImgView p
       /\ ip_magic p = LZ_MAGIC
       /\ alias_id_keypair_pub p
          = memcpy (zero_bytes MAX_PUB_ECP_PEM_BYTES)
              (lz_pub_key_to_pem (exit_lz_alias_id_keypair e)) MAX_PUB_ECP_PEM_BYTES
       /\ alias_id_keypair_priv p
          = memcpy (zero_bytes MAX_PRIV_ECP_PEM_BYTES)
              (lz_priv_key_to_pem (exit_lz_alias_id_keypair e))
              MAX_PRIV_ECP_PEM_BYTES.
Proof.
  intros Hne Hrun.
  destruct (lz_core_run_handoff _ _ _ _ _ Hne Hrun)
    as (kp & ib & upd & w1 & mode & w2 & dt & w3 & f & p
        & _ & _ & _ & _ & _ & _ & Halias & _ & Harmed & Hp & _ & Hm & Hpub & Hpriv).
  split; [exact Harmed|]. split; [exact Halias|].
  exists p. repeat split; assumption.
Qed.

(** X26. A flash failure during the set-up phase is fatal at once. With
    valid boot parameters and a derived DeviceID, an initial boot whose erase
    of the data store fails, and a later boot whose write of the wiped
    configuration data fails, both end in [lz_error_handler] in the state the
    failed write left: the staging area is not erased, no secret is stored,
    no CSR is created and no boot mode is selected. *)
Theorem lz_core_run_halts_on_flash_failure
    (fuel : nat) (stack : stack_t) (w w1 : world) :
  LZ_SUCCESS <> LZ_ERROR ->
  lz_core_boot_params_valid w = true ->
  fst (lz_core_derive_device_id w) = LZ_SUCCESS ->
  (lz_core_is_initial_boot w = true ->
   lzport_flash_write FlashDataStore (SrcFill 255) w = (w1, false) ->
   lz_core_run fuel stack w = ErrorHandler w1)
  /\ (lz_core_is_initial_boot w = false ->
      snd (lz_core_wipe_static_symm w) <> LZ_SUCCESS ->
      lz_core_run fuel stack w = ErrorHandler (fst (lz_core_wipe_static_symm w))).
Proof.
  intros Hne Hvalid Hdev.
  assert (Hno : (LZ_ERROR =? LZ_SUCCESS) = false) by (apply Z.eqb_neq; congruence).
  split.
  - intros Hinit Hwrite.
    unfold lz_core_run, boot_setup, bind, gets, call, halt_unless_success, ret.
    rewrite Hvalid. cbn [negb]. rewrite Hdev, Z.eqb_refl. cbn [negb].
    rewrite Hinit. unfold lz_core_erase_lz_data_store. rewrite Hwrite.
    cbn [LZ_RESULT_of_write]. rewrite Hno. reflexivity.
  - intros Hinit Hwipe.
    unfold lz_core_run, boot_setup, bind, gets, call, halt_unless_success, ret.
    rewrite Hvalid. cbn [negb]. rewrite Hdev, Z.eqb_refl. cbn [negb].
    rewrite Hinit.
    destruct (lz_core_wipe_static_symm w) as [w2 r]. cbn [fst snd] in *.
    apply Z.eqb_neq in Hwipe. rewrite Hwipe. reflexivity.
Qed.

(** ** lz_ecdsa.c *)

Lemma strnlen_terminated (p rest : bytes) (n : nat) :
  (forall b, In b p -> b <> 0) -> (length p <= n)%nat ->
  strnlen (p ++ 0 :: rest) n = length p.
Proof.
  revert n; induction p as [|b p IH]; intros n Hnz Hlen.
  - destruct n; reflexivity.
  - destruct n as [|n]; [simpl in Hlen; lia|].
    cbn [app strnlen length].
    destruct (Z.eqb_spec b 0) as [Hb|_].
    + exfalso. apply (Hnz b); [left; reflexivity | exact Hb].
    + f_equal. apply IH; [|simpl in Hlen; lia].
      intros c Hc. apply Hnz. right. exact Hc.
Qed.

Lemma strnlen_prefix (n : nat) :
  forall a b : bytes,
    firstn (S n) a = firstn (S n) b ->
    firstn (strnlen a n + 1) a = firstn (strnlen b n + 1) b.
Proof.
  induction n as [|n IH]; intros a b H.
  - destruct a, b; cbn [strnlen Nat.add] in *; exact H.
  - destruct a as [|x a], b as [|y b]; try discriminate H; [reflexivity|].
    cbn [firstn] in H. inversion H as [[Hxy Hrest]]. subst y.
    cbn [strnlen]. destruct (x =? 0); [reflexivity|].
    cbn [Nat.add firstn]. f_equal. apply IH. exact Hrest.
Qed.

(** X19. What [lz_ecdsa_verify_pub_pem] reads of the PEM key array: never
    more than its first [MAX_PUB_ECP_PEM_BYTES] bytes, and nothing behind the
    first NUL among them. Two arrays that agree on those bytes get the same
    verdict for every message and signature. *)
Theorem lz_ecdsa_verify_pub_pem_key_extent (data sig : bytes) :
  (forall k1 k2 : bytes,
     (0 < MAX_PUB_ECP_PEM_BYTES)%nat ->
     firstn MAX_PUB_ECP_PEM_BYTES k1 = firstn MAX_PUB_ECP_PEM_BYTES k2 ->
     lz_ecdsa_verify_pub_pem data k1 sig = lz_ecdsa_verify_pub_pem data k2 sig)
  /\ (forall p r1 r2 : bytes,
        (forall b, In b p -> b <> 0) ->
        (length p < MAX_PUB_ECP_PEM_BYTES)%nat ->
        lz_ecdsa_verify_pub_pem data (p ++ 0 :: r1) sig
        = lz_ecdsa_verify_pub_pem data (p ++ 0 :: r2) sig).
Proof.
  split.
  - intros k1 k2 Hpos Hk. unfold lz_ecdsa_verify_pub_pem.
    destruct MAX_PUB_ECP_PEM_BYTES as [|n]; [lia|].
    replace (S n - 1)%nat with n by lia.
    now rewrite (strnlen_prefix n k1 k2 Hk).
  - intros p r1 r2 Hnz Hlen. unfold lz_ecdsa_verify_pub_pem.
    rewrite !strnlen_terminated by (auto; lia).
    rewrite !firstn_app, !firstn_all2 by lia.
    replace (length p + 1 - length p)%nat with 1%nat by lia.
    reflexivity.
Qed.

Section EcdsaProperties.
Context {G : Signing}.

(** X20. Signing and verifying agree: where the status 0 does not trip
    [CHECK] and [mbedtls_pk_verify] accepts what [mbedtls_pk_sign] produces
    for the same key and hash, a signature [lz_ecdsa_sign] returns with
    status 0 is accepted by [lz_ecdsa_verify] for the same message and key
    pair. Both hash the whole message and the verifier is handed exactly the
    [length] bytes the signer reported. *)
Theorem lz_ecdsa_sign_verify_roundtrip
    (data : bytes) (key_pair : lz_ecc_keypair) (rnd : bytes)
    (sig0 sig : lz_ecc_signature) :
  CHECK_failed 0 = false ->
  (forall k hash r s0 s,
     mbedtls_pk_sign k hash r s0 = (0, s) ->
     mbedtls_pk_verify k hash (sig_data s) = 0) ->
  lz_ecdsa_sign data key_pair rnd sig0 = (0, sig) ->
  lz_ecdsa_verify data key_pair sig = 0.
Proof.
  intros Hcheck Hprim. unfold lz_ecdsa_sign, lz_ecdsa_verify.
  destruct (lz_sha256 data) as [re hash].
  destruct (CHECK_failed re) eqn:Hre.
  - intros H; inversion H; subst. congruence.
  - intros H. apply (Hprim _ _ _ _ _ H).
Qed.

End EcdsaProperties.

Section EcdsaPemProperties.
Context {G : Signing}.

(** X24. Signing with a PEM private key and verifying with the raw
    verifier agree: where the status 0 does not trip [CHECK] and
    [mbedtls_ecdsa_read_signature] accepts what [mbedtls_pk_sign] produces
    for the same key and hash, a signature [lz_ecdsa_sign_pem] returns with
    status 0 was made with the key pair the PEM imports to, and
    [lz_ecdsa_verify_pub] accepts it for the same message under that key
    pair. *)
Theorem lz_ecdsa_sign_pem_verify_pub_roundtrip
    (data key rnd : bytes) (sig0 sig : lz_ecc_signature) :
  CHECK_failed 0 = false ->
  (forall k hash r s0 s,
     mbedtls_pk_sign k hash r s0 = (0, s) ->
     mbedtls_ecdsa_read_signature k hash (sig_data s) = 0) ->
  lz_ecdsa_sign_pem data key rnd sig0 = (0, sig) ->
  CHECK_failed (fst (lz_pem_to_priv_key key)) = false
  /\ lz_ecdsa_sign data (snd (lz_pem_to_priv_key key)) rnd sig0 = (0, sig)
  /\ lz_ecdsa_verify_pub data (snd (lz_pem_to_priv_key key)) sig = 0.
Proof.
  intros Hcheck Hprim. unfold lz_ecdsa_sign_pem.
  destruct (lz_pem_to_priv_key key) as [re kp]. cbn [fst snd].
  destruct (CHECK_failed re) eqn:Hre.
  { intros H; inversion H; subst. congruence. }
  intros Hsign. split; [reflexivity|]. split; [exact Hsign|].
  revert Hsign. unfold lz_ecdsa_sign, lz_ecdsa_verify_pub.
  destruct (lz_sha256 data) as [re2 hash].
  destruct (CHECK_failed re2) eqn:Hre2.
  - intros H; inversion H; subst. congruence.
  - intros H. apply (Hprim _ _ _ _ _ H).
Qed.

End EcdsaPemProperties.

(** ** main.c *)

Lemma bind_no_return_false {A B} (m : M A) (k : A -> M B) :
  no_return_false m -> (forall a, no_return_false (k a)) ->
  no_return_false (bind m k).
Proof.
  intros Hm Hk w w'. unfold bind.
  destruct (m w) eqn:Hmw; try discriminate.
  - apply Hk.
  - exfalso. exact (Hm _ _ Hmw).
Qed.

Lemma ret_no_return_false {A} (a : A) : no_return_false (ret a).
Proof. intros w w'. discriminate. Qed.

Lemma gets_no_return_false {A} (f : world -> A) : no_return_false (gets f).
Proof. intros w w'. discriminate. Qed.

Lemma call_no_return_false {A} (f : world -> world * A) : no_return_false (call f).
Proof. intros w w'. unfold call. destruct (f w). discriminate. Qed.

Lemma walk_no_return_false {A} (f : world -> option A) : no_return_false (walk f).
Proof. intros w w'. unfold walk. destruct (f w); discriminate. Qed.

Lemma halt_no_return_false r : no_return_false (halt_unless_success r).
Proof.
  intros w w'. unfold halt_unless_success.
  destruct (negb _); discriminate.
Qed.

Lemma error_no_return_false {A} : no_return_false (@lz_error_handler A).
Proof. intros w w'. discriminate. Qed.

Ltac no_return_false :=
  repeat first
    [ apply ret_no_return_false
    | apply gets_no_return_false
    | apply call_no_return_false
    | apply walk_no_return_false
    | apply halt_no_return_false
    | apply error_no_return_false
    | (intros ? ?; discriminate)
    | apply bind_no_return_false; [|intros ?]
    | match goal with
      | |- no_return_false (if ?b then _ else _) => destruct b
      | |- no_return_false (match ?x with _ => _ end) => destruct x
      end ].

Lemma boot_setup_no_return_false : no_return_false boot_setup.
Proof. unfold boot_setup. no_return_false. Qed.

Lemma select_boot_mode_no_return_false fuel : no_return_false (select_boot_mode fuel).
Proof. unfold select_boot_mode. no_return_false. Qed.

Lemma determine_deferral_time_no_return_false fuel v :
  no_return_false (determine_deferral_time fuel v).
Proof. unfold determine_deferral_time. no_return_false. Qed.

Lemma verify_boot_image_no_return_false mode d :
  no_return_false (verify_boot_image mode d).
Proof. unfold verify_boot_image. no_return_false. Qed.

Lemma bind_ReturnFalse_inv {A B} (m : M A) (k : A -> M B) w w' :
  no_return_false m ->
  bind m k w = ReturnFalse w' ->
  exists a w1, m w = Continue a w1 /\ k a w1 = ReturnFalse w'.
Proof.
  intros Hm. unfold bind. destruct (m w) eqn:Hmw; try discriminate.
  - intros H. eauto.
  - exfalso. exact (Hm _ _ Hmw).
Qed.

(** [lz_core_run] leaves through [return false;] only from the AliasID
    steps, before anything of the handoff has been written. *)
Lemma lz_core_run_ReturnFalse fuel stack w w' :
  lz_core_run fuel stack w = ReturnFalse w' ->
  exists kp ib upd w1 mode w2 dt m f d,
    boot_setup w = Continue (kp, ib, upd) w1
    /\ select_boot_mode fuel w1 = Continue mode w2
    /\ determine_deferral_time fuel (stack_deferral_time stack) w2 = Continue dt w'
    /\ verify_boot_image mode (stack_next_layer_digest stack) w'
       = Continue (m, f, d) w'
    /\ (let h := lz_sha256_two_parts (firstn SHA256_DIGEST_LENGTH d)
                   (firstn MAX_PRIV_ECP_PEM_BYTES (lz_priv_key_to_pem kp)) in
        fst h < 0
        \/ fst (lz_core_derive_alias_id_keypair (snd h)) <> LZ_SUCCESS).
Proof.
  unfold lz_core_run. intros H.
  apply bind_ReturnFalse_inv in H; [|apply boot_setup_no_return_false].
  destruct H as ([[kp ib] upd] & w1 & Hsetup & H).
  apply bind_ReturnFalse_inv in H; [|apply select_boot_mode_no_return_false].
  destruct H as (mode & w2 & Hsel & H).
  apply bind_ReturnFalse_inv in H; [|apply determine_deferral_time_no_return_false].
  destruct H as (dt & w3 & Hdef & H).
  apply bind_ReturnFalse_inv in H; [|apply verify_boot_image_no_return_false].
  destruct H as ([[m f] d] & w4 & Hver & H).
  pose proof Hver as Hver'.
  apply verify_boot_image_Continue in Hver' as (-> & _).
  unfold handoff in H.
  destruct (Z.ltb_spec
              (fst (lz_sha256_two_parts (firstn SHA256_DIGEST_LENGTH d)
                      (firstn MAX_PRIV_ECP_PEM_BYTES (lz_priv_key_to_pem kp)))) 0)
    as [Hneg|Hpos].
  - unfold return_false in H. inversion H; subst w'.
    exists kp, ib, upd, w1, mode, w2, dt, m, f, d.
    repeat (split; [assumption|]). cbv zeta. left. exact Hneg.
  - destruct (Z.eqb_spec
                (fst (lz_core_derive_alias_id_keypair
                        (snd (lz_sha256_two_parts (firstn SHA256_DIGEST_LENGTH d)
                                (firstn MAX_PRIV_ECP_PEM_BYTES
                                   (lz_priv_key_to_pem kp)))))) LZ_SUCCESS)
      as [Hok|Hbad]; cbn [negb] in H.
    + exfalso. revert H.
      match goal with |- ?m ?w = _ -> _ => generalize w, w'; change (no_return_false m) end.
      no_return_false.
    + unfold return_false in H. inversion H; subst w'.
      exists kp, ib, upd, w1, mode, w2, dt, m, f, d.
      repeat (split; [assumption|]). cbv zeta. right. exact Hbad.
Qed.

Section MainProperties.
Context {B : Board}.

Lemma switch_to_next_layer_Entered v w layer kind entry w' :
  switch_to_next_layer v w = Entered layer kind entry w' ->
  boot_mode_value layer = v /\ w' = w /\ entry = reset_vector layer w
  /\ (kind = SecureCall <-> layer = LZ_CPATCHER).
Proof.
  unfold switch_to_next_layer.
  repeat case_test; intros H; inversion H; subst;
    (split; [reflexivity|]); (split; [reflexivity|]); (split; [reflexivity|]);
    split; intros; congruence.
Qed.

(** X21. [main] enters the layer whose mode [lz_core_run] returned, through
    that layer's reset vector, by a secure call exactly for the Core Patcher;
    the only other way into a layer is a [return false;] of [lz_core_run],
    which enters the layer whose enumerator value is 0. Runs that end in the
    error handler or the provisioning wait enter nothing. The enumerator
    values of [boot_mode_t] are pairwise distinct. *)
Theorem main_enters_returned_layer
    (fuel : nat) (stack : stack_t) (w0 w' : world)
    (layer : boot_mode_t) (kind : call_kind) (entry : Z) :
  (forall a b, boot_mode_value a = boot_mode_value b -> a = b) ->
  main fuel stack w0 = Entered layer kind entry w' ->
  entry = reset_vector layer w'
  /\ (kind = SecureCall <-> layer = LZ_CPATCHER)
  /\ exists w,
       lzport_flash_init w0 = (w, true)
       /\ ((exists e, lz_core_run fuel stack w = Continue e w'
                      /\ exit_boot_mode e = layer)
           \/ (lz_core_run fuel stack w = ReturnFalse w'
               /\ boot_mode_value layer = 0)).
Proof.
  intros Hinj. unfold main.
  destruct (lzport_flash_init w0) as [w ok].
  destruct ok; cbn [negb]; [|discriminate].
  destruct (lz_core_run fuel stack w) as [e w1|w1|w1|w1|] eqn:Hrun;
    try discriminate; intros H;
    apply switch_to_next_layer_Entered in H as (Hv & -> & -> & Hk);
    (split; [reflexivity|]); (split; [exact Hk|]); exists w;
    (split; [reflexivity|]).
  - left. exists e. split; [exact Hrun|]. symmetry. apply Hinj, Hv.
  - right. split; [exact Hrun | exact Hv].
Qed.

(** X22. When [lz_core_run] leaves through [return false;] (the two-part
    hash or the AliasID derivation has failed), the state is still the one in
    which the next layer was verified: no parameter block has been written
    and the watchdog has not been armed. [main] goes on with the value 0, and
    if that is [APP]'s enumerator value (and no other's) it enters the App by
    a non-secure call in that state. *)
Theorem main_after_return_false
    (fuel : nat) (stack : stack_t) (w0 w w' : world) :
  lzport_flash_init w0 = (w, true) ->
  lz_core_run fuel stack w = ReturnFalse w' ->
  main fuel stack w0 = switch_to_next_layer 0 w'
  /\ (exists kp ib upd w1 mode w2 dt,
        boot_setup w = Continue (kp, ib, upd) w1
        /\ select_boot_mode fuel w1 = Continue mode w2
        /\ determine_deferral_time fuel (stack_deferral_time stack) w2
           = Continue dt w')
  /\ (boot_mode_value APP = 0 ->
      boot_mode_value LZ_CPATCHER <> 0 -> boot_mode_value LZ_UDOWNLOADER <> 0 ->
      main fuel stack w0 = Entered APP NonSecureCall (reset_vector APP w') w').
Proof.
  intros Hinit Hrun.
  assert (Hmain : main fuel stack w0 = switch_to_next_layer 0 w').
  { unfold main. rewrite Hinit. cbn [negb]. now rewrite Hrun. }
  split; [exact Hmain|]. split.
  - destruct (lz_core_run_ReturnFalse _ _ _ _ Hrun)
      as (kp & ib & upd & w1 & mode & w2 & dt & m & f & d & H1 & H2 & H3 & _).
    exists kp, ib, upd, w1, mode, w2, dt. auto.
  - intros Happ Hcp Hud. rewrite Hmain. unfold switch_to_next_layer.
    destruct (Z.eqb_spec (boot_mode_value LZ_CPATCHER) 0); [contradiction|].
    destruct (Z.eqb_spec (boot_mode_value LZ_UDOWNLOADER) 0); [contradiction|].
    destruct (Z.eqb_spec (boot_mode_value APP) 0); [reflexivity | contradiction].
Qed.

End MainProperties.

End FurtherProperties.

(** * The further properties on the concrete platform *)

(** The App image of version 2 is accepted against intact metadata of
    version 1 and its code digest is written; against intact metadata of
    version 3 it is rejected and the buffer keeps its bytes. *)
Lemma lz_core_verify_image_valid_meta_accepts_exactly_witness :
  lz_core_verify_image (K := Demo.constants) (C := Demo.crypto)
    1000 (img_hdr Demo.good_app) 1016 (img_code Demo.good_app)
    (Demo.meta 1 100) (Some (repeat 170 32)) Demo.w_app
  = (0, Some (15 :: 5 :: zero_bytes 30))
  /\ lz_core_verify_image (K := Demo.constants) (C := Demo.crypto)
       1000 (img_hdr Demo.good_app) 1016 (img_code Demo.good_app)
       (Demo.meta 3 300) (Some (repeat 170 32)) Demo.w_app
     = (1, Some (repeat 170 32)).
Proof.
  assert (H01 : LZ_SUCCESS (Constants := Demo.constants)
                <> LZ_ERROR (Constants := Demo.constants))
    by (vm_compute; discriminate).
  split.
  - pose proof (lz_core_verify_image_valid_meta_accepts_exactly
                  (K := Demo.constants) (C := Demo.crypto)
                  1000 (img_hdr Demo.good_app) 1016 (img_code Demo.good_app)
                  (Demo.meta 1 100) (Some (repeat 170 32)) Demo.w_app
                  H01 eq_refl) as H.
    cbv zeta in H. destruct H as (Hiff & _ & Hok).
    destruct (lz_core_verify_image _ _ _ _ _ _ _) as [r out]. cbn [fst snd] in *.
    assert (Hr : r = 0).
    { apply Hiff. split; [repeat split; vm_compute; reflexivity|].
      split; vm_compute; discriminate. }
    rewrite (Hok Hr), Hr. vm_compute. reflexivity.
  - pose proof (lz_core_verify_image_valid_meta_accepts_exactly
                  (K := Demo.constants) (C := Demo.crypto)
                  1000 (img_hdr Demo.good_app) 1016 (img_code Demo.good_app)
                  (Demo.meta 3 300) (Some (repeat 170 32)) Demo.w_app
                  H01 eq_refl) as H.
    cbv zeta in H. destruct H as (Hiff & Hfail & _).
    destruct (lz_core_verify_image _ _ _ _ _ _ _) as [r out]. cbn [fst snd] in *.
    destruct Hfail as [Hr Hout].
    { intros Hr. apply Hiff in Hr. destruct Hr as (_ & Hv & _).
      vm_compute in Hv. apply Hv. reflexivity. }
    rewrite Hr, Hout. reflexivity.
Defined.

(** The boot ticket with payload 42 54 is accepted when two more bytes
    follow the payload and three more follow the nonce. *)
Lemma lz_core_verify_staging_elem_hdr_extent_witness :
  lz_core_verify_staging_elem_hdr (K := Demo.constants) (C := Demo.crypto)
    (fst Demo.boot_ticket) (fun i => nth i [66; 84; 99; 99] 0)
    (Demo.cur_nonce ++ [1; 2; 3]) Demo.w_app = 0
  /\ staging_payload (K := Demo.constants) Demo.w_app 0 2 = 255.
Proof.
  split; [|vm_compute; reflexivity].
  rewrite <- (lz_core_verify_staging_elem_hdr_extent (K := Demo.constants)
                (C := Demo.crypto) (fst Demo.boot_ticket)
                (staging_payload (K := Demo.constants) Demo.w_app 0)
                (fun i => nth i [66; 84; 99; 99] 0)
                Demo.cur_nonce (Demo.cur_nonce ++ [1; 2; 3]) Demo.w_app).
  - vm_compute. reflexivity.
  - intros i Hi.
    assert (Hsz : Z.to_nat (ah_payload_size (ah_content (fst Demo.boot_ticket)))
                  = 2%nat) by reflexivity.
    rewrite Hsz in Hi.
    destruct i as [|[|i]]; [vm_compute; reflexivity | vm_compute; reflexivity | lia].
  - vm_compute. reflexivity.
Defined.

(** A valid record of type [APP_UPDATE] passes [lz_verify_staging_header]; the
    valid boot ticket does not. *)
Lemma lz_verify_staging_header_update_types_only_witness :
  lz_verify_staging_header (K := Demo.constants) (C := Demo.crypto)
    (Demo.ticket APP_UPDATE [66; 84] Demo.cur_nonce Demo.mgmt_key)
    (staging_payload (K := Demo.constants) Demo.w_app 0) Demo.w_app = 0
  /\ lz_verify_staging_header (K := Demo.constants) (C := Demo.crypto)
       (fst Demo.boot_ticket)
       (staging_payload (K := Demo.constants) Demo.w_app 0) Demo.w_app = 1.
Proof.
  assert (H01 : LZ_SUCCESS (Constants := Demo.constants)
                <> LZ_ERROR (Constants := Demo.constants))
    by (vm_compute; discriminate).
  split.
  - destruct (lz_verify_staging_header_update_types_only (K := Demo.constants)
                (C := Demo.crypto)
                (Demo.ticket APP_UPDATE [66; 84] Demo.cur_nonce Demo.mgmt_key)
                (staging_payload (K := Demo.constants) Demo.w_app 0) Demo.w_app H01)
      as (Hiff & _).
    apply Hiff. split.
    + unfold staging_record_valid.
      repeat split; try (vm_compute; reflexivity); vm_compute; discriminate.
    + exists APP_UPDATE. split; [cbn; tauto | reflexivity].
  - destruct (lz_verify_staging_header_update_types_only (K := Demo.constants)
                (C := Demo.crypto) (fst Demo.boot_ticket)
                (staging_payload (K := Demo.constants) Demo.w_app 0) Demo.w_app H01)
      as (_ & Hrej).
    apply (Hrej ltac:(intros [] []; vm_compute; intros H;
                      first [reflexivity | discriminate H]) BOOT_TICKET).
    + cbn. intros H.
      repeat (destruct H as [H|H]; [discriminate H|]). exact H.
    + reflexivity.
Defined.

(** The staging area of a normal App boot holds two elements. *)
Lemma lz_get_num_staging_elems_exact_witness :
  lz_get_num_staging_elems (K := Demo.constants) 8 Demo.w_app = Some 2.
Proof.
  apply (lz_get_num_staging_elems_exact (K := Demo.constants) Demo.w_app 2 8).
  - intros i Hi. apply looks_validb_spec. revert i Hi.
    apply (forallb_below
             (fun i => looks_validb (K := Demo.constants) Demo.w_app
                         (cursor_after (K := Demo.constants) Demo.w_app i 0)) 2).
    vm_compute. reflexivity.
  - intros H. apply looks_validb_spec in H. vm_compute in H. discriminate H.
  - lia.
Defined.

(** A valid boot ticket followed by 255 further headers: the count reads 0
    and the Update Downloader is selected, although the first boot ticket for
    the current nonce is valid. *)
Lemma select_boot_mode_full_counter_reads_as_empty_witness :
  select_boot_mode (K := Fixtures.wide_constants) (C := Demo.crypto)
    (E := Demo.externals) 300 Fixtures.w_crowded
  = Continue LZ_UDOWNLOADER Fixtures.w_crowded
  /\ lz_has_valid_staging_element (K := Fixtures.wide_constants) (C := Demo.crypto)
       300 BOOT_TICKET Fixtures.w_crowded = Some 0.
Proof.
  split; [|vm_compute; reflexivity].
  apply (select_boot_mode_full_counter_reads_as_empty
           (K := Fixtures.wide_constants) (C := Demo.crypto) (E := Demo.externals)
           Fixtures.w_crowded 256 300).
  - intros i Hi. apply looks_validb_spec. revert i Hi.
    apply (forallb_below
             (fun i => looks_validb (K := Fixtures.wide_constants) Fixtures.w_crowded
                         (cursor_after (K := Fixtures.wide_constants)
                            Fixtures.w_crowded i 0)) 256).
    vm_compute. reflexivity.
  - intros H. apply looks_validb_spec in H. vm_compute in H. discriminate H.
  - reflexivity.
  - lia.
Defined.

(** A hub certificate entry of 100 bytes against a bag of 64: the store is
    left with magic 0 and the App's block is written all the same. *)
Lemma lz_core_create_cert_store_hub_overflow_witness :
  snd (lz_core_provide_params_ram (K := Demo.constants) (C := Demo.crypto)
         APP false false (mk_keypair [30; 40; 0; 0] [31; 41; 1; 1]) Demo.device_key
         Fixtures.w_big_hub) = 0
  /\ cs_magic (cs_info (lz_img_cert_store
       (fst (lz_core_provide_params_ram (K := Demo.constants) (C := Demo.crypto)
               APP false false (mk_keypair [30; 40; 0; 0] [31; 41; 1; 1])
               Demo.device_key Fixtures.w_big_hub)))) = 0.
Proof.
  destruct (lz_core_create_cert_store_hub_overflow (K := Demo.constants)
              (C := Demo.crypto) false false
              (mk_keypair [30; 40; 0; 0] [31; 41; 1; 1]) Demo.device_key
              Fixtures.w_big_hub) as (_ & Hp & Hm).
  - reflexivity.
  - vm_compute. reflexivity.
  - split; [exact Hp | exact Hm].
Defined.

(** A DeviceID certificate of 64 bytes in a bag of 64, no hub certificate:
    the test with [>] lets it pass, its terminator goes to [certBag[64]],
    the room handed to [lz_write_cert_to_pem] wraps to [0xFFFFFFFF], and the
    AliasID certificate is written behind the bag; the result is
    [LZ_SUCCESS] with the AliasID entry at 65 and the cursor at 69. *)
Lemma lz_core_create_cert_store_outcomes_witness :
  let r := lz_core_create_cert_store (K := Demo.constants) (C := Demo.crypto)
             APP (mk_keypair [30; 40; 0; 0] [31; 41; 1; 1]) Demo.device_key
             Fixtures.w_exact_fit in
  let cs := lz_img_cert_store (fst r) in
  snd r = 0
  /\ cs_cert_deviceid (cs_info cs) = mk_entry 0 64
  /\ cs_cert_aliasid (cs_info cs) = mk_entry 65 3
  /\ cs_cursor (cs_info cs) = 69
  /\ bag_overrun (K := Demo.constants) cs.
Proof.
  cbv zeta.
  pose proof (lz_core_create_cert_store_outcomes (K := Demo.constants)
                (C := Demo.crypto) APP (mk_keypair [30; 40; 0; 0] [31; 41; 1; 1])
                Demo.device_key Fixtures.w_exact_fit) as H.
  cbv zeta in H.
  destruct H as [H | [H | [H | H]]].
  - vm_compute. discriminate.
  - vm_compute. discriminate.
  - apply (f_equal snd) in H. vm_compute in H. discriminate H.
  - destruct H as (H & _). vm_compute in H. discriminate H.
  - destruct H as (_ & H & _). vm_compute in H. discriminate H.
  - destruct H as (_ & _ & _ & Hdev & _ & rc & pem & Hcall & Hout).
    assert (Hrc : rc = 0) by (vm_compute in Hcall; inversion Hcall; reflexivity).
    assert (Hpem : pem = [67; 69; 82; 0])
      by (vm_compute in Hcall; inversion Hcall; reflexivity).
    destruct Hout as [(Hnz & _) | (_ & Hs & _ & Hstart & Hcur & Hover)];
      [contradiction|].
    assert (Hsize : ce_size (cs_cert_aliasid (cs_info (lz_img_cert_store
              (fst (lz_core_create_cert_store (K := Demo.constants)
                      (C := Demo.crypto) APP
                      (mk_keypair [30; 40; 0; 0] [31; 41; 1; 1]) Demo.device_key
                      Fixtures.w_exact_fit))))) = 3) by (vm_compute; reflexivity).
    split; [exact Hs|]. split; [exact Hdev|]. split.
    { destruct (cs_cert_aliasid _) as [st sz]. cbn [ce_start ce_size] in *.
      rewrite Hstart, Hsize. vm_compute. reflexivity. }
    split.
    { rewrite Hcur, Hsize. vm_compute. reflexivity. }
    apply Hover. left. rewrite Hpem. vm_compute. reflexivity.
Defined.

(** The store built for the App of the demonstration device stays within its
    bag, and the run leaves flash, staging area, images and watchdog
    alone. *)
Lemma lz_core_provide_params_ram_frame_witness :
  let r := lz_core_provide_params_ram (K := Demo.constants) (C := Demo.crypto)
             APP false false (mk_keypair [30; 40; 0; 0] [31; 41; 1; 1])
             Demo.device_key Demo.w_app in
  length (cs_certBag (lz_img_cert_store (fst r))) = 64%nat
  /\ same_images Demo.w_app (fst r)
  /\ staging_hdr (fst r) = staging_hdr Demo.w_app
  /\ awdt (fst r) = awdt Demo.w_app.
Proof.
  cbv zeta. split; [vm_compute; reflexivity|].
  destruct (lz_core_provide_params_ram_frame (K := Demo.constants)
              (C := Demo.crypto) APP false false
              (mk_keypair [30; 40; 0; 0] [31; 41; 1; 1]) Demo.device_key
              Demo.w_app) as (Hi & Hh & _ & Ha & _).
  - unfold bag_overrun. intros H. vm_compute in H. lia.
  - split; [exact Hi|]. split; [exact Hh | exact Ha].
Defined.


(** The block for the Update Downloader carries the device UUID and the
    network credentials of the flash configuration. *)
Lemma lz_core_provide_params_ram_identity_and_network_witness :
  exists w' p,
    lz_core_provide_params_ram (K := Demo.constants) (C := Demo.crypto)
      LZ_UDOWNLOADER false true (mk_keypair [30; 40; 0; 0] [31; 41; 1; 1])
      Demo.device_key Demo.w_app = (w', 0)
    /\ params_ram w' = ImgView p
    /\ ip_magic p = Demo.MAGIC
    /\ ip_dev_uuid p = Demo.dev_uuid
    /\ nw_data p = mk_nw Demo.MAGIC [10; 0; 0; 1].
Proof.
  destruct (lz_core_provide_params_ram (K := Demo.constants) (C := Demo.crypto)
              LZ_UDOWNLOADER false true (mk_keypair [30; 40; 0; 0] [31; 41; 1; 1])
              Demo.device_key Demo.w_app) as [w' r] eqn:Hp.
  assert (Hr : r = 0) by (vm_compute in Hp; inversion Hp; reflexivity).
  subst r.
  assert (H01 : LZ_SUCCESS (Constants := Demo.constants)
                <> LZ_ERROR (Constants := Demo.constants))
    by (vm_compute; discriminate).
  destruct (lz_core_provide_params_ram_identity_and_network (K := Demo.constants)
              (C := Demo.crypto) LZ_UDOWNLOADER false true
              (mk_keypair [30; 40; 0; 0] [31; 41; 1; 1]) Demo.device_key
              Demo.w_app w' H01 Hp) as (p & Hram & Hm & _ & _ & Hu & Hnw).
  exists w', p. split; [reflexivity|]. split; [exact Hram|].
  split; [exact Hm|].
  split; [rewrite Hu | rewrite Hnw]; vm_compute; reflexivity.
Defined.

Lemma flash_keeps_config_fixture :
  flash_keeps_config (E := Fixtures.flash).
Proof.
  intros c w w' H. cbn in H. inversion H. reflexivity.
Qed.

(** A stored secret 09 08 07 06 is wiped to zero; wiping the result again
    changes nothing. *)
Lemma lz_core_wipe_static_symm_idempotent_witness :
  exists w1,
    lz_core_wipe_static_symm (K := Demo.constants) (E := Fixtures.flash)
      Fixtures.w_unwiped = (w1, 0)
    /\ ssi_static_symm (static_symm_info (config_data (lz_data_store w1)))
       = [0; 0; 0; 0]
    /\ ssi_dev_uuid (static_symm_info (config_data (lz_data_store w1)))
       = Demo.dev_uuid
    /\ lz_core_wipe_static_symm (K := Demo.constants) (E := Fixtures.flash) w1
       = (w1, 0).
Proof.
  destruct (lz_core_wipe_static_symm (K := Demo.constants) (E := Fixtures.flash)
              Fixtures.w_unwiped) as [w1 r] eqn:Hw.
  assert (Hr : r = 0) by (vm_compute in Hw; inversion Hw; reflexivity).
  subst r. exists w1. split; [reflexivity|].
  assert (H01 : LZ_SUCCESS (Constants := Demo.constants)
                <> LZ_ERROR (Constants := Demo.constants))
    by (vm_compute; discriminate).
  pose proof (lz_core_wipe_static_symm_idempotent (K := Demo.constants)
                (E := Fixtures.flash) Fixtures.w_unwiped w1 H01
                flash_keeps_config_fixture Hw) as H.
  cbv zeta in H. destruct H as (Hs & Hu & _ & _ & Hagain).
  split; [rewrite Hs; reflexivity|].
  split; [rewrite Hu; reflexivity|]. exact Hagain.
Defined.

(** First boot stores the secret 09 08 07 06 with the device UUID; the wipe
    of the next boot leaves the UUID and a secret of four zero bytes. *)
Lemma lz_core_store_then_wipe_static_symm_witness :
  exists w1 w3,
    lz_core_store_static_symm (K := Demo.constants) (E := Fixtures.flash)
      Fixtures.w_first_boot = (w1, 0)
    /\ static_symm_info (config_data (lz_data_store w1))
       = mk_ssi Demo.MAGIC Demo.dev_uuid [9; 8; 7; 6]
    /\ lz_core_wipe_static_symm (K := Demo.constants) (E := Fixtures.flash) w1
       = (w3, 0)
    /\ static_symm_info (config_data (lz_data_store w3))
       = mk_ssi Demo.MAGIC Demo.dev_uuid [0; 0; 0; 0].
Proof.
  destruct (lz_core_store_static_symm (K := Demo.constants) (E := Fixtures.flash)
              Fixtures.w_first_boot) as [w1 r] eqn:Hs.
  assert (Hr : r = 0) by (vm_compute in Hs; inversion Hs; reflexivity).
  subst r.
  assert (H01 : LZ_SUCCESS (Constants := Demo.constants)
                <> LZ_ERROR (Constants := Demo.constants))
    by (vm_compute; discriminate).
  destruct (lz_core_store_then_wipe_static_symm (K := Demo.constants)
              (E := Fixtures.flash) Fixtures.w_first_boot w1 H01
              flash_keeps_config_fixture eq_refl eq_refl Hs) as (Hcfg & Hlater).
  destruct (lz_core_wipe_static_symm (K := Demo.constants) (E := Fixtures.flash) w1)
    as [w3 r] eqn:Hw.
  assert (Hr : r = 0).
  { unfold lz_core_wipe_static_symm in Hw. rewrite Hcfg in Hw.
    cbn [ssi_static_symm] in Hw.
    assert (Hnz : lz_is_mem_zero
                    (bp_static_symm
                       (lz_core_boot_params (K := Demo.constants) Fixtures.w_first_boot))
                    (length
                       (bp_static_symm
                          (lz_core_boot_params (K := Demo.constants)
                             Fixtures.w_first_boot))) = false) by reflexivity.
    rewrite Hnz in Hw. cbn in Hw. inversion Hw. reflexivity. }
  subst r. exists w1, w3.
  split; [reflexivity|]. split; [exact Hcfg|]. split; [exact Hw|].
  exact (Hlater w1 w3 eq_refl Hw).
Defined.

(** A normal App boot: the App image passes verification in the state that
    is handed over. *)
Lemma lz_core_run_enters_verified_image_witness :
  exists e w',
    lz_core_run (K := Demo.constants) (C := Demo.crypto) (E := Demo.externals)
      8 Demo.stack Demo.w_app = Continue e w'
    /\ exit_boot_mode e = APP
    /\ fst (lz_core_verify_next_layer (K := Demo.constants) (C := Demo.crypto)
              APP (stack_next_layer_digest Demo.stack) w') = 0.
Proof.
  destruct (lz_core_run (K := Demo.constants) (C := Demo.crypto)
              (E := Demo.externals) 8 Demo.stack Demo.w_app)
    as [e w'| | | |] eqn:Hrun; try (vm_compute in Hrun; discriminate Hrun).
  assert (Hmode : exit_boot_mode e = APP).
  { pose proof Hrun as Hc. vm_compute in Hc. inversion Hc. reflexivity. }
  exists e, w'. split; [reflexivity|]. split; [exact Hmode|].
  assert (H01 : LZ_SUCCESS (Constants := Demo.constants)
                <> LZ_ERROR (Constants := Demo.constants))
    by (vm_compute; discriminate).
  rewrite <- Hmode.
  apply (lz_core_run_enters_verified_image (K := Demo.constants) (C := Demo.crypto)
           (E := Demo.externals) 8 Demo.stack Demo.w_app w' e H01 Hrun).
  left. rewrite Hmode. discriminate.
Defined.

(** App and Update Downloader both corrupted, behind a valid boot ticket: the
    run returns the Update Downloader, whose image fails verification in the
    state handed over, and the AliasID digest is the hash of the stack
    bytes AA .. AA and the DeviceID key. *)
Lemma lz_core_run_fallback_alias_from_stack_buffer_witness :
  exists e w',
    lz_core_run (K := Demo.constants) (C := Demo.crypto) (E := Demo.externals)
      8 Demo.stack Fixtures.w_both_corrupt = Continue e w'
    /\ exit_boot_mode e = LZ_UDOWNLOADER
    /\ exit_digest e
       = snd (lz_sha256_two_parts (Crypto := Demo.crypto) (repeat 170 32)
                [1; 2; 3; 4; 0; 0; 0; 0])
    /\ fst (lz_core_verify_next_layer (K := Demo.constants) (C := Demo.crypto)
              LZ_UDOWNLOADER (stack_next_layer_digest Demo.stack) w') = 1.
Proof.
  destruct (lz_core_run (K := Demo.constants) (C := Demo.crypto)
              (E := Demo.externals) 8 Demo.stack Fixtures.w_both_corrupt)
    as [e w'| | | |] eqn:Hrun; try (vm_compute in Hrun; discriminate Hrun).
  assert (Hblock : exists p, params_ram w' = ImgView p
                             /\ firmware_update_necessary p = true
                             /\ exit_pem e = [1; 2; 3; 4; 0; 0; 0; 0]
                             /\ fst (lz_core_verify_next_layer (K := Demo.constants)
                                       (C := Demo.crypto) LZ_UDOWNLOADER
                                       (stack_next_layer_digest Demo.stack) w') = 1).
  { pose proof Hrun as Hc. vm_compute in Hc. inversion Hc.
    eexists. split; [reflexivity|]. split; [reflexivity|].
    split; [reflexivity|]. vm_compute. reflexivity. }
  destruct Hblock as (p & Hp & Hfw & Hpem & Hud).
  assert (H01 : LZ_SUCCESS (Constants := Demo.constants)
                <> LZ_ERROR (Constants := Demo.constants))
    by (vm_compute; discriminate).
  destruct (lz_core_run_fallback_alias_from_stack_buffer (K := Demo.constants)
              (C := Demo.crypto) (E := Demo.externals) 8 Demo.stack
              Fixtures.w_both_corrupt w' e p H01 Hrun Hp Hfw)
    as (Hm & _ & Hd & _).
  exists e, w'. split; [reflexivity|]. split; [exact Hm|].
  split; [|exact Hud]. rewrite Hd, Hpem. reflexivity.
Defined.

(** A normal App boot: the AliasID digest is the hash of the App's code
    digest 0F 05 00 .. and the DeviceID key. *)
Lemma lz_core_run_alias_bound_to_verified_image_witness :
  exists e w',
    lz_core_run (K := Demo.constants) (C := Demo.crypto) (E := Demo.externals)
      8 Demo.stack Demo.w_app = Continue e w'
    /\ exit_digest e
       = snd (lz_sha256_two_parts (Crypto := Demo.crypto) (15 :: 5 :: zero_bytes 30)
                [1; 2; 3; 4; 0; 0; 0; 0]).
Proof.
  destruct (lz_core_run (K := Demo.constants) (C := Demo.crypto)
              (E := Demo.externals) 8 Demo.stack Demo.w_app)
    as [e w'| | | |] eqn:Hrun; try (vm_compute in Hrun; discriminate Hrun).
  assert (Hblock : exists p, params_ram w' = ImgView p
                             /\ firmware_update_necessary p = false
                             /\ exit_pem e = [1; 2; 3; 4; 0; 0; 0; 0]
                             /\ exit_boot_mode e = APP
                             /\ lz_app w' = Demo.good_app
                             /\ lz_data_store w' = Demo.data_store (Demo.meta 1 100)).
  { pose proof Hrun as Hc. vm_compute in Hc. inversion Hc.
    eexists. repeat split; vm_compute; reflexivity. }
  destruct Hblock as (p & Hp & Hfw & Hpem & Hmode & Happ & Hstore).
  assert (H01 : LZ_SUCCESS (Constants := Demo.constants)
                <> LZ_ERROR (Constants := Demo.constants))
    by (vm_compute; discriminate).
  assert (Haddrs : lz_core_get_next_layer_addrs (exit_boot_mode e) w'
                   = (Demo.good_app, Demo.meta 1 100)).
  { rewrite Hmode. unfold lz_core_get_next_layer_addrs. rewrite Happ, Hstore.
    reflexivity. }
  pose proof (lz_core_run_alias_bound_to_verified_image (K := Demo.constants)
                (C := Demo.crypto) (E := Demo.externals) 8 Demo.stack
                Demo.w_app w' e p) as H.
  cbv zeta in H. rewrite Haddrs in H. cbn [fst snd] in H.
  destruct (H H01 eq_refl eq_refl Hrun Hp Hfw eq_refl) as (_ & _ & _ & Hd).
  exists e, w'. split; [reflexivity|]. rewrite Hd, Hpem. reflexivity.
Defined.

(** A normal App boot ends with the next layer's block in RAM and the
    watchdog armed. *)
Lemma lz_core_run_handoff_state_witness :
  exists e w' p,
    lz_core_run (K := Demo.constants) (C := Demo.crypto) (E := Demo.externals)
      8 Demo.stack Demo.w_app = Continue e w'
    /\ awdt w' <> None
    /\ params_ram w' = ImgView p
    /\ ip_magic p = Demo.MAGIC.
Proof.
  destruct (lz_core_run (K := Demo.constants) (C := Demo.crypto)
              (E := Demo.externals) 8 Demo.stack Demo.w_app)
    as [e w'| | | |] eqn:Hrun; try (vm_compute in Hrun; discriminate Hrun).
  assert (H01 : LZ_SUCCESS (Constants := Demo.constants)
                <> LZ_ERROR (Constants := Demo.constants))
    by (vm_compute; discriminate).
  destruct (lz_core_run_handoff_state (K := Demo.constants) (C := Demo.crypto)
              (E := Demo.externals) 8 Demo.stack Demo.w_app w' e H01 Hrun)
    as (Harmed & _ & p & Hp & Hm & _).
  exists e, w', p. split; [reflexivity|]. split; [exact Harmed|].
  split; [exact Hp | exact Hm].
Defined.

(** The toy signer's signature over 01 02 03 is accepted by the verifier. *)
Lemma lz_ecdsa_sign_verify_roundtrip_witness :
  exists sig,
    lz_ecdsa_sign (K := Demo.constants) (C := Demo.crypto) (G := Fixtures.signing)
      [1; 2; 3] Demo.device_key [] (mk_signature (zero_bytes 8) 5) = (0, sig)
    /\ sig_length sig = 4
    /\ lz_ecdsa_verify (K := Demo.constants) (C := Demo.crypto)
         [1; 2; 3] Demo.device_key sig = 0.
Proof.
  destruct (lz_ecdsa_sign (K := Demo.constants) (C := Demo.crypto)
              (G := Fixtures.signing) [1; 2; 3] Demo.device_key []
              (mk_signature (zero_bytes 8) 5)) as [r sig] eqn:Hs.
  assert (Hr : r = 0 /\ sig_length sig = 4)
    by (vm_compute in Hs; inversion Hs; split; reflexivity).
  destruct Hr as [-> Hlen].
  exists sig. split; [reflexivity|]. split; [exact Hlen|].
  apply (lz_ecdsa_sign_verify_roundtrip (K := Demo.constants) (C := Demo.crypto)
           (G := Fixtures.signing) [1; 2; 3] Demo.device_key []
           (mk_signature (zero_bytes 8) 5) sig).
  - reflexivity.
  - intros k hash r s0 s H. cbn in H. inversion H. subst s.
    unfold sig_data. cbn [sig_bytes sig_length].
    rewrite Nat2Z.id, firstn_app, firstn_all, Nat.sub_diag.
    cbn [firstn]. rewrite app_nil_r.
    cbn [mbedtls_pk_verify Demo.crypto]. unfold Demo.bytes_eqb.
    destruct (list_eq_dec Z.eq_dec _ _) as [_|Hne];
      [reflexivity | exfalso; apply Hne; reflexivity].
  - exact Hs.
Defined.

(** A normal App boot on a board whose [APP] enumerator is 0: [main] enters
    the App by a non-secure call through its reset vector. *)
Lemma main_enters_returned_layer_witness :
  exists entry w',
    main (K := Demo.constants) (C := Demo.crypto) (E := Demo.externals)
      (B := Fixtures.board) 8 Demo.stack Demo.w_app
    = Entered APP NonSecureCall entry w'
    /\ entry = 1017
    /\ exists e,
         lz_core_run (K := Demo.constants) (C := Demo.crypto) (E := Demo.externals)
           8 Demo.stack Demo.w_app = Continue e w'
         /\ exit_boot_mode e = APP.
Proof.
  destruct (main (K := Demo.constants) (C := Demo.crypto) (E := Demo.externals)
              (B := Fixtures.board) 8 Demo.stack Demo.w_app)
    as [layer kind entry w'| | | |] eqn:Hmain;
    try (vm_compute in Hmain; discriminate Hmain).
  assert (Hlk : layer = APP /\ kind = NonSecureCall /\ entry = 1017).
  { pose proof Hmain as Hc. vm_compute in Hc. inversion Hc.
    repeat split; reflexivity. }
  destruct Hlk as (-> & -> & ->).
  exists 1017, w'. split; [reflexivity|]. split; [reflexivity|].
  destruct (main_enters_returned_layer (K := Demo.constants) (C := Demo.crypto)
              (E := Demo.externals) (B := Fixtures.board) 8 Demo.stack
              Demo.w_app w' APP NonSecureCall 1017
              ltac:(intros [] []; vm_compute; intros H;
                    first [reflexivity | discriminate H]) Hmain)
    as (_ & _ & w & Hinit & Hcases).
  cbn in Hinit. inversion Hinit. subst w.
  destruct Hcases as [(e & Hrun & Hm) | (Hrf & _)].
  - exists e. split; assumption.
  - vm_compute in Hrf. discriminate Hrf.
Defined.

(** With a two-part hash that fails, [lz_core_run] returns [false]; on a
    board whose [APP] enumerator is 0 [main] enters the App while the shared
    RAM block still holds the Core's boot parameters. *)
Lemma main_after_return_false_witness :
  exists w',
    lz_core_run (K := Demo.constants) (C := Fixtures.failing_alias_hash)
      (E := Demo.externals) 8 Demo.stack Demo.w_app = ReturnFalse w'
    /\ main (K := Demo.constants) (C := Fixtures.failing_alias_hash)
         (E := Demo.externals) (B := Fixtures.board) 8 Demo.stack Demo.w_app
       = Entered APP NonSecureCall 1017 w'
    /\ params_ram w' = CoreView Demo.core_params
    /\ awdt w' = None.
Proof.
  destruct (lz_core_run (K := Demo.constants) (C := Fixtures.failing_alias_hash)
              (E := Demo.externals) 8 Demo.stack Demo.w_app)
    as [| w' | | |] eqn:Hrun; try (vm_compute in Hrun; discriminate Hrun).
  assert (Hstate : params_ram w' = CoreView Demo.core_params /\ awdt w' = None
                   /\ img_code_addr (lz_app w') = 1016).
  { pose proof Hrun as Hc. vm_compute in Hc. inversion Hc.
    repeat split; reflexivity. }
  destruct Hstate as (Hp & Ha & Haddr).
  exists w'. split; [reflexivity|].
  destruct (main_after_return_false (K := Demo.constants)
              (C := Fixtures.failing_alias_hash) (E := Demo.externals)
              (B := Fixtures.board) 8 Demo.stack Demo.w_app Demo.w_app w'
              eq_refl Hrun) as (_ & _ & Happ).
  split; [|split; assumption].
  rewrite (Happ eq_refl ltac:(discriminate) ltac:(discriminate)).
  cbn [reset_vector Fixtures.board]. rewrite Haddr. reflexivity.
Defined.

(** The toy signer's signature made with the PEM key 01 02 03 04 is accepted
    by the raw verifier under the imported key pair. *)
Lemma lz_ecdsa_sign_pem_verify_pub_roundtrip_witness :
  exists sig,
    lz_ecdsa_sign_pem (K := Demo.constants) (C := Demo.crypto)
      (G := Fixtures.signing) [1; 2; 3] [1; 2; 3; 4] []
      (mk_signature (zero_bytes 8) 5) = (0, sig)
    /\ lz_ecdsa_verify_pub (K := Demo.constants) (C := Demo.crypto)
         (G := Fixtures.signing) [1; 2; 3]
         (mk_keypair [1; 2; 3; 4] [2; 3; 4; 5]) sig = 0.
Proof.
  destruct (lz_ecdsa_sign_pem (K := Demo.constants) (C := Demo.crypto)
              (G := Fixtures.signing) [1; 2; 3] [1; 2; 3; 4] []
              (mk_signature (zero_bytes 8) 5)) as [r sig] eqn:Hs.
  assert (Hr : r = 0) by (vm_compute in Hs; inversion Hs; reflexivity).
  subst r. exists sig. split; [reflexivity|].
  destruct (lz_ecdsa_sign_pem_verify_pub_roundtrip (K := Demo.constants)
              (C := Demo.crypto) (G := Fixtures.signing) [1; 2; 3] [1; 2; 3; 4] []
              (mk_signature (zero_bytes 8) 5) sig) as (_ & _ & Hv).
  - reflexivity.
  - intros k hash r s0 s H. cbn in H. inversion H. subst s.
    unfold sig_data. cbn [sig_bytes sig_length].
    rewrite Nat2Z.id, firstn_app, firstn_all, Nat.sub_diag.
    cbn [firstn]. rewrite app_nil_r.
    cbn [mbedtls_ecdsa_read_signature Fixtures.signing]. unfold Demo.bytes_eqb.
    destruct (list_eq_dec Z.eq_dec _ _) as [_|Hne];
      [reflexivity | exfalso; apply Hne; reflexivity].
  - exact Hs.
  - exact Hv.
Defined.

(** On flash that rejects every write, a first boot and a later boot with a
    secret still to wipe both end in the error handler with nothing
    changed. *)
Lemma lz_core_run_halts_on_flash_failure_witness :
  lz_core_run (K := Demo.constants) (C := Demo.crypto) (E := Fixtures.dead_flash)
    8 Demo.stack Fixtures.w_first_boot = ErrorHandler Fixtures.w_first_boot
  /\ lz_core_run (K := Demo.constants) (C := Demo.crypto) (E := Fixtures.dead_flash)
       8 Demo.stack Fixtures.w_unwiped = ErrorHandler Fixtures.w_unwiped.
Proof.
  assert (H01 : LZ_SUCCESS (Constants := Demo.constants)
                <> LZ_ERROR (Constants := Demo.constants))
    by (vm_compute; discriminate).
  split.
  - destruct (lz_core_run_halts_on_flash_failure (K := Demo.constants)
                (C := Demo.crypto) (E := Fixtures.dead_flash) 8 Demo.stack
                Fixtures.w_first_boot Fixtures.w_first_boot H01 eq_refl eq_refl)
      as (Hfirst & _).
    apply Hfirst; reflexivity.
  - destruct (lz_core_run_halts_on_flash_failure (K := Demo.constants)
                (C := Demo.crypto) (E := Fixtures.dead_flash) 8 Demo.stack
                Fixtures.w_unwiped Fixtures.w_unwiped H01 eq_refl eq_refl)
      as (_ & Hlater).
    apply Hlater; [reflexivity | vm_compute; discriminate].
Defined.
